(** * Execution core of the smart-contract VM host: gas metering and sub-calls

    A shallow embedding of the metering context
    (src/vmhost/contexts/metering.go) and of the host dispatcher
    (src/unnamed/part_000), with the properties the specification states
    about them.

    Conventions.  A Go [uint64] is a [Z] in [0, 2^64); where the source uses
    the native operators the wrap-around is written out with [wrap64].  A Go
    [error] is an [option error], [None] standing for [nil].  A Go [map] is
    the list of its entries in the order in which one [range] visits them. *)

From Stdlib Require Import ZArith List String Bool Lia.
From Stdlib.Strings Require Import Byte.
Import ListNotations.
Local Open Scope Z_scope.

(** ** Machine integers *)

Definition MaxUint64 : Z := 2 ^ 64 - 1.

Definition uint64 (n : Z) : Prop := 0 <= n <= MaxUint64.

(** Result of a native [uint64] operation whose exact value is [n]. *)
Definition wrap64 (n : Z) : Z := n mod 2 ^ 64.

(** Result of a native [int32] operation whose exact value is [n]. *)
Definition wrap32 (n : Z) : Z := (n + 2 ^ 31) mod 2 ^ 32 - 2 ^ 31.

(** ** Byte slices *)

Definition bytes : Type := list byte.

(** [bytes.Equal]. *)
Fixpoint bytes_Equal (a b : bytes) : bool :=
  match a, b with
  | [], [] => true
  | x :: a', y :: b' => Byte.eqb x y && bytes_Equal a' b'
  | _, _ => false
  end.

(** ** Errors

    The sentinel errors of the VM packages the two files return, and
    [ErrForeign] for an error value made elsewhere ([encoding/json], a hook),
    carried with its message. *)

Inductive error : Type :=
| ErrNotEnoughGas
| ErrInputAndOutputGasDoesNotMatch
| ErrInitFuncCalledInRun
| ErrCallBackFuncCalledInRun
| ErrCallBackFuncNotExpected
| ErrReturnCodeNotOk
| ErrForeign (message : string).

(** Closed comparisons of literals, settled by evaluation. *)
Ltac uint64_literal :=
  vm_compute; repeat split; first [reflexivity | discriminate].

(** * The metering context (src/vmhost/contexts/metering.go) *)

Module Metering.

(** The types of the [vmcommon] package are not among the sources; section 3
    of the specification lists what a VM output holds.  The fields kept are
    those the metering context reads. *)

(** Modelled from the spec: [vmcommon.OutputTransfer], one of the "transfers
    out" of an account, with its gas limit and locked gas. *)
Record OutputTransfer : Type := mkOutputTransfer {
  GasLimit : Z;
  GasLocked : Z
}.

(** Modelled from the spec: [vmcommon.OutputAccount], the "per-account
    deltas": gas used and transfers out. *)
Record OutputAccount : Type := mkOutputAccount {
  GasUsed : Z;
  OutputTransfers : list OutputTransfer
}.

(** Modelled from the spec: [vmcommon.VMOutput], the per-account deltas and
    the gas remaining.  [OutputAccounts] is a Go map keyed by address. *)
Record VMOutput : Type := mkVMOutput {
  OutputAccounts : list (string * OutputAccount);
  GasRemaining : Z
}.

(** What is asked of the addition of the [math] package. *)
Definition exact_below_overflow (add : Z -> Z -> Z) : Prop :=
  forall a b, uint64 a -> uint64 b -> a + b <= MaxUint64 -> add a b = a + b.

Definition uint64_valued (add : Z -> Z -> Z) : Prop :=
  forall a b, uint64 a -> uint64 b -> uint64 (add a b).

(** The gas the specification adds up, as exact integers: for every output
    account its [GasUsed] and the [GasLimit] and [GasLocked] of each of its
    transfers, and the [GasRemaining] of the VM output on top. *)
Definition gasOfTransfers (transfers : list OutputTransfer) : Z :=
  fold_right (fun t sum => GasLimit t + GasLocked t + sum) 0 transfers.

Definition gasOfAccounts (accounts : list (string * OutputAccount)) : Z :=
  fold_right
    (fun entry sum =>
       GasUsed (snd entry) + gasOfTransfers (OutputTransfers (snd entry)) + sum)
    0 accounts.

(** Every gas field of the output accounts holds a [uint64]. *)
Definition uint64_transfer (t : OutputTransfer) : Prop :=
  uint64 (GasLimit t) /\ uint64 (GasLocked t).

Definition uint64_accounts (accounts : list (string * OutputAccount)) : Prop :=
  Forall
    (fun entry =>
       uint64 (GasUsed (snd entry)) /\
       Forall uint64_transfer (OutputTransfers (snd entry)))
    accounts.

(** What the metering context calls and the file does not define.
    [math.AddUint64] belongs to a package that is not among the sources;
    [exact_below_overflow] and [uint64_valued] say what is asked of it where
    a result depends on it.  The gas tracer ([vmhost.GasTracing]) is an
    interface, of which only [AddToCurrentTrace] is called here. *)
Class Collaborators : Type := {
  AddUint64 : Z -> Z -> Z;
  Tracer : Type;
  AddToCurrentTrace : Z -> Tracer -> Tracer
}.

(** What the context reaches through [context.host]:
    [host.Runtime().GetPointsUsed()] / [SetPointsUsed] and
    [host.Output().GetOutputAccounts()]. *)
Record VMHost : Type := mkVMHost {
  pointsUsed : Z;
  outputAccounts : list (string * OutputAccount)
}.

(** A Go [map[string]uint64]: reading a missing key gives 0, writing one
    adds it. *)
Fixpoint gasOf (address : string) (gasUsed : list (string * Z)) : Z :=
  match gasUsed with
  | [] => 0
  | (key, gas) :: rest =>
      if (key =? address)%string then gas else gasOf address rest
  end.

Fixpoint setGasOf (address : string) (gas : Z) (gasUsed : list (string * Z))
  : list (string * Z) :=
  match gasUsed with
  | [] => [(address, gas)]
  | (key, old) :: rest =>
      if (key =? address)%string then (key, gas) :: rest
      else (key, old) :: setGasOf address gas rest
  end.

(** What [PushState] puts on the state stack: a [meteringContext] of which
    these four fields only are set. *)
Record savedState : Type := mkSavedState {
  savedInitialGasProvided : Z;
  savedInitialCost : Z;
  savedGasForExecution : Z;
  savedGasUsedByAccounts : list (string * Z)
}.

Section MeteringContext.

Context {collaborators : Collaborators}.

(** The struct, without the gas schedule, the block gas limit and the
    tracing flag, which the methods embedded here do not read. *)
Record meteringContext : Type := mkMeteringContext {
  host : VMHost;
  stateStack : list savedState;
  initialGasProvided : Z;
  initialCost : Z;
  gasForExecution : Z;
  gasUsedByAccounts : list (string * Z);
  gasTracer : Tracer
}.

(** [cloneGasUsedByAccounts]. *)
Definition cloneGasUsedByAccounts (context : meteringContext)
  : list (string * Z) :=
  fold_left
    (fun clone (entry : string * Z) => setGasOf (fst entry) (snd entry) clone)
    (gasUsedByAccounts context) [].

(** [addToGasUsedByAccounts], on the map of the context. *)
Definition addToGasUsedByAccounts (gasUsed current : list (string * Z))
  : list (string * Z) :=
  fold_left
    (fun current (entry : string * Z) =>
       setGasOf (fst entry)
         (wrap64 (gasOf (fst entry) current + snd entry)) current)
    gasUsed current.

(** [PushState]: the top of the stack is the head of the list. *)
Definition PushState (context : meteringContext) : meteringContext :=
  let newState :=
    mkSavedState (initialGasProvided context) (initialCost context)
      (gasForExecution context) (cloneGasUsedByAccounts context) in
  mkMeteringContext (host context) (newState :: stateStack context)
    (initialGasProvided context) (initialCost context)
    (gasForExecution context) (gasUsedByAccounts context)
    (gasTracer context).

(** [PopSetActiveState]. *)
Definition PopSetActiveState (context : meteringContext) : meteringContext :=
  match stateStack context with
  | [] => context
  | prevState :: rest =>
      mkMeteringContext (host context) rest
        (savedInitialGasProvided prevState) (savedInitialCost prevState)
        (savedGasForExecution prevState) (savedGasUsedByAccounts prevState)
        (gasTracer context)
  end.

(** [PopDiscard]. *)
Definition PopDiscard (context : meteringContext) : meteringContext :=
  match stateStack context with
  | [] => context
  | _ :: rest =>
      mkMeteringContext (host context) rest
        (initialGasProvided context) (initialCost context)
        (gasForExecution context) (gasUsedByAccounts context)
        (gasTracer context)
  end.

(** [PopMergeActiveState]. *)
Definition PopMergeActiveState (context : meteringContext)
  : meteringContext :=
  match stateStack context with
  | [] => context
  | prevState :: rest =>
      mkMeteringContext (host context) rest
        (savedInitialGasProvided prevState) (savedInitialCost prevState)
        (savedGasForExecution prevState)
        (addToGasUsedByAccounts (savedGasUsedByAccounts prevState)
           (gasUsedByAccounts context))
        (gasTracer context)
  end.

Definition SetPointsUsed (gasUsed : Z) (context : meteringContext)
  : meteringContext :=
  mkMeteringContext
    (mkVMHost gasUsed (outputAccounts (host context)))
    (stateStack context)
    (initialGasProvided context) (initialCost context)
    (gasForExecution context) (gasUsedByAccounts context)
    (gasTracer context).

Definition traceGas (usedGas : Z) (context : meteringContext)
  : meteringContext :=
  mkMeteringContext (host context) (stateStack context)
    (initialGasProvided context) (initialCost context)
    (gasForExecution context) (gasUsedByAccounts context)
    (AddToCurrentTrace usedGas (gasTracer context)).

(** [UseGas]: sets in the runtime context the given gas as gas used. *)
Definition UseGas (gas : Z) (context : meteringContext) : meteringContext :=
  let gasUsed := AddUint64 (pointsUsed (host context)) gas in
  SetPointsUsed gasUsed context.

(** [GasLeft]: the subtraction is the native one. *)
Definition GasLeft (context : meteringContext) : Z :=
  let gasProvided := gasForExecution context in
  let gasUsed := pointsUsed (host context) in
  if gasProvided <? gasUsed then 0
  else wrap64 (gasProvided - gasUsed).

(** [GetGasProvided]. *)
Definition GetGasProvided (context : meteringContext) : Z :=
  initialGasProvided context.

(** [UseGasBounded]. *)
Definition UseGasBounded (gasToUse : Z) (context : meteringContext)
  : meteringContext * option error :=
  if GasLeft context <=? gasToUse then (context, Some ErrNotEnoughGas)
  else
    let context := UseGas gasToUse context in
    let context := traceGas gasToUse context in
    (context, None).

(** [getGasTransferredByAccount]. *)
Definition getGasTransferredByAccount (account : OutputAccount) : Z :=
  fold_left
    (fun gasUsed outputTransfer =>
       let gasUsed := AddUint64 gasUsed (GasLimit outputTransfer) in
       AddUint64 gasUsed (GasLocked outputTransfer))
    (OutputTransfers account) 0.

(** [getCurrentTotalUsedGas]: one pass over the output accounts of the host. *)
Definition getCurrentTotalUsedGas (context : meteringContext) : Z :=
  fold_left
    (fun gasUsed (entry : string * OutputAccount) =>
       let outputAccount := snd entry in
       let gasTransferred := getGasTransferredByAccount outputAccount in
       let gasUsed := AddUint64 gasUsed (GasUsed outputAccount) in
       AddUint64 gasUsed gasTransferred)
    (outputAccounts (host context)) 0.

(** [checkGas]. *)
Definition checkGas (vmOutput : VMOutput) (context : meteringContext)
  : option error :=
  let gasUsed := getCurrentTotalUsedGas context in
  let totalGas := AddUint64 gasUsed (GasRemaining vmOutput) in
  let gasProvided := GetGasProvided context in
  if negb (totalGas =? gasProvided)
  then Some ErrInputAndOutputGasDoesNotMatch
  else None.

(** The sum of the specification for one metering context and VM output. *)
Definition gasAccountedFor (vmOutput : VMOutput) (context : meteringContext)
  : Z :=
  gasOfAccounts (outputAccounts (host context)) + GasRemaining vmOutput.

End MeteringContext.

(** ** Gas provided, deducted and given back

    The methods below read what the struct above leaves out.  The gas
    schedule ([context.gasSchedule]), the VM input of the running call
    ([context.host.Runtime().GetVMInput()]), the address of the running
    contract ([context.host.Runtime().GetContextAddress()]) and the size of
    its code ([context.host.Runtime().GetSCCodeSize()]) are arguments of the
    methods that read them. *)

(** [math.SubUint64] and [math.MulUint64], of the package of
    [math.AddUint64]; [exact_above_underflow] and [exact_product] say what is
    asked of them where a result depends on it. *)
Class Arithmetic : Type := {
  SubUint64 : Z -> Z -> Z;
  MulUint64 : Z -> Z -> Z
}.

Definition exact_above_underflow (sub : Z -> Z -> Z) : Prop :=
  forall a b, uint64 a -> uint64 b -> b <= a -> sub a b = a - b.

Definition exact_product (mul : Z -> Z -> Z) : Prop :=
  forall a b, uint64 a -> uint64 b -> a * b <= MaxUint64 -> mul a b = a * b.

(** [vm.CallType]. *)
Inductive CallType : Type :=
| DirectCall
| AsynchronousCall
| AsynchronousCallBack.

(** Modelled from the spec: [vmcommon.VMInput], of which the metering context
    reads the call type, the gas provided and the gas locked
    ([inputGasLocked] is its field [GasLocked]). *)
Record VMInput : Type := mkVMInput {
  callType : CallType;
  GasProvided : Z;
  inputGasLocked : Z
}.

(** Modelled from the spec: the gas schedule ([config.GasCost]), with the
    entries of [BaseOperationCost] and [BaseOpsAPICost] that the metering
    context reads. *)
Record BaseOperationCost : Type := mkBaseOperationCost {
  AoTPreparePerByte : Z;
  CompilePerByte : Z;
  GetCode : Z
}.

Record BaseOpsAPICost : Type := mkBaseOpsAPICost {
  CreateContract : Z;
  AsyncCallStep : Z;
  AsyncCallbackGasLock : Z
}.

Record GasCost : Type := mkGasCost {
  baseOperationCost : BaseOperationCost;
  baseOpsAPICost : BaseOpsAPICost
}.

(** Whether a Go map of output accounts has the key. *)
Definition hasAccount (address : string)
  (accounts : list (string * OutputAccount)) : bool :=
  existsb (fun entry => (fst entry =? address)%string) accounts.

(** The sums that [getGasUsedByAllOtherAccounts] adds up, as exact integers:
    the transfers of every output account, and the gas recorded for every
    address but the current one. *)
Definition gasTransferredByAll (accounts : list (string * OutputAccount))
  : Z :=
  fold_right
    (fun entry sum => gasOfTransfers (OutputTransfers (snd entry)) + sum)
    0 accounts.

Definition gasRecordedForOthers (current : string)
  (gasUsed : list (string * Z)) (accounts : list (string * OutputAccount))
  : Z :=
  fold_right
    (fun entry sum =>
       (if (fst entry =? current)%string then 0
        else gasOf (fst entry) gasUsed) + sum)
    0 accounts.

Section GasAccounting.

Context {collaborators : Collaborators} {arithmetic : Arithmetic}.

(** [InitState]: [newGasTracer] is the tracer that [NewEnabledGasTracer] or
    [NewDisabledGasTracer] makes, as [traceGasEnabled] says. *)
Definition InitState (newGasTracer : Tracer) (context : meteringContext)
  : meteringContext :=
  mkMeteringContext (host context) (stateStack context) 0 0 0 []
    newGasTracer.

(** [unlockGasIfAsyncCallback]: the input is behind a pointer and is returned
    as the method leaves it. *)
Definition unlockGasIfAsyncCallback (input : VMInput)
  (context : meteringContext) : meteringContext * VMInput :=
  match callType input with
  | AsynchronousCallBack =>
      let gasProvided :=
        AddUint64 (GasProvided input) (inputGasLocked input) in
      (mkMeteringContext (host context) (stateStack context)
         (initialGasProvided context) (initialCost context)
         gasProvided (gasUsedByAccounts context) (gasTracer context),
       mkVMInput (callType input) gasProvided 0)
  | _ => (context, input)
  end.

(** [InitStateFromContractCallInput]. *)
Definition InitStateFromContractCallInput (newGasTracer : Tracer)
  (input : VMInput) (context : meteringContext)
  : meteringContext * VMInput :=
  let context := InitState newGasTracer context in
  let (context, input) := unlockGasIfAsyncCallback input context in
  (mkMeteringContext (host context) (stateStack context)
     (GasProvided input) (initialCost context)
     (GasProvided input) (gasUsedByAccounts context) (gasTracer context),
   input).

(** [UseAndTraceGas]. *)
Definition UseAndTraceGas (gas : Z) (context : meteringContext)
  : meteringContext :=
  traceGas gas (UseGas gas context).

(** [RestoreGas]. *)
Definition RestoreGas (gas : Z) (context : meteringContext)
  : meteringContext :=
  let gasUsed := pointsUsed (host context) in
  if gas <=? gasUsed then
    let gasUsed := SubUint64 gasUsed gas in
    SetPointsUsed gasUsed context
  else context.

(** [GasSpentByContract]. *)
Definition GasSpentByContract (context : meteringContext) : Z :=
  let executionGasUsed := pointsUsed (host context) in
  AddUint64 (initialCost context) executionGasUsed.

(** [GasUsedForExecution]. *)
Definition GasUsedForExecution (context : meteringContext) : Z :=
  let gasUsed := GasSpentByContract context in
  SubUint64 gasUsed (initialCost context).

(** [GetGasForExecution]. *)
Definition GetGasForExecution (context : meteringContext) : Z :=
  gasForExecution context.

(** [GetSCPrepareInitialCost]. *)
Definition GetSCPrepareInitialCost (context : meteringContext) : Z :=
  initialCost context.

(** [BoundGasLimit]: [value] is an [int64], which the conversion to [uint64]
    reads modulo 2^64. *)
Definition BoundGasLimit (value : Z) (context : meteringContext) : Z :=
  let gasLeft := GasLeft context in
  let limit := wrap64 value in
  if gasLeft <? limit then gasLeft else limit.

(** [UseGasForAsyncStep]. *)
Definition UseGasForAsyncStep (gasSchedule : GasCost)
  (context : meteringContext) : meteringContext * option error :=
  let gasToDeduct := AsyncCallStep (baseOpsAPICost gasSchedule) in
  UseGasBounded gasToDeduct context.

(** [ComputeGasLockedForAsync]. *)
Definition ComputeGasLockedForAsync (gasSchedule : GasCost) (codeSize : Z)
  : Z :=
  let baseGasSchedule := baseOperationCost gasSchedule in
  let apiGasSchedule := baseOpsAPICost gasSchedule in
  let costPerByte := AoTPreparePerByte baseGasSchedule in
  let compilationGasLock := MulUint64 codeSize costPerByte in
  let executionGasLock :=
    AddUint64 (AsyncCallStep apiGasSchedule)
      (AsyncCallbackGasLock apiGasSchedule) in
  AddUint64 compilationGasLock executionGasLock.

(** [GetGasLocked]. *)
Definition GetGasLocked (input : VMInput) : Z := inputGasLocked input.

(** [deductInitialGas]: the comparison guards the native subtraction. *)
Definition deductInitialGas (input : VMInput) (code : bytes)
  (baseCost costPerByte : Z) (context : meteringContext)
  : meteringContext * option error :=
  let codeLength := Z.of_nat (List.length code) in
  let codeCost := MulUint64 codeLength costPerByte in
  let initialCost := AddUint64 baseCost codeCost in
  if initialCost >? GasProvided input then (context, Some ErrNotEnoughGas)
  else
    (mkMeteringContext (host context) (stateStack context)
       (initialGasProvided context) initialCost
       (wrap64 (GasProvided input - initialCost))
       (gasUsedByAccounts context) (gasTracer context),
     None).

(** [DeductInitialGasForExecution]. *)
Definition DeductInitialGasForExecution (gasSchedule : GasCost)
  (input : VMInput) (contract : bytes) (context : meteringContext)
  : meteringContext * option error :=
  let costPerByte := AoTPreparePerByte (baseOperationCost gasSchedule) in
  let baseCost := GetCode (baseOperationCost gasSchedule) in
  deductInitialGas input contract baseCost costPerByte context.

(** [DeductInitialGasForDirectDeployment], of the [ContractCode] of its
    [vmhost.CodeDeployInput]. *)
Definition DeductInitialGasForDirectDeployment (gasSchedule : GasCost)
  (input : VMInput) (ContractCode : bytes) (context : meteringContext)
  : meteringContext * option error :=
  deductInitialGas input ContractCode
    (CreateContract (baseOpsAPICost gasSchedule))
    (CompilePerByte (baseOperationCost gasSchedule)) context.

(** [DeductInitialGasForIndirectDeployment]. *)
Definition DeductInitialGasForIndirectDeployment (gasSchedule : GasCost)
  (input : VMInput) (ContractCode : bytes) (context : meteringContext)
  : meteringContext * option error :=
  deductInitialGas input ContractCode 0
    (CompilePerByte (baseOperationCost gasSchedule)) context.

(** [getGasUsedByAllOtherAccounts]. *)
Definition getGasUsedByAllOtherAccounts (currentAccountAddress : string)
  (outputAccounts : list (string * OutputAccount))
  (context : meteringContext) : Z :=
  fold_left
    (fun gasUsedAndTransferred (entry : string * OutputAccount) =>
       let address := fst entry in
       let account := snd entry in
       let gasTransferred := getGasTransferredByAccount account in
       let gasUsed :=
         if negb (address =? currentAccountAddress)%string
         then gasOf address (gasUsedByAccounts context)
         else 0 in
       let gasUsedAndTransferred :=
         AddUint64 gasUsedAndTransferred gasUsed in
       AddUint64 gasUsedAndTransferred gasTransferred)
    outputAccounts 0.

(** [setGasUsedToOutputAccounts]: the accounts of the VM output are behind
    pointers, and the VM output is returned as the method leaves it, also
    when it returns the error. *)
Definition setGasUsedToOutputAccounts (vmOutput : VMOutput)
  (context : meteringContext) : VMOutput * option error :=
  let accounts :=
    map
      (fun entry : string * OutputAccount =>
         (fst entry,
          mkOutputAccount (gasOf (fst entry) (gasUsedByAccounts context))
            (OutputTransfers (snd entry))))
      (OutputAccounts vmOutput) in
  let vmOutput := mkVMOutput accounts (GasRemaining vmOutput) in
  if forallb (fun entry : string * Z => hasAccount (fst entry) accounts)
       (gasUsedByAccounts context)
  then (vmOutput, None)
  else
    (vmOutput,
     Some (ErrForeign "expected OutputAccount has used gas but is missing")).

End GasAccounting.

(** ** Concrete metering states

    An addition that clamps at [MaxUint64], which meets both requirements, a
    tracer that records the amounts, and the collaborators made of an
    addition and that tracer. *)
Definition AddUint64_clamped (a b : Z) : Z :=
  if a + b <=? MaxUint64 then a + b else MaxUint64.

Definition recordAmount (gas : Z) (trace : list Z) : list Z := gas :: trace.

Definition collaboratorsWith (add : Z -> Z -> Z) : Collaborators := {|
  AddUint64 := add;
  Tracer := list Z;
  AddToCurrentTrace := recordAmount
|}.

Definition clampedCollaborators : Collaborators :=
  collaboratorsWith AddUint64_clamped.

(** A context with the given points used and gas for execution and no
    output account. *)
Definition contextWith (used forExecution : Z)
  : meteringContext (collaborators := clampedCollaborators) :=
  mkMeteringContext (collaborators := clampedCollaborators)
    (mkVMHost used []) [] forExecution 0 forExecution [] [].

(** Two output accounts: one used 40 and forwards a transfer of limit 10
    with 5 locked, the other used 20; 25 remain of the 100 provided. *)
Definition twoAccounts : list (string * OutputAccount) :=
  [ ("alice"%string, mkOutputAccount 40 [mkOutputTransfer 10 5]);
    ("bob"%string, mkOutputAccount 20 []) ].

Definition balancedContext
  : meteringContext (collaborators := clampedCollaborators) :=
  mkMeteringContext (collaborators := clampedCollaborators)
    (mkVMHost 75 twoAccounts) [] 100 0 100 [] [].

(** One output account that used [MaxUint64], in a context that was given
    [provided]. *)
Definition saturatedAccounts : list (string * OutputAccount) :=
  [("alice"%string, mkOutputAccount MaxUint64 [])].

Definition saturatedContext (add : Z -> Z -> Z) (provided : Z)
  : meteringContext (collaborators := collaboratorsWith add) :=
  mkMeteringContext (collaborators := collaboratorsWith add)
    (mkVMHost 0 saturatedAccounts) [] provided 0 0 [] [].

(** A subtraction that gives 0 below zero and a multiplication that clamps
    at [MaxUint64], which meet [exact_above_underflow] and [exact_product]. *)
Definition SubUint64_clamped (a b : Z) : Z :=
  if b <=? a then a - b else 0.

Definition MulUint64_clamped (a b : Z) : Z :=
  if a * b <=? MaxUint64 then a * b else MaxUint64.

Definition clampedArithmetic : Arithmetic := {|
  SubUint64 := SubUint64_clamped;
  MulUint64 := MulUint64_clamped
|}.

(** A schedule in which fetching code costs 10, preparing it 2 per byte,
    compiling it 3 per byte and creating a contract 50. *)
Definition smallSchedule : GasCost :=
  mkGasCost (mkBaseOperationCost 2 3 10) (mkBaseOpsAPICost 50 5 7).

(** Code of four bytes. *)
Definition fourBytes : bytes := [x00; x61; x73; x6d].

(** A callback that was provided 100 units of gas, with 40 more locked, and
    a direct call that was provided 100. *)
Definition callbackInput : VMInput := mkVMInput AsynchronousCallBack 100 40.

Definition directInput : VMInput := mkVMInput DirectCall 100 0.

(** A context in which "alice" used 40 and "bob" 20, after stacking its
    state and recording 2 more for "alice" and 7 for "carol". *)
Definition aliceAndBob
  : meteringContext (collaborators := clampedCollaborators) :=
  mkMeteringContext (collaborators := clampedCollaborators)
    (mkVMHost 0 []) [] 100 0 100
    [("alice"%string, 40); ("bob"%string, 20)] [].

Definition aliceAndCarolOnTop
  : meteringContext (collaborators := clampedCollaborators) :=
  mkMeteringContext (collaborators := clampedCollaborators)
    (mkVMHost 9 []) (stateStack (PushState aliceAndBob)) 30 1 29
    [("alice"%string, 2); ("carol"%string, 7)] [5].

End Metering.

(** * The host dispatcher (src/unnamed/part_000) *)

Module Execution.

(** ** Data of the VM interface

    The types of the [vmcommon] package are not among the sources; section 3
    of the specification lists the call types, what an execution request
    carries and what an async call holds.  The fields kept are those the
    dispatcher reads or writes. *)

(** Modelled from the spec: [vmcommon.CallType], "call type (Direct |
    AsynchronousCall | AsynchronousCallBack)". *)
Inductive CallType : Type :=
| DirectCall
| AsynchronousCall
| AsynchronousCallBack.

Definition CallType_eqb (a b : CallType) : bool :=
  match a, b with
  | DirectCall, DirectCall => true
  | AsynchronousCall, AsynchronousCall => true
  | AsynchronousCallBack, AsynchronousCallBack => true
  | _, _ => false
  end.

(** Modelled from the spec: [vmcommon.AsyncCallStatus], "status in {Pending,
    Resolved, Rejected}". *)
Inductive AsyncCallStatus : Type :=
| AsyncCallPending
| AsyncCallResolved
| AsyncCallRejected.

(** Modelled from the spec: [vmcommon.VMInput], the caller, call value, call
    type and gas of a request. *)
Record VMInput : Type := mkVMInput {
  CallerAddr : bytes;
  CallValue : Z;
  callType : CallType;
  GasProvided : Z
}.

(** Modelled from the spec: [vmcommon.ContractCallInput], a Call request:
    the VM input, the recipient and the function name. *)
Record ContractCallInput : Type := mkContractCallInput {
  inputVMInput : VMInput;
  RecipientAddr : bytes;
  inputFunction : string
}.

(** Modelled from the spec: [vmcommon.AsyncGeneratedCall], "{destination,
    data, value, gas-percentage, gas-limit, success-callback name,
    error-callback name, status}".  [GasLimit] is a [uint64],
    [GasPercentage] an [int32]. *)
Record AsyncGeneratedCall : Type := mkAsyncGeneratedCall {
  Status : AsyncCallStatus;
  Destination : bytes;
  Data : bytes;
  GasLimit : Z;
  GasPercentage : Z;
  ValueBytes : bytes;
  SuccessCallback : string;
  ErrorCallback : string
}.

(** Modelled from the spec: [vmcommon.AsyncContext], the calls of one
    context identifier and the context-level callback name. *)
Record AsyncContext : Type := mkAsyncContext {
  Callback : string;
  AsyncCalls : list AsyncGeneratedCall
}.

(** Modelled from the spec: [vmcommon.AsyncInitiator], "originating caller +
    return data". *)
Record AsyncInitiator : Type := mkAsyncInitiator {
  initiatorCallerAddr : bytes;
  initiatorReturnData : bytes
}.

(** Modelled from the spec: [vmcommon.AsyncContextInfo], "a map keyed by
    context identifier" with the initiator.  [AsyncContextMap] is a Go map:
    the list holds its entries, one per key, in the order of iteration. *)
Record AsyncContextInfo : Type := mkAsyncContextInfo {
  asyncInitiator : AsyncInitiator;
  AsyncContextMap : list (string * AsyncContext)
}.

(** What a Go function yields: its results, or a run-time panic (integer
    division by zero, index out of range, nil dereference). *)
Inductive result (A : Type) : Type :=
| Returned (value : A)
| Panicked.

Arguments Returned {A} value.
Arguments Panicked {A}.

(** ** State stacks

    The bigint, output, runtime and storage contexts are not among the
    sources.  Section 3 of the specification gives their four stack
    operations; they are laid out here as the metering context lays out its
    own in src/vmhost/contexts/metering.go, where a pop on an empty stack
    does nothing.  The lemmas [metering_PushState_agrees] to
    [metering_PopMergeActiveState_agrees] compare the two. *)

(** Modelled from the spec: a stacked context, its current state and the
    stack of snapshots.  The head of [stateStack] is the top of the stack. *)
Record Context (State : Type) : Type := mkContext {
  active : State;
  stateStack : list State
}.

Arguments mkContext {State}.
Arguments active {State}.
Arguments stateStack {State}.

(** Modelled from the spec: "Push: snapshot current state". *)
Definition PushState {State : Type} (context : Context State)
  : Context State :=
  mkContext (active context) (active context :: stateStack context).

(** Modelled from the spec: "PopSetActive: discard current, restore snapshot
    (rollback)". *)
Definition PopSetActiveState {State : Type} (context : Context State)
  : Context State :=
  match stateStack context with
  | [] => context
  | prevState :: rest => mkContext prevState rest
  end.

(** Modelled from the spec: "PopDiscard: drop the snapshot, keep current". *)
Definition PopDiscard {State : Type} (context : Context State)
  : Context State :=
  match stateStack context with
  | [] => context
  | _ :: rest => mkContext (active context) rest
  end.

(** Modelled from the spec: "PopMergeActive: keep current, absorb snapshot
    underneath (commit child into parent)".  The snapshot and the current
    state are merged by [merge], and the result is the current state. *)
Definition PopMergeActiveState {State : Type} (merge : State -> State -> State)
  (context : Context State) : Context State :=
  match stateStack context with
  | [] => context
  | prevState :: rest => mkContext (merge prevState (active context)) rest
  end.

(** A method of a context that acts on its current state only. *)
Definition onActive {State : Type} (method : State -> State)
  (context : Context State) : Context State :=
  mkContext (method (active context)) (stateStack context).

(** The metering context of src/vmhost/contexts/metering.go seen as a
    stacked context: its current state is made of the four fields that
    [PushState] saves, and two states are merged as its
    [PopMergeActiveState] merges them. *)
Definition meteringAsContext {collaborators : Metering.Collaborators}
  (context : Metering.meteringContext) : Context Metering.savedState :=
  mkContext
    (Metering.mkSavedState
       (Metering.initialGasProvided context) (Metering.initialCost context)
       (Metering.gasForExecution context)
       (Metering.gasUsedByAccounts context))
    (Metering.stateStack context).

Definition mergeSavedStates {collaborators : Metering.Collaborators}
  (prevState current : Metering.savedState) : Metering.savedState :=
  Metering.mkSavedState
    (Metering.savedInitialGasProvided prevState)
    (Metering.savedInitialCost prevState)
    (Metering.savedGasForExecution prevState)
    (Metering.addToGasUsedByAccounts
       (Metering.savedGasUsedByAccounts prevState)
       (Metering.savedGasUsedByAccounts current)).

(** The state each stacked context keeps, what else the host owns (the
    blockchain, metering and crypto collaborators, the instance stack, the
    storage data), and the VM output handed back to a caller. *)
Class ContextStates : Type := {
  BigIntState : Type;
  OutputState : Type;
  RuntimeState : Type;
  StorageState : Type;
  Others : Type;
  VMOutput : Type
}.

Section Host.

Context {states : ContextStates}.

Record VMHost : Type := mkVMHost {
  BigInt : Context BigIntState;
  Output : Context OutputState;
  Runtime : Context RuntimeState;
  Storage : Context StorageState;
  others : Others
}.

(** The operations the dispatcher calls and the file does not define: the
    methods of the contexts, the hooks, the constants of the [arwen] package
    and [json.Unmarshal].  [execute] and [processAsyncInfo] are defined in
    the file, but they run guest code, which calls back into
    [ExecuteOnDestContext] and [ExecuteOnSameContext]; the sub-call protocol
    takes them as operations of the host, like [output.Transfer]. *)
Class HostOperations : Type := {
  (* BigIntContext *)
  BigInt_InitState : BigIntState -> BigIntState;
  (* OutputContext *)
  CensorVMOutput : OutputState -> OutputState;
  mergeVMOutputs : OutputState -> OutputState -> OutputState;
  CreateVMOutputInCaseOfError : error -> VMHost -> VMOutput;
  GetVMOutput : VMHost -> VMOutput;
  Transfer : bytes -> bytes -> Z -> Z -> bytes -> VMHost ->
             VMHost * option error;
  (* RuntimeContext *)
  InitStateFromContractCallInput :
    ContractCallInput -> RuntimeState -> RuntimeState;
  GetSCAddress : RuntimeState -> bytes;
  Function : RuntimeState -> string;
  GetVMInput : RuntimeState -> VMInput;
  GetOriginalTxHash : RuntimeState -> bytes;
  GetAsyncContextInfo : RuntimeState -> AsyncContextInfo;
  (* StorageContext *)
  SetAddress : bytes -> StorageState -> StorageState;
  GetStorage : bytes -> VMHost -> bytes;
  SetStorage : bytes -> bytes -> VMHost -> VMHost * option error;
  (* MeteringContext *)
  GasLeft : VMHost -> Z;
  (* the host *)
  execute : ContractCallInput -> VMHost -> VMHost * option error;
  processAsyncInfo :
    AsyncContextInfo -> VMHost ->
    VMHost * (option AsyncContextInfo * option error);
  canExecuteSynchronouslyOnDest : bytes -> VMHost -> bool;
  sendStorageCallbackToDestination :
    AsyncInitiator -> VMHost -> VMHost * option error;
  createCallbackContractCallInput :
    VMOutput -> bytes -> string -> option error -> VMHost ->
    error + ContractCallInput;
  processCallbackVMOutput :
    VMOutput -> option error -> VMHost -> VMHost * option error;
  (* package arwen *)
  CustomStorageKey : bytes -> bytes -> error + bytes;
  AsyncDataPrefix : bytes;
  CallbackDefault : string;
  InitFunctionName : string;
  InitFunctionNameEth : string;
  CallBackFunctionName : string;
  (* encoding/json: the decoded value, or the decoder's error message *)
  Unmarshal : bytes -> string + AsyncContextInfo
}.

Context {operations : HostOperations}.

Definition onBigInt (method : Context BigIntState -> Context BigIntState)
  (host : VMHost) : VMHost :=
  mkVMHost (method (BigInt host)) (Output host) (Runtime host) (Storage host)
    (others host).

Definition onOutput (method : Context OutputState -> Context OutputState)
  (host : VMHost) : VMHost :=
  mkVMHost (BigInt host) (method (Output host)) (Runtime host) (Storage host)
    (others host).

Definition onRuntime (method : Context RuntimeState -> Context RuntimeState)
  (host : VMHost) : VMHost :=
  mkVMHost (BigInt host) (Output host) (method (Runtime host)) (Storage host)
    (others host).

Definition onStorage (method : Context StorageState -> Context StorageState)
  (host : VMHost) : VMHost :=
  mkVMHost (BigInt host) (Output host) (Runtime host) (method (Storage host))
    (others host).

(** ** The synchronous sub-call protocol *)

(** [finishExecuteOnDestContext]. *)
Definition finishExecuteOnDestContext (executeErr : option error)
  (host : VMHost) : VMHost * VMOutput :=
  match executeErr with
  | Some err =>
      (* Execution failed: restore contexts as if the execution didn't
         happen, but first create a vmOutput to capture the error. *)
      let vmOutput := CreateVMOutputInCaseOfError err host in
      let host := onBigInt PopSetActiveState host in
      let host := onOutput PopSetActiveState host in
      let host := onRuntime PopSetActiveState host in
      let host := onStorage PopSetActiveState host in
      (host, vmOutput)
  | None =>
      (* Extract the VMOutput produced by the execution in isolation, before
         restoring the contexts. *)
      let vmOutput := GetVMOutput host in
      let host := onBigInt PopSetActiveState host in
      let host := onOutput (PopMergeActiveState mergeVMOutputs) host in
      let host := onRuntime PopSetActiveState host in
      let host := onStorage PopSetActiveState host in
      (host, vmOutput)
  end.

(** [ExecuteOnDestContext], from its first statement to the [defer]: the
    states are pushed and the new ones set up. *)
Definition enterDestContext (input : ContractCallInput) (host : VMHost)
  : VMHost :=
  let host := onBigInt PushState host in
  let host := onBigInt (onActive BigInt_InitState) host in
  let host := onOutput PushState host in
  let host := onOutput (onActive CensorVMOutput) host in
  let host := onRuntime PushState host in
  let host :=
    onRuntime (onActive (InitStateFromContractCallInput input)) host in
  let host := onStorage PushState host in
  onStorage (onActive (SetAddress (GetSCAddress (active (Runtime host)))))
    host.

(** [ExecuteOnDestContext], from the [defer] to the last [return]: the value
    transfer, [execute] and the processing of the async info.  The result is
    the host, the named result [asyncInfo] ([None] for [nil]) and [err]. *)
Definition runOnDestContext (input : ContractCallInput) (host : VMHost)
  : VMHost * (option AsyncContextInfo * option error) :=
  let '(host, err) :=
    Transfer (RecipientAddr input) (CallerAddr (inputVMInput input)) 0
      (CallValue (inputVMInput input)) [] host in
  match err with
  | Some _ => (host, (None, err))
  | None =>
      let '(host, err) := execute input host in
      match err with
      | Some _ => (host, (None, err))
      | None =>
          let asyncInfo := GetAsyncContextInfo (active (Runtime host)) in
          let '(host, (_, err)) := processAsyncInfo asyncInfo host in
          (host, (Some asyncInfo, err))
      end
  end.

(** [ExecuteOnDestContext]: the deferred call runs on every return and sets
    the named result [vmOutput]. *)
Definition ExecuteOnDestContext (input : ContractCallInput) (host : VMHost)
  : VMHost * (VMOutput * option AsyncContextInfo * option error) :=
  let host := enterDestContext input host in
  let '(host, (asyncInfo, err)) := runOnDestContext input host in
  let '(host, vmOutput) := finishExecuteOnDestContext err host in
  (host, (vmOutput, asyncInfo, err)).

(** [finishExecuteOnSameContext]. *)
Definition finishExecuteOnSameContext (executeErr : option error)
  (host : VMHost) : VMHost :=
  match executeErr with
  | Some _ =>
      (* Execution failed: restore contexts as if the execution didn't
         happen. *)
      let host := onBigInt PopSetActiveState host in
      let host := onOutput PopSetActiveState host in
      onRuntime PopSetActiveState host
  | None =>
      (* Execution successful: discard the backups made at the beginning and
         resume from the new state. *)
      let host := onBigInt PopDiscard host in
      let host := onOutput PopDiscard host in
      onRuntime PopSetActiveState host
  end.

(** [ExecuteOnSameContext], up to the [defer]: the states are backed up,
    except that of the storage context. *)
Definition enterSameContext (input : ContractCallInput) (host : VMHost)
  : VMHost :=
  let host := onBigInt PushState host in
  let host := onOutput PushState host in
  let host := onRuntime PushState host in
  onRuntime (onActive (InitStateFromContractCallInput input)) host.

(** [ExecuteOnSameContext], from the [defer] to the last [return]. *)
Definition runOnSameContext (input : ContractCallInput) (host : VMHost)
  : VMHost * (option AsyncContextInfo * option error) :=
  let '(host, err) :=
    Transfer (RecipientAddr input) (CallerAddr (inputVMInput input)) 0
      (CallValue (inputVMInput input)) [] host in
  match err with
  | Some _ => (host, (None, err))
  | None =>
      let '(host, err) := execute input host in
      match err with
      | Some _ => (host, (None, err))
      | None =>
          let asyncInfo := GetAsyncContextInfo (active (Runtime host)) in
          (host, (Some asyncInfo, None))
      end
  end.

(** [ExecuteOnSameContext]. *)
Definition ExecuteOnSameContext (input : ContractCallInput) (host : VMHost)
  : VMHost * (option AsyncContextInfo * option error) :=
  let host := enterSameContext input host in
  let '(host, (asyncInfo, err)) := runOnSameContext input host in
  let host := finishExecuteOnSameContext err host in
  (host, (asyncInfo, err)).

(** The four state stacks of the host. *)
Definition stateStacks (host : VMHost)
  : list BigIntState * list OutputState * list RuntimeState
    * list StorageState :=
  (stateStack (BigInt host), stateStack (Output host),
   stateStack (Runtime host), stateStack (Storage host)).

(** An operation of the host that leaves every state stack as it found it:
    whatever it pushed it popped again. *)
Definition keeps_stacks {A : Type} (operation : VMHost -> VMHost * A) : Prop :=
  forall host, stateStacks (fst (operation host)) = stateStacks host.

(** What the sub-call protocol asks of the three operations it runs between
    its pushes and its pops. *)
Definition inner_execution_keeps_stacks : Prop :=
  (forall destination sender gasLimit value data,
     keeps_stacks (Transfer destination sender gasLimit value data)) /\
  (forall input, keeps_stacks (execute input)) /\
  (forall asyncInfo, keeps_stacks (processAsyncInfo asyncInfo)).

(** ** Function gating *)

(** [isInitFunctionBeingCalled]. *)
Definition isInitFunctionBeingCalled (host : VMHost) : bool :=
  let functionName := Function (active (Runtime host)) in
  (functionName =? InitFunctionName)%string
  || (functionName =? InitFunctionNameEth)%string.

(** [verifyAllowedFunctionCall]. *)
Definition verifyAllowedFunctionCall (host : VMHost) : option error :=
  let runtime := active (Runtime host) in
  let functionName := Function runtime in
  let isInit :=
    (functionName =? InitFunctionName)%string
    || (functionName =? InitFunctionNameEth)%string in
  if isInit then Some ErrInitFuncCalledInRun
  else
    let isCallBack := (functionName =? CallBackFunctionName)%string in
    let isInAsyncCallBack :=
      CallType_eqb (callType (GetVMInput runtime)) AsynchronousCallBack in
    if isCallBack && negb isInAsyncCallBack
    then Some ErrCallBackFuncCalledInRun
    else None.

(** ** Gas of the async calls *)

(** The [int32] quotient [a / b]: truncated towards zero, a panic when [b]
    is zero. *)
Definition int32_quo (a b : Z) : result Z :=
  if b =? 0 then Panicked else Returned (wrap32 (Z.quot a b)).

(** The conversion [uint64(n)] of an [int32]. *)
Definition uint64_of_int32 (n : Z) : Z := wrap64 n.

Definition withGasLimit (gasLimit : Z) (asyncCall : AsyncGeneratedCall)
  : AsyncGeneratedCall :=
  mkAsyncGeneratedCall (Status asyncCall) (Destination asyncCall)
    (Data asyncCall) gasLimit (GasPercentage asyncCall)
    (ValueBytes asyncCall) (SuccessCallback asyncCall)
    (ErrorCallback asyncCall).

(** First loop of [setupAsyncCallsGasByPercentages]: the sum of the
    percentages, in [int32]. *)
Definition sumGasPercentages (contextMap : list (string * AsyncContext)) : Z :=
  fold_left
    (fun totalPercentage (entry : string * AsyncContext) =>
       fold_left
         (fun totalPercentage asyncCall =>
            wrap32 (totalPercentage + GasPercentage asyncCall))
         (AsyncCalls (snd entry)) totalPercentage)
    contextMap 0.

(** Second loop, over the calls of one context from position [index] on:
    the calls with their gas limit set, [gasAdded] and [lastAsyncCallIndex]
    as the loop leaves them. *)
Fixpoint setGasLimits (gasLeft totalPercentage : Z)
  (calls : list AsyncGeneratedCall) (index : nat) (gasAdded : Z)
  (lastAsyncCallIndex : nat)
  : result (list AsyncGeneratedCall * Z * nat) :=
  match calls with
  | [] => Returned ([], gasAdded, lastAsyncCallIndex)
  | asyncCall :: rest =>
      match int32_quo (GasPercentage asyncCall) totalPercentage with
      | Panicked => Panicked
      | Returned share =>
          let gasLimit := wrap64 (gasLeft * uint64_of_int32 share) in
          let gasAdded := wrap64 (gasAdded + gasLimit) in
          match
            setGasLimits gasLeft totalPercentage rest (S index) gasAdded index
          with
          | Panicked => Panicked
          | Returned (rest', gasAdded, lastAsyncCallIndex) =>
              Returned (withGasLimit gasLimit asyncCall :: rest', gasAdded,
                        lastAsyncCallIndex)
          end
      end
  end.

(** Second loop, over the contexts. *)
Fixpoint setGasLimitsOfContexts (gasLeft totalPercentage : Z)
  (contextMap : list (string * AsyncContext)) (gasAdded : Z)
  (lastContextIdentifier : string) (lastAsyncCallIndex : nat)
  : result (list (string * AsyncContext) * Z * string * nat) :=
  match contextMap with
  | [] =>
      Returned ([], gasAdded, lastContextIdentifier, lastAsyncCallIndex)
  | (identifier, asyncContext) :: rest =>
      match
        setGasLimits gasLeft totalPercentage (AsyncCalls asyncContext) 0
          gasAdded lastAsyncCallIndex
      with
      | Panicked => Panicked
      | Returned (calls, gasAdded, lastAsyncCallIndex) =>
          match
            setGasLimitsOfContexts gasLeft totalPercentage rest gasAdded
              identifier lastAsyncCallIndex
          with
          | Panicked => Panicked
          | Returned (rest', gasAdded, lastContextIdentifier,
                      lastAsyncCallIndex) =>
              Returned
                ((identifier, mkAsyncContext (Callback asyncContext) calls)
                   :: rest',
                 gasAdded, lastContextIdentifier, lastAsyncCallIndex)
          end
      end
  end.

(** [calls[index].GasLimit += extra]. *)
Fixpoint addToGasLimit (index : nat) (extra : Z)
  (calls : list AsyncGeneratedCall) : result (list AsyncGeneratedCall) :=
  match calls, index with
  | [], _ => Panicked
  | asyncCall :: rest, O =>
      Returned
        (withGasLimit (wrap64 (GasLimit asyncCall + extra)) asyncCall :: rest)
  | asyncCall :: rest, S index' =>
      match addToGasLimit index' extra rest with
      | Panicked => Panicked
      | Returned rest' => Returned (asyncCall :: rest')
      end
  end.

(** [contextMap[identifier].AsyncCalls[index].GasLimit += extra]. *)
Fixpoint addToGasLimitOfContext (identifier : string) (index : nat)
  (extra : Z) (contextMap : list (string * AsyncContext))
  : result (list (string * AsyncContext)) :=
  match contextMap with
  | [] => Panicked
  | (key, asyncContext) :: rest =>
      if (key =? identifier)%string then
        match addToGasLimit index extra (AsyncCalls asyncContext) with
        | Panicked => Panicked
        | Returned calls =>
            Returned ((key, mkAsyncContext (Callback asyncContext) calls)
                        :: rest)
        end
      else
        match addToGasLimitOfContext identifier index extra rest with
        | Panicked => Panicked
        | Returned rest' => Returned ((key, asyncContext) :: rest')
        end
  end.

(** [setupAsyncCallsGasByPercentages]: the async info as the function leaves
    it. *)
Definition setupAsyncCallsGasByPercentages (asyncInfo : AsyncContextInfo)
  (host : VMHost) : result AsyncContextInfo :=
  let gasLeft := GasLeft host in
  let totalPercentage := sumGasPercentages (AsyncContextMap asyncInfo) in
  match
    setGasLimitsOfContexts gasLeft totalPercentage (AsyncContextMap asyncInfo)
      0 EmptyString 0
  with
  | Panicked => Panicked
  | Returned (contextMap, gasAdded, lastContextIdentifier,
              lastAsyncCallIndex) =>
      if (0 <? String.length lastContextIdentifier)%nat
         && (gasAdded <? gasLeft)
      then
        match
          addToGasLimitOfContext lastContextIdentifier lastAsyncCallIndex
            (wrap64 (gasLeft - gasAdded)) contextMap
        with
        | Panicked => Panicked
        | Returned contextMap =>
            Returned (mkAsyncContextInfo (asyncInitiator asyncInfo) contextMap)
        end
      else Returned (mkAsyncContextInfo (asyncInitiator asyncInfo) contextMap)
  end.

(** The split the specification asks for: of the gas left, the share of the
    call's percentage in the total of the percentages. *)
Definition proportionalGasLimit (gasLeft percentage totalPercentage : Z) : Z :=
  gasLeft * percentage / totalPercentage.

(** The calls of one context when the last one is given [gasLeft] and the
    others nothing. *)
Fixpoint allToLast (gasLeft : Z) (calls : list AsyncGeneratedCall)
  : list AsyncGeneratedCall :=
  match calls with
  | [] => []
  | [asyncCall] => [withGasLimit gasLeft asyncCall]
  | asyncCall :: rest => withGasLimit 0 asyncCall :: allToLast gasLeft rest
  end.

(** ** Callbacks received from another shard *)

(** Inner loop of the search of [processCallbackStack]: the position of the
    first call of a context whose destination is the caller. *)
Fixpoint findCallPosition (caller : bytes) (calls : list AsyncGeneratedCall)
  (position : nat) : option nat :=
  match calls with
  | [] => None
  | asyncCall :: rest =>
      if bytes_Equal caller (Destination asyncCall) then Some position
      else findCallPosition caller rest (S position)
  end.

(** Outer loop of the search: [asyncCallPosition] and
    [currentContextIdentifier] as the loop leaves them.  It stops after the
    first context that leaves the identifier non-empty. *)
Fixpoint findAsyncCall (caller : bytes)
  (contextMap : list (string * AsyncContext)) (asyncCallPosition : nat)
  (currentContextIdentifier : string) : nat * string :=
  match contextMap with
  | [] => (asyncCallPosition, currentContextIdentifier)
  | (contextIdentifier, asyncContext) :: rest =>
      let '(asyncCallPosition, currentContextIdentifier) :=
        match findCallPosition caller (AsyncCalls asyncContext) 0 with
        | Some position => (position, contextIdentifier)
        | None => (asyncCallPosition, currentContextIdentifier)
        end in
      if (0 <? String.length currentContextIdentifier)%nat
      then (asyncCallPosition, currentContextIdentifier)
      else findAsyncCall caller rest asyncCallPosition currentContextIdentifier
  end.

(** [contextMap[identifier]]: [None] is the nil pointer of a missing key. *)
Fixpoint lookupContext (identifier : string)
  (contextMap : list (string * AsyncContext)) : option AsyncContext :=
  match contextMap with
  | [] => None
  | (key, asyncContext) :: rest =>
      if (key =? identifier)%string then Some asyncContext
      else lookupContext identifier rest
  end.

(** [delete(contextMap, identifier)]. *)
Definition deleteContext (identifier : string)
  (contextMap : list (string * AsyncContext))
  : list (string * AsyncContext) :=
  filter (fun entry => negb (fst entry =? identifier)%string) contextMap.

Fixpoint replaceAt {A : Type} (position : nat) (value : A) (l : list A)
  : list A :=
  match l, position with
  | [], _ => []
  | _ :: rest, O => value :: rest
  | x :: rest, S position' => x :: replaceAt position' value rest
  end.

(** The swap-remove of [processCallbackStack] on the local slice: the last
    call is copied over the one at [position] and the slice is cut by one. *)
Definition swapRemove (position : nat) (calls : list AsyncGeneratedCall)
  : result (list AsyncGeneratedCall) :=
  match nth_error calls (List.length calls - 1), nth_error calls position with
  | Some lastCall, Some _ =>
      Returned (removelast (replaceAt position lastCall calls))
  | _, _ => Panicked
  end.

(** [processCallbackStack].  The decoded [asyncInfo] is local to the call:
    what is changed in it is written nowhere. *)
Definition processCallbackStack (host : VMHost)
  : result (VMHost * option error) :=
  let runtime := active (Runtime host) in
  match CustomStorageKey AsyncDataPrefix (GetOriginalTxHash runtime) with
  | inl err => Returned (host, Some err)
  | inr storageKey =>
      let buff := GetStorage storageKey host in
      match Unmarshal buff with
      | inl message => Returned (host, Some (ErrForeign message))
      | inr asyncInfo =>
          let vmInput := GetVMInput runtime in
          let '(asyncCallPosition, currentContextIdentifier) :=
            findAsyncCall (CallerAddr vmInput) (AsyncContextMap asyncInfo)
              0 EmptyString in
          if (String.length currentContextIdentifier =? 0)%nat
          then Returned (host, Some ErrCallBackFuncNotExpected)
          else
            (* Remove current async call from the pending list *)
            match
              lookupContext currentContextIdentifier
                (AsyncContextMap asyncInfo)
            with
            | None => Panicked
            | Some currentContext =>
                match
                  swapRemove asyncCallPosition (AsyncCalls currentContext)
                with
                | Panicked => Panicked
                | Returned currentContextCalls =>
                    let contextMap :=
                      if (List.length currentContextCalls =? 0)%nat
                      then deleteContext currentContextIdentifier
                             (AsyncContextMap asyncInfo)
                      else AsyncContextMap asyncInfo in
                    (* If we are still waiting for callbacks we return *)
                    if (0 <? List.length contextMap)%nat
                    then Returned (host, None)
                    else
                      let '(host, err) := SetStorage storageKey [] host in
                      match err with
                      | Some _ => Returned (host, err)
                      | None =>
                          let initiator := asyncInitiator asyncInfo in
                          if negb (canExecuteSynchronouslyOnDest
                                     (initiatorCallerAddr initiator) host)
                          then
                            Returned
                              (sendStorageCallbackToDestination initiator host)
                          else
                            match
                              createCallbackContractCallInput
                                (GetVMOutput host)
                                (initiatorCallerAddr initiator)
                                CallbackDefault None host
                            with
                            | inl err => Returned (host, Some err)
                            | inr callbackCallInput =>
                                let '(host, (callbackVMOutput, _, callBackErr))
                                  := ExecuteOnDestContext callbackCallInput
                                       host in
                                Returned
                                  (processCallbackVMOutput callbackVMOutput
                                     callBackErr host)
                            end
                      end
                end
            end
      end
  end.

(** The number of calls a decoded pending set holds. *)
Definition pendingCalls (contextMap : list (string * AsyncContext)) : nat :=
  fold_right
    (fun entry count => (List.length (AsyncCalls (snd entry)) + count)%nat)
    0%nat contextMap.

End Host.

(** ** A concrete host

    A small host to run the dispatcher on: big integers are a list, the
    output state is the list of what was emitted, storage is a list of
    key-value pairs.  Its [execute] fails for the function [fail], and for
    the function [relay] it makes a sub-call of its own, which fails, before
    it succeeds. *)

Record DemoRuntime : Type := mkDemoRuntime {
  demoInput : VMInput;
  demoAddress : bytes;
  demoFunction : string;
  demoTxHash : bytes;
  demoAsyncInfo : AsyncContextInfo
}.

Record DemoOthers : Type := mkDemoOthers {
  demoGasLeft : Z;
  demoStore : list (bytes * bytes)
}.

#[local] Instance demoStates : ContextStates := {|
  BigIntState := list Z;
  OutputState := list string;
  RuntimeState := DemoRuntime;
  StorageState := bytes;
  Others := DemoOthers;
  VMOutput := option error * list string
|}.

Definition emptyAsyncInfo : AsyncContextInfo :=
  mkAsyncContextInfo (mkAsyncInitiator [] []) [].

Definition addressA : bytes := ["A"%byte].
Definition addressB : bytes := ["B"%byte].
Definition addressC : bytes := ["C"%byte].

Definition pendingCallTo (destination : bytes) (percentage : Z)
  : AsyncGeneratedCall :=
  mkAsyncGeneratedCall AsyncCallPending destination [] 0 percentage []
    "onSuccess" "onError".

(** A pending set of two calls in one context. *)
Definition twoPendingCalls : AsyncContextInfo :=
  mkAsyncContextInfo (mkAsyncInitiator addressC [])
    [ ("ctx"%string,
       mkAsyncContext "done"
         [pendingCallTo addressA 50; pendingCallTo addressB 50]) ].

(** The stored form of [twoPendingCalls], and a decoder that knows it and
    rejects every other buffer, the empty one included. *)
Definition storedTwoPendingCalls : bytes := ["2"%byte].

Definition demoUnmarshal (buff : bytes) : string + AsyncContextInfo :=
  if bytes_Equal buff storedTwoPendingCalls then inr twoPendingCalls
  else inl "unexpected end of JSON input"%string.

Fixpoint demoLookup (key : bytes) (store : list (bytes * bytes)) : bytes :=
  match store with
  | [] => []
  | (k, value) :: rest =>
      if bytes_Equal k key then value else demoLookup key rest
  end.

Definition emit (what : string) (host : VMHost) : VMHost :=
  onOutput (onActive (fun emitted => emitted ++ [what])) host.

Definition demoOperationsWith
  (run : ContractCallInput -> VMHost -> VMHost * option error)
  : HostOperations := {|
  BigInt_InitState := fun _ => [];
  CensorVMOutput := fun _ => [];
  mergeVMOutputs := fun parent child => parent ++ child;
  CreateVMOutputInCaseOfError := fun err _ => (Some err, []);
  GetVMOutput := fun host => (None, active (Output host));
  Transfer := fun _ _ _ _ _ host => (emit "transfer" host, None);
  InitStateFromContractCallInput := fun input runtime =>
    mkDemoRuntime (inputVMInput input) (RecipientAddr input)
      (inputFunction input) (demoTxHash runtime) emptyAsyncInfo;
  GetSCAddress := demoAddress;
  Function := demoFunction;
  GetVMInput := demoInput;
  GetOriginalTxHash := demoTxHash;
  GetAsyncContextInfo := demoAsyncInfo;
  SetAddress := fun address _ => address;
  GetStorage := fun key host => demoLookup key (demoStore (others host));
  SetStorage := fun key value host =>
    (mkVMHost (BigInt host) (Output host) (Runtime host) (Storage host)
       (mkDemoOthers (demoGasLeft (others host))
          ((key, value) :: demoStore (others host))),
     None);
  GasLeft := fun host => demoGasLeft (others host);
  execute := run;
  processAsyncInfo := fun asyncInfo host => (host, (Some asyncInfo, None));
  canExecuteSynchronouslyOnDest := fun _ _ => false;
  sendStorageCallbackToDestination := fun _ host => (host, None);
  createCallbackContractCallInput := fun _ _ _ _ _ =>
    inl (ErrForeign "no callback input");
  processCallbackVMOutput := fun _ err host => (host, err);
  CustomStorageKey := fun prefix hash => inr (prefix ++ hash);
  AsyncDataPrefix := ["a"%byte];
  CallbackDefault := "callBack";
  InitFunctionName := "init";
  InitFunctionNameEth := "solidity.ctor";
  CallBackFunctionName := "callBack";
  Unmarshal := demoUnmarshal
|}.

(** A guest that computes, or fails when its function is [fail]. *)
Definition leafExecute (input : ContractCallInput) (host : VMHost)
  : VMHost * option error :=
  let host := onBigInt (onActive (fun values => 1 :: values)) host in
  if (inputFunction input =? "fail")%string
  then (emit "failed" host, Some ErrReturnCodeNotOk)
  else (emit "ran" host, None).

Definition leafOperations : HostOperations := demoOperationsWith leafExecute.

Definition callTo (recipient : bytes) (function : string)
  (kind : CallType) (caller : bytes) : ContractCallInput :=
  mkContractCallInput (mkVMInput caller 0 kind 1000) recipient function.

(** A guest that, for the function [relay], calls [fail] on another contract
    through [ExecuteOnDestContext] and goes on after the failure. *)
Definition demoExecute (input : ContractCallInput) (host : VMHost)
  : VMHost * option error :=
  if (inputFunction input =? "relay")%string then
    let '(host, _) :=
      ExecuteOnDestContext (operations := leafOperations)
        (callTo addressB "fail" DirectCall (RecipientAddr input)) host in
    (emit "relayed" host, None)
  else leafExecute input host.

#[local] Instance demoOperations : HostOperations :=
  demoOperationsWith demoExecute.

Definition demoHostWith (input : VMInput) (function : string)
  (store : list (bytes * bytes)) : VMHost :=
  mkVMHost (mkContext [7] [[3]]) (mkContext ["parent"%string] [])
    (mkContext (mkDemoRuntime input addressC function ["t"%byte]
                  emptyAsyncInfo) [])
    (mkContext addressC []) (mkDemoOthers 100 store).

Definition demoHost : VMHost :=
  demoHostWith (mkVMInput addressA 0 DirectCall 1000) "main" [].

(** The storage key of the async data of the concrete host, and a store
    that holds the pending set of two calls under it. *)
Definition demoStorageKey : bytes := ["a"%byte; "t"%byte].

Definition storeWithTwoPendingCalls : list (bytes * bytes) :=
  [(demoStorageKey, storedTwoPendingCalls)].

(** A callback dispatch whose caller is the given address. *)
Definition callbackFrom (caller : bytes) (store : list (bytes * bytes))
  : VMHost :=
  demoHostWith (mkVMInput caller 0 AsynchronousCallBack 1000) "callBack" store.

(** ** The pending calls of an async info *)

(** [asyncCall.Status == vmcommon.AsyncCallPending]. *)
Definition isPending (asyncCall : AsyncGeneratedCall) : bool :=
  match Status asyncCall with
  | AsyncCallPending => true
  | _ => false
  end.

(** The two statements of [getPendingAsyncCalls] for one pending call: the
    context of the identifier is made, with the callback of [asyncContext]
    and no call, when the pending map has none, and the call is appended to
    the calls of that context. *)
Fixpoint appendPendingCall (contextIdentifier : string)
  (asyncContext : AsyncContext) (asyncCall : AsyncGeneratedCall)
  (pendingMap : list (string * AsyncContext))
  : list (string * AsyncContext) :=
  match pendingMap with
  | [] =>
      [(contextIdentifier,
        mkAsyncContext (Callback asyncContext) ([] ++ [asyncCall]))]
  | (key, pending) :: rest =>
      if (key =? contextIdentifier)%string then
        (key,
         mkAsyncContext (Callback pending) (AsyncCalls pending ++ [asyncCall]))
          :: rest
      else
        (key, pending)
          :: appendPendingCall contextIdentifier asyncContext asyncCall rest
  end.

(** [getPendingAsyncCalls]. *)
Definition getPendingAsyncCalls (asyncInfo : AsyncContextInfo)
  : AsyncContextInfo :=
  let pendingMap :=
    fold_left
      (fun pendingMap (entry : string * AsyncContext) =>
         let contextIdentifier := fst entry in
         let asyncContext := snd entry in
         fold_left
           (fun pendingMap asyncCall =>
              if negb (isPending asyncCall) then pendingMap
              else
                appendPendingCall contextIdentifier asyncContext asyncCall
                  pendingMap)
           (AsyncCalls asyncContext) pendingMap)
      (AsyncContextMap asyncInfo) [] in
  mkAsyncContextInfo
    (mkAsyncInitiator (initiatorCallerAddr (asyncInitiator asyncInfo))
       (initiatorReturnData (asyncInitiator asyncInfo)))
    pendingMap.

(** What is asked of it: of every context the calls that are pending, in
    their order, and of the contexts those that have one. *)
Definition pendingCallsOnly (contextMap : list (string * AsyncContext))
  : list (string * AsyncContext) :=
  filter
    (fun entry =>
       negb (List.length (AsyncCalls (snd entry)) =? 0)%nat)
    (map
       (fun entry =>
          (fst entry,
           mkAsyncContext (Callback (snd entry))
             (filter isPending (AsyncCalls (snd entry)))))
       contextMap).

(** A map of pending calls: one entry per identifier, no context without a
    call, no call that is not pending. *)
Definition pending_map (pendingMap : list (string * AsyncContext)) : Prop :=
  NoDup (map fst pendingMap) /\
  Forall
    (fun entry =>
       AsyncCalls (snd entry) <> [] /\
       Forall (fun asyncCall => Status asyncCall = AsyncCallPending)
         (AsyncCalls (snd entry)))
    pendingMap.

(** The number of pending calls an async info holds. *)
Definition countPending (contextMap : list (string * AsyncContext)) : nat :=
  fold_right
    (fun entry count =>
       (List.length (filter isPending (AsyncCalls (snd entry))) + count)%nat)
    0%nat contextMap.

(** An async info of three contexts: one call of two is pending in the
    first, none in the second, the only one in the third. *)
Definition settledCallTo (destination : bytes) (status : AsyncCallStatus)
  : AsyncGeneratedCall :=
  mkAsyncGeneratedCall status destination [] 0 0 [] "onSuccess" "onError".

Definition threeContexts : AsyncContextInfo :=
  mkAsyncContextInfo (mkAsyncInitiator addressC ["r"%byte])
    [ ("first"%string,
       mkAsyncContext "one"
         [settledCallTo addressA AsyncCallResolved;
          pendingCallTo addressB 50]);
      ("second"%string,
       mkAsyncContext "two" [settledCallTo addressA AsyncCallRejected]);
      ("third"%string, mkAsyncContext "three" [pendingCallTo addressA 50]) ].

(** ** The call data in the Ethereum layout *)

Section EthereumCallData.

Context {states : ContextStates} {operations : HostOperations}.

(** What [createETHCallInput] calls and the file does not define: the
    Keccak256 of the crypto hook, [runtime.Arguments()]
    ([runtimeArguments]), and the constant [arwen.ArgumentLenEth]. *)
Class EthereumOperations : Type := {
  Keccak256 : bytes -> error + bytes;
  runtimeArguments : RuntimeState -> list bytes;
  ArgumentLenEth : nat
}.

Context {ethereum : EthereumOperations}.

(** The slice expression [hashOfFunction[0:4]] of a slice whose capacity is
    its length: a panic when it is shorter than 4. *)
Definition firstFour (hashOfFunction : bytes) : result bytes :=
  if (List.length hashOfFunction <? 4)%nat then Panicked
  else Returned (firstn 4 hashOfFunction).

(** One round of the loop over the arguments: [paddedArg] is made of
    [ArgumentLenEth] zero bytes and [arg] copied to its end; the slice
    expression [paddedArg[arwen.ArgumentLenEth-len(arg):]] panics when the
    argument is longer than [ArgumentLenEth]. *)
Definition paddedArgument (arg : bytes) : result bytes :=
  if (ArgumentLenEth <? List.length arg)%nat then Panicked
  else Returned (repeat x00 (ArgumentLenEth - List.length arg) ++ arg).

(** An argument with the zero bytes that fill it up to [ArgumentLenEth] in
    front. *)
Definition leftPadded (arg : bytes) : bytes :=
  repeat x00 (ArgumentLenEth - List.length arg) ++ arg.

Fixpoint appendPaddedArguments (arguments : list bytes) (newInput : bytes)
  : result bytes :=
  match arguments with
  | [] => Returned newInput
  | arg :: rest =>
      match paddedArgument arg with
      | Panicked => Panicked
      | Returned paddedArg => appendPaddedArguments rest (newInput ++ paddedArg)
      end
  end.

(** [createETHCallInput]: [None] is the nil slice it returns when the hash
    fails. *)
Definition createETHCallInput (host : VMHost) : result (option bytes) :=
  let newInput : bytes := [] in
  let function := Function (active (Runtime host)) in
  let arguments := runtimeArguments (active (Runtime host)) in
  let finish (newInput : bytes) : result (option bytes) :=
    match appendPaddedArguments arguments newInput with
    | Panicked => Panicked
    | Returned newInput => Returned (Some newInput)
    end in
  if (0 <? String.length function)%nat then
    match Keccak256 (list_byte_of_string function) with
    | inl _ => Returned None
    | inr hashOfFunction =>
        match firstFour hashOfFunction with
        | Panicked => Panicked
        | Returned selector => finish (newInput ++ selector)
        end
    end
  else finish newInput.

End EthereumCallData.

(** A hash of 32 bytes for the concrete host (the first bytes of the data,
    filled up with zero bytes), which fails on the empty data, and the
    address and the transaction hash of the runtime as the arguments of the
    call. *)
Definition demoEthereum : EthereumOperations (states := demoStates) := {|
  Keccak256 := fun data : bytes =>
    match data with
    | [] => inl (ErrForeign "nothing to hash")
    | _ => inr (firstn 32 (data ++ repeat x00 32))
    end;
  runtimeArguments := fun runtime =>
    [demoAddress runtime; demoTxHash runtime];
  ArgumentLenEth := 32
|}.

(** A host whose first argument, the address of the contract, is one byte
    longer than [ArgumentLenEth]. *)
Definition longArgumentHost (function : string) : VMHost :=
  mkVMHost (mkContext [] []) (mkContext [] [])
    (mkContext
       (mkDemoRuntime (mkVMInput addressA 0 DirectCall 1000)
          (repeat "A"%byte 33) function ["t"%byte] emptyAsyncInfo) [])
    (mkContext [] []) (mkDemoOthers 100 []).

End Execution.

(** * Inner dispatch and indirect deployment (src/unnamed/part_000)

    [execute], [CreateNewContract] and [callSCMethod] with what they call
    in the file.  [processAsyncInfo] stays the operation of the host that
    the sub-call protocol takes it for. *)

Module Dispatch.

Import Execution.

(** Modelled from the spec: [vmcommon.ContractCreateInput], a Create
    request: the VM input, the code and the code metadata; and
    [arwen.CodeDeployInput], made of the code, the metadata and the address
    of the new contract. *)
Record ContractCreateInput : Type := mkContractCreateInput {
  createVMInput : VMInput;
  ContractCode : bytes;
  ContractCodeMetadata : bytes
}.

Record CodeDeployInput : Type := mkCodeDeployInput {
  deployedCode : bytes;
  deployedCodeMetadata : bytes;
  ContractAddress : bytes
}.

Section Engine.

Context {states : ContextStates} {operations : HostOperations}.

(** What the inner dispatch calls and the file does not define.  A guest
    function ([wasmer.ExportedFunctionCallback]) is run by [callFunction];
    it runs guest code, which calls back into the host.  The registry of
    host contexts of the [arwen] package is global: it is part of the state
    that is passed along. *)
Class EngineOperations : Type := {
  GuestFunction : Type;
  callFunction : GuestFunction -> VMHost -> VMHost * option error;
  handleBreakpointIfAny : error -> VMHost -> VMHost * option error;
  protocolBuiltinFunctions : VMHost -> list string;
  sendCallbackToCurrentCaller : VMHost -> VMHost * option error;
  (* the blockchain hook *)
  ProcessBuiltInFunction :
    ContractCallInput -> VMHost -> VMHost * (error + VMOutput);
  GetCode : bytes -> VMHost -> VMHost * (error + bytes);
  NewAddress : bytes -> VMHost -> VMHost * (error + bytes);
  IncreaseNonce : bytes -> VMHost -> VMHost;
  (* MeteringContext *)
  UseGas : Z -> VMHost -> VMHost;
  RestoreGas : Z -> VMHost -> VMHost;
  UnlockGasIfAsyncStep : VMHost -> VMHost;
  DeductInitialGasForExecution : bytes -> VMHost -> VMHost * option error;
  DeductInitialGasForIndirectDeployment :
    CodeDeployInput -> VMHost -> VMHost * option error;
  (* OutputContext *)
  GasRemaining : VMOutput -> Z;
  AddToActiveState : VMOutput -> VMHost -> VMHost;
  ReturnCodeIsOk : VMHost -> bool;
  DeployCode : CodeDeployInput -> VMHost -> VMHost;
  (* RuntimeContext *)
  ReadOnly : RuntimeState -> bool;
  SetVMInput : VMInput -> RuntimeState -> RuntimeState;
  SetSCAddress : bytes -> RuntimeState -> RuntimeState;
  SetCustomCallFunction : string -> RuntimeState -> RuntimeState;
  GetFunctionToCall : RuntimeState -> error + GuestFunction;
  GetInitFunction : RuntimeState -> option GuestFunction;
  PushInstance : VMHost -> VMHost;
  PopInstance : VMHost -> VMHost;
  StartWasmerInstance : bytes -> Z -> VMHost -> VMHost * option error;
  VerifyContractCode : VMHost -> VMHost * option error;
  SetInstanceContextID : Z -> VMHost -> VMHost;
  (* package arwen *)
  AddHostContext : VMHost -> VMHost * Z;
  RemoveHostContext : Z -> VMHost -> VMHost;
  ErrInvalidCallOnReadOnlyMode : error
}.

Context {engine : EngineOperations}.

(** [isBuiltinFunctionBeingCalled]. *)
Definition isBuiltinFunctionBeingCalled (host : VMHost) : bool :=
  let functionName := Function (active (Runtime host)) in
  existsb (fun name => (name =? functionName)%string)
    (protocolBuiltinFunctions host).

(** Calling a guest function, with the breakpoint handled when it fails:
    [_, err = function(); if err != nil { err = host.handleBreakpointIfAny(err) }]. *)
Definition callGuest (function : GuestFunction) (host : VMHost)
  : VMHost * option error :=
  let '(host, err) := callFunction function host in
  match err with
  | Some err => handleBreakpointIfAny err host
  | None => (host, None)
  end.

(** [callSCMethodIndirect]. *)
Definition callSCMethodIndirect (host : VMHost) : VMHost * option error :=
  match GetFunctionToCall (active (Runtime host)) with
  | inl err => (host, Some err)
  | inr function => callGuest function host
  end.

(** [callInitFunction]. *)
Definition callInitFunction (host : VMHost) : VMHost * option error :=
  match GetInitFunction (active (Runtime host)) with
  | None => (host, None)
  | Some init => callGuest init host
  end.

(** [callBuiltinFunction]: the subtraction is the native one. *)
Definition callBuiltinFunction (input : ContractCallInput) (host : VMHost)
  : VMHost * option error :=
  let '(host, outcome) := ProcessBuiltInFunction input host in
  match outcome with
  | inl err =>
      let host := UseGas (GasProvided (inputVMInput input)) host in
      (host, Some err)
  | inr vmOutput =>
      let gasConsumed :=
        wrap64 (GasProvided (inputVMInput input) - GasRemaining vmOutput) in
      let host :=
        if GasRemaining vmOutput <? GasProvided (inputVMInput input)
        then UseGas gasConsumed host
        else host in
      let host := AddToActiveState vmOutput host in
      (host, None)
  end.

(** The two statements every return of [execute] and [CreateNewContract]
    runs once an instance was pushed, [runtime.PopInstance()] and
    [arwen.RemoveHostContext(idContext)]. *)
Definition dropInstance (idContext : Z) (host : VMHost) : VMHost :=
  let host := PopInstance host in
  RemoveHostContext idContext host.

(** [execute]. *)
Definition execute (input : ContractCallInput) (host : VMHost)
  : VMHost * option error :=
  if isBuiltinFunctionBeingCalled host then callBuiltinFunction input host
  else
    (* Use all gas initially, on the Wasmer instance of the caller. *)
    let initialGasProvided := GasProvided (inputVMInput input) in
    let host := UseGas initialGasProvided host in
    if isInitFunctionBeingCalled host then (host, Some ErrInitFuncCalledInRun)
    else
      let '(host, contract) :=
        GetCode (GetSCAddress (active (Runtime host))) host in
      match contract with
      | inl err => (host, Some err)
      | inr contract =>
          let '(host, err) := DeductInitialGasForExecution contract host in
          match err with
          | Some _ => (host, err)
          | None =>
              let '(host, idContext) := AddHostContext host in
              let host := PushInstance host in
              let gasForExecution :=
                GasProvided (GetVMInput (active (Runtime host))) in
              let '(host, err) :=
                StartWasmerInstance contract gasForExecution host in
              match err with
              | Some _ => (dropInstance idContext host, err)
              | None =>
                  let host := SetInstanceContextID idContext host in
                  let '(host, err) := callSCMethodIndirect host in
                  match err with
                  | Some _ => (dropInstance idContext host, err)
                  | None =>
                      if negb (ReturnCodeIsOk host)
                      then (dropInstance idContext host,
                            Some ErrReturnCodeNotOk)
                      else
                        let host := UnlockGasIfAsyncStep host in
                        let gasToRestoreToCaller := GasLeft host in
                        let host := PopInstance host in
                        let host := RestoreGas gasToRestoreToCaller host in
                        let host := RemoveHostContext idContext host in
                        (host, None)
                  end
              end
          end
      end.

(** The three statements of the failures of [CreateNewContract] after the
    instance was pushed. *)
Definition dropDeployment (idContext : Z) (host : VMHost) : VMHost :=
  let host := PopInstance host in
  let host := onRuntime PopSetActiveState host in
  RemoveHostContext idContext host.

(** [CreateNewContract]: the address of the new contract, or the error. *)
Definition CreateNewContract (input : ContractCreateInput) (host : VMHost)
  : VMHost * (error + bytes) :=
  let vmInput := createVMInput input in
  (* Use all gas initially. In case of successful deployment, the unused
     gas will be restored. *)
  let initialGasProvided := GasProvided vmInput in
  let host := UseGas initialGasProvided host in
  if ReadOnly (active (Runtime host))
  then (host, inl ErrInvalidCallOnReadOnlyMode)
  else
    let host := onRuntime PushState host in
    let host := onRuntime (onActive (SetVMInput vmInput)) host in
    let '(host, address) := NewAddress (CallerAddr vmInput) host in
    match address with
    | inl err => (onRuntime PopSetActiveState host, inl err)
    | inr address =>
        let '(host, err) :=
          Transfer address (CallerAddr vmInput) 0 (CallValue vmInput) []
            host in
        match err with
        | Some err => (onRuntime PopSetActiveState host, inl err)
        | None =>
            let host := IncreaseNonce (CallerAddr vmInput) host in
            let host := onRuntime (onActive (SetSCAddress address)) host in
            let codeDeployInput :=
              mkCodeDeployInput (ContractCode input)
                (ContractCodeMetadata input) address in
            let '(host, err) :=
              DeductInitialGasForIndirectDeployment codeDeployInput host in
            match err with
            | Some err => (onRuntime PopSetActiveState host, inl err)
            | None =>
                let '(host, idContext) := AddHostContext host in
                let host := PushInstance host in
                let gasForDeployment :=
                  GasProvided (GetVMInput (active (Runtime host))) in
                let '(host, err) :=
                  StartWasmerInstance (ContractCode input) gasForDeployment
                    host in
                match err with
                | Some err => (dropDeployment idContext host, inl err)
                | None =>
                    let '(host, err) := VerifyContractCode host in
                    match err with
                    | Some err => (dropDeployment idContext host, inl err)
                    | None =>
                        let host := SetInstanceContextID idContext host in
                        let '(host, err) := callInitFunction host in
                        match err with
                        | Some err =>
                            (dropDeployment idContext host, inl err)
                        | None =>
                            let host := DeployCode codeDeployInput host in
                            let gasToRestoreToCaller := GasLeft host in
                            let host := dropDeployment idContext host in
                            let host :=
                              RestoreGas gasToRestoreToCaller host in
                            (host, inr address)
                        end
                    end
                end
            end
        end
    end.

(** ** Function selection by call type *)

(** [getCurrentAsyncInfo]. *)
Definition getCurrentAsyncInfo (host : VMHost) : error + AsyncContextInfo :=
  let runtime := active (Runtime host) in
  match CustomStorageKey AsyncDataPrefix (GetOriginalTxHash runtime) with
  | inl err => inl err
  | inr storageKey =>
      let buff := GetStorage storageKey host in
      match Unmarshal buff with
      | inl message => inl (ErrForeign message)
      | inr asyncInfo => inr asyncInfo
      end
  end.

(** The two loops of [getFunctionByCallType]: the first call, in the order
    of the contexts and of their calls, whose destination is the caller. *)
Fixpoint firstCallTo (caller : bytes) (calls : list AsyncGeneratedCall)
  : option AsyncGeneratedCall :=
  match calls with
  | [] => None
  | asyncCall :: rest =>
      if bytes_Equal caller (Destination asyncCall) then Some asyncCall
      else firstCallTo caller rest
  end.

Fixpoint findCustomCallback (caller : bytes)
  (contextMap : list (string * AsyncContext)) : option AsyncGeneratedCall :=
  match contextMap with
  | [] => None
  | (_, asyncContext) :: rest =>
      match firstCallTo caller (AsyncCalls asyncContext) with
      | Some asyncCall => Some asyncCall
      | None => findCustomCallback caller rest
      end
  end.

(** [getFunctionByCallType]. *)
Definition getFunctionByCallType (kind : CallType) (host : VMHost)
  : VMHost * (error + GuestFunction) :=
  if negb (CallType_eqb kind AsynchronousCallBack)
  then (host, GetFunctionToCall (active (Runtime host)))
  else
    match getCurrentAsyncInfo host with
    | inl err => (host, inl err)
    | inr asyncInfo =>
        let vmInput := GetVMInput (active (Runtime host)) in
        let host :=
          match
            findCustomCallback (CallerAddr vmInput)
              (AsyncContextMap asyncInfo)
          with
          | Some asyncCall =>
              onRuntime
                (onActive (SetCustomCallFunction (SuccessCallback asyncCall)))
                host
          | None => host
          end in
        (host, GetFunctionToCall (active (Runtime host)))
    end.

(** [callSCMethod].  In the branch of the asynchronous call the error that
    is returned when [processAsyncInfo] fails is [err], which is nil there;
    a nil pending map without an error is a nil dereference. *)
Definition callSCMethod (host : VMHost) : result (VMHost * option error) :=
  match verifyAllowedFunctionCall host with
  | Some err => Returned (host, Some err)
  | None =>
      let kind := callType (GetVMInput (active (Runtime host))) in
      let '(host, function) := getFunctionByCallType kind host in
      match function with
      | inl err => Returned (host, Some err)
      | inr function =>
          let '(host, err) := callGuest function host in
          match err with
          | Some _ => Returned (host, err)
          | None =>
              match kind with
              | AsynchronousCall =>
                  let '(host, (pendingMap, paiErr)) :=
                    processAsyncInfo
                      (GetAsyncContextInfo (active (Runtime host))) host in
                  match paiErr, pendingMap with
                  | Some _, _ => Returned (host, err)
                  | None, None => Panicked
                  | None, Some pendingMap =>
                      if (List.length (AsyncContextMap pendingMap) =? 0)%nat
                      then Returned (sendCallbackToCurrentCaller host)
                      else Returned (host, err)
                  end
              | AsynchronousCallBack => processCallbackStack host
              | DirectCall =>
                  let '(host, (_, err)) :=
                    processAsyncInfo
                      (GetAsyncContextInfo (active (Runtime host))) host in
                  Returned (host, err)
              end
          end
      end
  end.

(** ** What the engine operations are asked for *)

(** An operation that leaves what [observe] sees of the host as it is. *)
Definition leaves {A B : Type} (observe : VMHost -> A)
  (operation : VMHost -> VMHost * B) : Prop :=
  forall host, observe (fst (operation host)) = observe host.

Definition leaves_it {A : Type} (observe : VMHost -> A)
  (operation : VMHost -> VMHost) : Prop :=
  forall host, observe (operation host) = observe host.

(** What [execute] and [CreateNewContract] call leaves what [observe] sees
    of the host as it is, the operations on the instance stack, on the
    registry of host contexts and on the state stack of the runtime context
    apart.  Guest code is among what they call: whatever it pushed or
    registered on its way, it released. *)
Record engine_leaves {A : Type} (observe : VMHost -> A) : Prop := {
  callFunction_leaves :
    forall function, leaves observe (callFunction function);
  handleBreakpointIfAny_leaves :
    forall err, leaves observe (handleBreakpointIfAny err);
  ProcessBuiltInFunction_leaves :
    forall input, leaves observe (ProcessBuiltInFunction input);
  GetCode_leaves : forall address, leaves observe (GetCode address);
  NewAddress_leaves : forall address, leaves observe (NewAddress address);
  IncreaseNonce_leaves :
    forall address, leaves_it observe (IncreaseNonce address);
  UseGas_leaves : forall gas, leaves_it observe (UseGas gas);
  RestoreGas_leaves : forall gas, leaves_it observe (RestoreGas gas);
  UnlockGasIfAsyncStep_leaves : leaves_it observe UnlockGasIfAsyncStep;
  DeductInitialGasForExecution_leaves :
    forall contract, leaves observe (DeductInitialGasForExecution contract);
  DeductInitialGasForIndirectDeployment_leaves :
    forall input,
      leaves observe (DeductInitialGasForIndirectDeployment input);
  AddToActiveState_leaves :
    forall vmOutput, leaves_it observe (AddToActiveState vmOutput);
  DeployCode_leaves : forall input, leaves_it observe (DeployCode input);
  StartWasmerInstance_leaves :
    forall code gas, leaves observe (StartWasmerInstance code gas);
  VerifyContractCode_leaves : leaves observe VerifyContractCode;
  SetInstanceContextID_leaves :
    forall idContext, leaves_it observe (SetInstanceContextID idContext);
  Transfer_leaves :
    forall destination sender gasLimit value data,
      leaves observe (Transfer destination sender gasLimit value data);
  runtime_state_leaves :
    forall method, leaves_it observe (onRuntime (onActive method))
}.

(** [instances] counts the instances of the instance stack and [registered]
    lists the identifiers of the registry of host contexts: [PushInstance]
    adds an instance and [PopInstance] takes one away, [AddHostContext]
    registers the identifier it returns, which was not registered, and
    [RemoveHostContext] takes the identifier it is given off the registry.
    Neither pair touches what the other keeps, and the state stack of the
    runtime context holds neither. *)
Record tracks_instances (instances : VMHost -> nat)
  (registered : VMHost -> list Z) : Prop := {
  PushInstance_adds :
    forall host,
      instances (PushInstance host) = S (instances host) /\
      registered (PushInstance host) = registered host;
  PopInstance_takes :
    forall host,
      instances (PopInstance host) = Nat.pred (instances host) /\
      registered (PopInstance host) = registered host;
  AddHostContext_registers :
    forall host,
      registered (fst (AddHostContext host))
      = snd (AddHostContext host) :: registered host /\
      ~ In (snd (AddHostContext host)) (registered host) /\
      instances (fst (AddHostContext host)) = instances host;
  RemoveHostContext_unregisters :
    forall idContext host,
      registered (RemoveHostContext idContext host)
      = remove Z.eq_dec idContext (registered host) /\
      instances (RemoveHostContext idContext host) = instances host;
  runtime_stack_apart :
    forall method host,
      instances (onRuntime method host) = instances host /\
      registered (onRuntime method host) = registered host
}.

(** The four operations on the instance stack and on the registry leave
    what [observe] sees of the host as it is. *)
Record instances_leave {A : Type} (observe : VMHost -> A) : Prop := {
  PushInstance_leaves : leaves_it observe PushInstance;
  PopInstance_leaves : leaves_it observe PopInstance;
  AddHostContext_leaves : leaves observe AddHostContext;
  RemoveHostContext_leaves :
    forall idContext, leaves_it observe (RemoveHostContext idContext)
}.

(** A host that differs from another in nothing that the operations of
    [engine_leaves] leave as it is. *)
Definition quiet (host host' : VMHost) : Prop :=
  forall (A : Type) (observe : VMHost -> A),
    engine_leaves observe -> observe host' = observe host.

End Engine.

(** ** Async calls that run on this host *)

Section AsyncCalls.

Context {states : ContextStates} {operations : HostOperations}.

(** What [processAsyncCall] and [callbackAsync] call and the file does not
    define: [createDestinationContractCallInput], whose error is dropped
    and whose input is used as it is ([None] for a nil input), and the test
    [vmOutput.ReturnCode != vmcommon.Ok] of a VM output. *)
Class AsyncOperations : Type := {
  createDestinationContractCallInput :
    AsyncGeneratedCall -> VMHost -> option ContractCallInput;
  ReturnCodeOk : VMOutput -> bool
}.

Context {async : AsyncOperations}.

(** [asyncCall.Status = status]: the call is behind a pointer. *)
Definition withStatus (status : AsyncCallStatus)
  (asyncCall : AsyncGeneratedCall) : AsyncGeneratedCall :=
  mkAsyncGeneratedCall status (Destination asyncCall) (Data asyncCall)
    (GasLimit asyncCall) (GasPercentage asyncCall) (ValueBytes asyncCall)
    (SuccessCallback asyncCall) (ErrorCallback asyncCall).

(** [callbackAsync]: the host, the call as the function leaves it, and the
    error. *)
Definition callbackAsync (asyncCall : AsyncGeneratedCall)
  (vmOutput : VMOutput) (executionError : option error) (host : VMHost)
  : VMHost * (AsyncGeneratedCall * option error) :=
  let asyncCall := withStatus AsyncCallResolved asyncCall in
  let callbackFunction := SuccessCallback asyncCall in
  let '(asyncCall, callbackFunction) :=
    if negb (ReturnCodeOk vmOutput)
    then (withStatus AsyncCallRejected asyncCall, ErrorCallback asyncCall)
    else (asyncCall, callbackFunction) in
  match
    createCallbackContractCallInput vmOutput (Destination asyncCall)
      callbackFunction executionError host
  with
  | inl err => (host, (asyncCall, Some err))
  | inr callbackCallInput =>
      (* Callback omits for now any async call *)
      let '(host, (callbackVMOutput, _, callBackErr)) :=
        ExecuteOnDestContext callbackCallInput host in
      let '(host, err) :=
        processCallbackVMOutput callbackVMOutput callBackErr host in
      (host, (asyncCall, err))
  end.

(** [processAsyncCall].  [ExecuteOnDestContext] returns a nil async info
    when the value transfer or [execute] fails; [getPendingAsyncCalls]
    reads [asyncInfo.CallerAddr] first, a nil dereference then.  The async
    info is the one [ExecuteOnDestContext] above returns. *)
Definition processAsyncCall (asyncCall : AsyncGeneratedCall) (host : VMHost)
  : result (VMHost * (AsyncGeneratedCall * option error)) :=
  match createDestinationContractCallInput asyncCall host with
  | None => Panicked
  | Some input =>
      let '(host, (output, asyncMap, executionError)) :=
        ExecuteOnDestContext input host in
      match asyncMap with
      | None => Panicked
      | Some asyncMap =>
          let pendingMap := getPendingAsyncCalls asyncMap in
          if (List.length (AsyncContextMap pendingMap) =? 0)%nat
          then Returned (callbackAsync asyncCall output executionError host)
          else Returned (host, (asyncCall, executionError))
      end
  end.

End AsyncCalls.

(** ** A concrete engine

    A host that keeps, besides its four contexts, the stack of its
    instances (the code of each), the registry of host contexts, the points
    used and the storage.  Guest functions are names: [fail] fails, any
    other one emits that it ran. *)

Record World : Type := mkWorld {
  worldInstances : list bytes;
  worldRegistry : list Z;
  worldPointsUsed : Z;
  worldStore : list (bytes * bytes)
}.

#[local] Instance engineStates : ContextStates := {|
  BigIntState := list Z;
  OutputState := list string;
  RuntimeState := DemoRuntime;
  StorageState := bytes;
  Others := World;
  VMOutput := Z * list string
|}.

Definition inWorld (change : World -> World) (host : VMHost) : VMHost :=
  mkVMHost (BigInt host) (Output host) (Runtime host) (Storage host)
    (change (others host)).

Definition say (what : string) (host : VMHost) : VMHost :=
  onOutput (onActive (fun emitted => emitted ++ [what])) host.

(** An identifier above all those of the registry. *)
Definition freshIdentifier (registry : list Z) : Z :=
  fold_right Z.max 0 registry + 1.

(** A pending set of one call, its stored form, and a decoder that knows it
    besides what [demoUnmarshal] knows. *)
Definition onePendingCall : AsyncContextInfo :=
  mkAsyncContextInfo (mkAsyncInitiator addressC [])
    [("ctx"%string, mkAsyncContext "done" [pendingCallTo addressA 100])].

Definition storedOnePendingCall : bytes := ["1"%byte].

Definition worldUnmarshal (buff : bytes) : string + AsyncContextInfo :=
  if bytes_Equal buff storedOnePendingCall then inr onePendingCall
  else demoUnmarshal buff.

Definition storeWithOnePendingCall : list (bytes * bytes) :=
  [(demoStorageKey, storedOnePendingCall)].

(** The processing of the async info fails when there is a call to
    process, and leaves nothing pending otherwise. *)
Definition engineHostWith
  (run : ContractCallInput -> VMHost -> VMHost * option error)
  : HostOperations := {|
  BigInt_InitState := fun _ => [];
  CensorVMOutput := fun _ => [];
  mergeVMOutputs := fun parent child => parent ++ child;
  CreateVMOutputInCaseOfError := fun _ _ => (0, []);
  GetVMOutput := fun host => (0, active (Output host));
  Transfer := fun _ _ _ _ _ host => (say "transfer" host, None);
  InitStateFromContractCallInput := fun input runtime =>
    mkDemoRuntime (inputVMInput input) (RecipientAddr input)
      (inputFunction input) (demoTxHash runtime) emptyAsyncInfo;
  GetSCAddress := demoAddress;
  Function := demoFunction;
  GetVMInput := demoInput;
  GetOriginalTxHash := demoTxHash;
  GetAsyncContextInfo := demoAsyncInfo;
  SetAddress := fun address _ => address;
  GetStorage := fun key host => demoLookup key (worldStore (others host));
  SetStorage := fun key value host =>
    (inWorld
       (fun world =>
          mkWorld (worldInstances world) (worldRegistry world)
            (worldPointsUsed world) ((key, value) :: worldStore world))
       host,
     None);
  GasLeft := fun host => 1000 - worldPointsUsed (others host);
  Execution.execute := run;
  processAsyncInfo := fun asyncInfo host =>
    match AsyncContextMap asyncInfo with
    | [] => (host, (Some asyncInfo, None))
    | _ => (host, (None, Some (ErrForeign "no gas for the async calls")))
    end;
  canExecuteSynchronouslyOnDest := fun _ _ => false;
  sendStorageCallbackToDestination := fun _ host => (host, None);
  createCallbackContractCallInput := fun _ _ _ _ _ =>
    inl (ErrForeign "no callback input");
  processCallbackVMOutput := fun _ err host => (host, err);
  CustomStorageKey := fun prefix hash => inr (prefix ++ hash);
  AsyncDataPrefix := ["a"%byte];
  CallbackDefault := "callBack";
  InitFunctionName := "init";
  InitFunctionNameEth := "solidity.ctor";
  CallBackFunctionName := "callBack";
  Unmarshal := worldUnmarshal
|}.

Definition setPointsUsed (used : Z) (world : World) : World :=
  mkWorld (worldInstances world) (worldRegistry world) used
    (worldStore world).

(** Every contract but the one at the empty address has the code
    [fourBytes]; starting an instance fails for the function [broken]. *)
#[local] Instance demoEngine : EngineOperations := {|
  GuestFunction := string;
  callFunction := fun function host =>
    if (function =? "fail")%string
    then (say "failed" host, Some (ErrForeign "execution failed"))
    else (say "ran" host, None);
  handleBreakpointIfAny := fun err host => (host, Some err);
  protocolBuiltinFunctions := fun _ => ["transferValue"%string];
  sendCallbackToCurrentCaller := fun host => (say "callback" host, None);
  ProcessBuiltInFunction := fun input host =>
    (host, inr (GasProvided (inputVMInput input) - 1, ["builtin"%string]));
  GetCode := fun address host =>
    match address with
    | [] => (host, inl (ErrForeign "no code"))
    | _ => (host, inr Metering.fourBytes)
    end;
  NewAddress := fun caller host => (host, inr (caller ++ ["n"%byte]));
  IncreaseNonce := fun _ host => host;
  UseGas := fun gas host =>
    inWorld (fun world => setPointsUsed (worldPointsUsed world + gas) world)
      host;
  RestoreGas := fun gas host =>
    inWorld (fun world => setPointsUsed (worldPointsUsed world - gas) world)
      host;
  UnlockGasIfAsyncStep := fun host => host;
  DeductInitialGasForExecution := fun _ host => (host, None);
  DeductInitialGasForIndirectDeployment := fun _ host => (host, None);
  GasRemaining := fst;
  AddToActiveState := fun vmOutput host =>
    onOutput (onActive (fun emitted => emitted ++ snd vmOutput)) host;
  ReturnCodeIsOk := fun _ => true;
  DeployCode := fun _ host => say "deployed" host;
  ReadOnly := fun _ => false;
  SetVMInput := fun input runtime =>
    mkDemoRuntime input (demoAddress runtime) (demoFunction runtime)
      (demoTxHash runtime) (demoAsyncInfo runtime);
  SetSCAddress := fun address runtime =>
    mkDemoRuntime (demoInput runtime) address (demoFunction runtime)
      (demoTxHash runtime) (demoAsyncInfo runtime);
  SetCustomCallFunction := fun function runtime =>
    mkDemoRuntime (demoInput runtime) (demoAddress runtime) function
      (demoTxHash runtime) (demoAsyncInfo runtime);
  GetFunctionToCall := fun runtime =>
    if (demoFunction runtime =? "missing")%string
    then inl (ErrForeign "function not found")
    else inr (demoFunction runtime);
  GetInitFunction := fun _ => Some "init"%string;
  PushInstance := fun host =>
    inWorld
      (fun world =>
         mkWorld ([] :: worldInstances world) (worldRegistry world)
           (worldPointsUsed world) (worldStore world))
      host;
  PopInstance := fun host =>
    inWorld
      (fun world =>
         mkWorld (tl (worldInstances world)) (worldRegistry world)
           (worldPointsUsed world) (worldStore world))
      host;
  StartWasmerInstance := fun _ _ host =>
    if (demoFunction (active (Runtime host)) =? "broken")%string
    then (host, Some (ErrForeign "invalid contract"))
    else (host, None);
  VerifyContractCode := fun host => (host, None);
  SetInstanceContextID := fun _ host => host;
  AddHostContext := fun host =>
    (inWorld
       (fun world =>
          mkWorld (worldInstances world)
            (freshIdentifier (worldRegistry world) :: worldRegistry world)
            (worldPointsUsed world) (worldStore world))
       host,
     freshIdentifier (worldRegistry (others host)));
  RemoveHostContext := fun idContext host =>
    inWorld
      (fun world =>
         mkWorld (worldInstances world)
           (remove Z.eq_dec idContext (worldRegistry world))
           (worldPointsUsed world) (worldStore world))
      host;
  ErrInvalidCallOnReadOnlyMode := ErrForeign "invalid call on read only mode"
|}.

(** The host whose [execute] is the one of the file, on an engine whose
    guest code makes no sub-call. *)
Definition leafHost : HostOperations :=
  engineHostWith (fun _ host => (host, None)).

#[local] Instance engineHost : HostOperations :=
  engineHostWith (execute (operations := leafHost)).

(** The input of an async call: the function is named by the data of the
    call. *)
#[local] Instance demoAsync : AsyncOperations := {|
  createDestinationContractCallInput := fun asyncCall host =>
    Some
      (mkContractCallInput
         (mkVMInput (demoAddress (active (Runtime host))) 0 AsynchronousCall
            (GasLimit asyncCall))
         (Destination asyncCall) (string_of_list_byte (Data asyncCall)));
  ReturnCodeOk := fun vmOutput => fst vmOutput =? 0
|}.

(** An async call to [addressB] whose data names the init function. *)
Definition callOfInit : AsyncGeneratedCall :=
  mkAsyncGeneratedCall AsyncCallPending addressB
    (list_byte_of_string "init") 10 100 [] "onSuccess" "onError".

(** A host that runs [function] of the contract at [addressC] for the given
    kind of call from [caller], with one instance on its stack, one host
    context registered, and the given async info and storage. *)
Definition engineHostOf (caller : bytes) (function : string)
  (kind : CallType) (asyncInfo : AsyncContextInfo)
  (store : list (bytes * bytes)) : VMHost :=
  mkVMHost (mkContext [7] [[3]]) (mkContext ["parent"%string] [])
    (mkContext
       (mkDemoRuntime (mkVMInput caller 0 kind 100) addressC function
          ["t"%byte] asyncInfo)
       [])
    (mkContext addressC []) (mkWorld [[]] [4] 0 store).

(** The direct call of [main] from [addressA], and the creation of a
    contract of four bytes by [addressA]. *)
Definition mainCall : ContractCallInput :=
  mkContractCallInput (mkVMInput addressA 0 DirectCall 100) addressC "main".

Definition smallContract : ContractCreateInput :=
  mkContractCreateInput (mkVMInput addressA 0 DirectCall 100)
    Metering.fourBytes [].

Definition instancesOf (host : VMHost) : nat :=
  List.length (worldInstances (others host)).

Definition registeredIn (host : VMHost) : list Z :=
  worldRegistry (others host).

End Dispatch.

(** * Properties of the metering context *)

Module MeteringFacts.

Import Metering.

Section Properties.

Context {collaborators : Collaborators}.

Lemma wrap64_small : forall n, uint64 n -> wrap64 n = n.
Proof.
  intros n [Hlo Hhi]. unfold wrap64. apply Z.mod_small.
  unfold MaxUint64 in Hhi. lia.
Qed.

Lemma gasOfTransfers_nonneg : forall transfers,
  Forall uint64_transfer transfers -> 0 <= gasOfTransfers transfers.
Proof.
  induction 1 as [|t ts [[Hl _] [Hk _]] _ IH]; simpl; lia.
Qed.

Lemma gasOfAccounts_nonneg : forall accounts,
  uint64_accounts accounts -> 0 <= gasOfAccounts accounts.
Proof.
  induction 1 as [|e es [[Hu _] Hts] _ IH]; simpl; [lia|].
  pose proof (gasOfTransfers_nonneg _ Hts). lia.
Qed.

(** [GasLeft] of a context whose points used exceed the gas for execution. *)
Lemma GasLeft_exhausted : forall context,
  gasForExecution context < pointsUsed (host context) -> GasLeft context = 0.
Proof.
  intros context H. unfold GasLeft.
  destruct (Z.ltb_spec (gasForExecution context) (pointsUsed (host context)));
    [reflexivity | lia].
Qed.

(** [GasLeft] by cases: the guard keeps the native subtraction from
    wrapping. *)
Lemma GasLeft_cases : forall context,
  uint64 (pointsUsed (host context)) ->
  uint64 (gasForExecution context) ->
  (pointsUsed (host context) <= gasForExecution context ->
   GasLeft context = gasForExecution context - pointsUsed (host context)) /\
  (gasForExecution context < pointsUsed (host context) ->
   GasLeft context = 0).
Proof.
  intros context Hused Hexec. split; [|apply GasLeft_exhausted].
  intros Hle. unfold GasLeft.
  destruct (Z.ltb_spec (gasForExecution context) (pointsUsed (host context)));
    [lia|].
  apply wrap64_small. unfold uint64 in *. lia.
Qed.

(** C10. For every metering state holding [uint64] values, [GasLeft] is
    [gasForExecution] minus the points used when the points used are at most
    [gasForExecution], and exactly 0 when they exceed it; the native
    subtraction never wraps, so the result lies between 0 and
    [gasForExecution], also in the state [UseGas] leaves when it drives the
    points used above the gas for execution. *)
Theorem GasLeft_never_underflows : forall context,
  uint64 (pointsUsed (host context)) ->
  uint64 (gasForExecution context) ->
  (pointsUsed (host context) <= gasForExecution context ->
   GasLeft context = gasForExecution context - pointsUsed (host context)) /\
  (gasForExecution context < pointsUsed (host context) ->
   GasLeft context = 0) /\
  0 <= GasLeft context <= gasForExecution context /\
  (forall gas,
     gasForExecution context < pointsUsed (host (UseGas gas context)) ->
     GasLeft (UseGas gas context) = 0).
Proof.
  intros context Hused Hexec.
  destruct (GasLeft_cases context Hused Hexec) as [Hle Hgt].
  split; [exact Hle|]. split; [exact Hgt|]. split.
  - destruct (Z.le_gt_cases (pointsUsed (host context))
                (gasForExecution context)) as [Hc|Hc].
    + rewrite (Hle Hc). unfold uint64 in *. lia.
    + rewrite (Hgt Hc). unfold uint64 in *. lia.
  - intros gas Hover. now apply GasLeft_exhausted.
Qed.

(** C9, as the code has it. [UseGasBounded] returns the not-enough-gas error
    exactly when [gasToUse] is greater than or equal to [GasLeft], leaving
    the context as it was; when [gasToUse] is strictly below [GasLeft] it
    returns no error, the points used grow by [gasToUse] and [GasLeft]
    shrinks by [gasToUse]. *)
Theorem UseGasBounded_spec : forall gasToUse context,
  exact_below_overflow AddUint64 ->
  uint64 (pointsUsed (host context)) ->
  uint64 (gasForExecution context) ->
  uint64 gasToUse ->
  (GasLeft context <= gasToUse ->
   UseGasBounded gasToUse context = (context, Some ErrNotEnoughGas)) /\
  (gasToUse < GasLeft context ->
   exists context',
     UseGasBounded gasToUse context = (context', None) /\
     pointsUsed (host context') = pointsUsed (host context) + gasToUse /\
     gasForExecution context' = gasForExecution context /\
     GasLeft context' = GasLeft context - gasToUse).
Proof.
  intros gasToUse context Hadd Hused Hexec Hgas.
  destruct (GasLeft_cases context Hused Hexec) as [Hle Hgt].
  split.
  - intros H. unfold UseGasBounded.
    destruct (Z.leb_spec (GasLeft context) gasToUse); [reflexivity | lia].
  - intros H. unfold UseGasBounded.
    destruct (Z.leb_spec (GasLeft context) gasToUse); [lia|].
    assert (Hfit : pointsUsed (host context) <= gasForExecution context).
    { destruct (Z.le_gt_cases (pointsUsed (host context))
                  (gasForExecution context)) as [Hc|Hc]; [exact Hc|].
      rewrite (Hgt Hc) in H. unfold uint64 in Hgas. lia. }
    specialize (Hle Hfit).
    assert (Hsum : AddUint64 (pointsUsed (host context)) gasToUse
                   = pointsUsed (host context) + gasToUse).
    { apply Hadd; trivial. unfold uint64 in *. lia. }
    eexists. split; [reflexivity|].
    cbn. rewrite Hsum. split; [reflexivity|]. split; [reflexivity|].
    unfold GasLeft at 1. cbn. rewrite Hsum.
    destruct (Z.ltb_spec (gasForExecution context)
                (pointsUsed (host context) + gasToUse)); [lia|].
    rewrite wrap64_small by (unfold uint64 in *; lia). lia.
Qed.

Lemma getGasTransferredByAccount_from : forall transfers gasUsed,
  exact_below_overflow AddUint64 ->
  uint64 gasUsed ->
  Forall uint64_transfer transfers ->
  gasUsed + gasOfTransfers transfers <= MaxUint64 ->
  fold_left
    (fun gasUsed outputTransfer =>
       let gasUsed := AddUint64 gasUsed (GasLimit outputTransfer) in
       AddUint64 gasUsed (GasLocked outputTransfer))
    transfers gasUsed
  = gasUsed + gasOfTransfers transfers.
Proof.
  intros transfers gasUsed Hadd Hacc Hall. revert gasUsed Hacc.
  induction Hall as [|t ts [Hl Hk] Hts IH]; intros gasUsed Hacc Hfit; simpl in *.
  - lia.
  - pose proof (gasOfTransfers_nonneg _ Hts) as Hrest.
    assert (H1 : AddUint64 gasUsed (GasLimit t) = gasUsed + GasLimit t).
    { apply Hadd; trivial. unfold uint64 in *. lia. }
    rewrite H1.
    assert (H2 : AddUint64 (gasUsed + GasLimit t) (GasLocked t)
                 = gasUsed + GasLimit t + GasLocked t).
    { apply Hadd; trivial; unfold uint64 in *; lia. }
    rewrite H2. rewrite IH; unfold uint64 in *; lia.
Qed.

Lemma getCurrentTotalUsedGas_from : forall accounts gasUsed,
  exact_below_overflow AddUint64 ->
  uint64 gasUsed ->
  uint64_accounts accounts ->
  gasUsed + gasOfAccounts accounts <= MaxUint64 ->
  fold_left
    (fun gasUsed (entry : string * OutputAccount) =>
       let outputAccount := snd entry in
       let gasTransferred := getGasTransferredByAccount outputAccount in
       let gasUsed := AddUint64 gasUsed (GasUsed outputAccount) in
       AddUint64 gasUsed gasTransferred)
    accounts gasUsed
  = gasUsed + gasOfAccounts accounts.
Proof.
  intros accounts gasUsed Hadd Hacc Hall. revert gasUsed Hacc.
  induction Hall as [|e es [Hu Hts] Hes IH]; intros gasUsed Hacc Hfit;
    simpl in *.
  - lia.
  - pose proof (gasOfAccounts_nonneg _ Hes) as Hrest.
    pose proof (gasOfTransfers_nonneg _ Hts) as Hmine.
    assert (Ht : getGasTransferredByAccount (snd e)
                 = gasOfTransfers (OutputTransfers (snd e))).
    { unfold getGasTransferredByAccount.
      rewrite getGasTransferredByAccount_from; trivial;
        unfold uint64 in *; lia. }
    rewrite Ht.
    assert (H1 : AddUint64 gasUsed (GasUsed (snd e))
                 = gasUsed + GasUsed (snd e)).
    { apply Hadd; trivial. unfold uint64 in *. lia. }
    rewrite H1.
    assert (H2 : AddUint64 (gasUsed + GasUsed (snd e))
                   (gasOfTransfers (OutputTransfers (snd e)))
                 = gasUsed + GasUsed (snd e)
                   + gasOfTransfers (OutputTransfers (snd e))).
    { apply Hadd; unfold uint64 in *; lia. }
    rewrite H2. rewrite IH; unfold uint64 in *; lia.
Qed.

(** C2, as the code has it. When every gas field is a [uint64] and the sum
    over all output accounts of [GasUsed] plus the [GasLimit] and [GasLocked]
    of every transfer, plus [GasRemaining], fits in 64 bits, [checkGas]
    computes exactly that sum, returns no error exactly when the sum equals
    the gas provided, and returns [ErrInputAndOutputGasDoesNotMatch] exactly
    when it differs. *)
Theorem checkGas_matches_sum : forall vmOutput context,
  exact_below_overflow AddUint64 ->
  uint64_accounts (outputAccounts (host context)) ->
  uint64 (GasRemaining vmOutput) ->
  gasAccountedFor vmOutput context <= MaxUint64 ->
  AddUint64 (getCurrentTotalUsedGas context) (GasRemaining vmOutput)
  = gasAccountedFor vmOutput context /\
  (checkGas vmOutput context = None <->
   gasAccountedFor vmOutput context = GetGasProvided context) /\
  (checkGas vmOutput context = Some ErrInputAndOutputGasDoesNotMatch <->
   gasAccountedFor vmOutput context <> GetGasProvided context).
Proof.
  intros vmOutput context Hadd Haccs Hrem Hfit.
  unfold gasAccountedFor in *.
  pose proof (gasOfAccounts_nonneg _ Haccs) as Hnonneg.
  assert (Hused : getCurrentTotalUsedGas context
                  = gasOfAccounts (outputAccounts (host context))).
  { unfold getCurrentTotalUsedGas.
    rewrite getCurrentTotalUsedGas_from; trivial; unfold uint64 in *; lia. }
  assert (Htotal : AddUint64 (getCurrentTotalUsedGas context)
                     (GasRemaining vmOutput)
                   = gasOfAccounts (outputAccounts (host context))
                     + GasRemaining vmOutput).
  { rewrite Hused. apply Hadd; trivial; unfold uint64 in *; lia. }
  split; [exact Htotal|].
  unfold checkGas. rewrite Htotal.
  destruct (Z.eqb_spec
              (gasOfAccounts (outputAccounts (host context))
               + GasRemaining vmOutput)
              (GetGasProvided context)) as [Heq|Hneq]; simpl.
  - split; split; intros H; trivial; try discriminate. contradiction.
  - split; split; intros H; trivial; try discriminate. contradiction.
Qed.

(** ** The state stack of the metering context *)

Lemma setGasOf_fresh : forall address gas gasUsed,
  ~ In address (map fst gasUsed) ->
  setGasOf address gas gasUsed = gasUsed ++ [(address, gas)].
Proof.
  intros address gas gasUsed. induction gasUsed as [|[key old] rest IH];
    intros Hfresh; simpl in *; [reflexivity|].
  destruct (String.eqb_spec key address) as [->|Hne].
  - exfalso. apply Hfresh. now left.
  - rewrite IH; [reflexivity|]. intros Hin. apply Hfresh. now right.
Qed.

Lemma clone_from : forall gasUsed clone,
  NoDup (map fst gasUsed) ->
  (forall address, In address (map fst clone) ->
                   ~ In address (map fst gasUsed)) ->
  fold_left
    (fun clone (entry : string * Z) => setGasOf (fst entry) (snd entry) clone)
    gasUsed clone
  = clone ++ gasUsed.
Proof.
  induction gasUsed as [|[key gas] rest IH]; intros clone Hdistinct Hapart;
    simpl.
  - now rewrite app_nil_r.
  - inversion Hdistinct as [|? ? Hfresh Hrest]; subst.
    rewrite setGasOf_fresh.
    + rewrite IH; [now rewrite <- app_assoc | exact Hrest |].
      intros address Hin. rewrite map_app in Hin.
      apply in_app_or in Hin as [Hin|[<-|[]]].
      * intros Hin'. apply (Hapart address Hin). now right.
      * exact Hfresh.
    + intros Hin. apply (Hapart key Hin). now left.
Qed.

(** A map with one entry per key is cloned as it is. *)
Lemma cloneGasUsedByAccounts_same : forall context,
  NoDup (map fst (gasUsedByAccounts context)) ->
  cloneGasUsedByAccounts context = gasUsedByAccounts context.
Proof.
  intros context Hdistinct. unfold cloneGasUsedByAccounts.
  rewrite clone_from; [reflexivity | exact Hdistinct |].
  intros address [].
Qed.

(** The snapshot that [PushState] takes is what [PopSetActiveState] puts
    back: the four saved fields and the stack are as before. *)
Lemma PopSetActiveState_PushState : forall context,
  NoDup (map fst (gasUsedByAccounts context)) ->
  PopSetActiveState (PushState context)
  = mkMeteringContext (host context) (stateStack context)
      (initialGasProvided context) (initialCost context)
      (gasForExecution context) (gasUsedByAccounts context)
      (gasTracer context).
Proof.
  intros context Hdistinct. unfold PopSetActiveState, PushState. simpl.
  now rewrite (cloneGasUsedByAccounts_same _ Hdistinct).
Qed.

End Properties.

(** ** The results on concrete metering states *)

Lemma AddUint64_clamped_exact :
  exact_below_overflow (AddUint64 (Collaborators := clampedCollaborators)).
Proof.
  intros a b _ _ Hfit. simpl. unfold AddUint64_clamped.
  destruct (Z.leb_spec (a + b) MaxUint64); [reflexivity | lia].
Qed.

Lemma AddUint64_clamped_uint64 : uint64_valued AddUint64_clamped.
Proof.
  intros a b [Ha _] [Hb _]. unfold AddUint64_clamped, uint64.
  destruct (Z.leb_spec (a + b) MaxUint64); unfold MaxUint64 in *; lia.
Qed.

Lemma GasLeft_never_underflows_witness :
  GasLeft (contextWith 30 100) = 100 - 30 /\
  GasLeft (contextWith 130 100) = 0 /\
  GasLeft (UseGas 50 (contextWith 80 100)) = 0.
Proof.
  split; [|split].
  - apply (GasLeft_never_underflows (contextWith 30 100)); uint64_literal.
  - apply (GasLeft_never_underflows (contextWith 130 100)); uint64_literal.
  - apply (GasLeft_never_underflows (contextWith 80 100)); uint64_literal.
Defined.

(** C9, the claim as stated fails: with 10 units of gas left, asking for
    exactly 10 does not exceed the remaining gas, and is refused. *)
Lemma UseGasBounded_refuses_the_exact_amount :
  GasLeft (contextWith 0 10) = 10 /\
  ~ 10 > GasLeft (contextWith 0 10) /\
  UseGasBounded 10 (contextWith 0 10)
  = (contextWith 0 10, Some ErrNotEnoughGas).
Proof.
  split; [reflexivity|]. split; [|reflexivity].
  change (GasLeft (contextWith 0 10)) with 10. lia.
Qed.

Lemma UseGasBounded_spec_witness :
  UseGasBounded 10 (contextWith 0 10)
  = (contextWith 0 10, Some ErrNotEnoughGas) /\
  exists context',
    UseGasBounded 9 (contextWith 0 10) = (context', None) /\
    pointsUsed (host context') = 0 + 9 /\
    gasForExecution context' = 10 /\
    GasLeft context' = GasLeft (contextWith 0 10) - 9.
Proof.
  split.
  - apply (UseGasBounded_spec 10 (contextWith 0 10) AddUint64_clamped_exact);
      uint64_literal.
  - apply (UseGasBounded_spec 9 (contextWith 0 10) AddUint64_clamped_exact);
      uint64_literal.
Defined.

Lemma twoAccounts_uint64 : uint64_accounts twoAccounts.
Proof.
  repeat constructor; simpl; uint64_literal.
Qed.

Lemma checkGas_matches_sum_witness :
  checkGas (mkVMOutput twoAccounts 25) balancedContext = None /\
  checkGas (mkVMOutput twoAccounts 24) balancedContext
  = Some ErrInputAndOutputGasDoesNotMatch.
Proof.
  split.
  - apply (checkGas_matches_sum (mkVMOutput twoAccounts 25) balancedContext
             AddUint64_clamped_exact twoAccounts_uint64);
      [uint64_literal | vm_compute; discriminate | reflexivity].
  - apply (checkGas_matches_sum (mkVMOutput twoAccounts 24) balancedContext
             AddUint64_clamped_exact twoAccounts_uint64);
      [uint64_literal | vm_compute; discriminate | vm_compute; discriminate].
Defined.

(** C2, the claim as stated fails once the amounts overflow 64 bits.  One
    account used [MaxUint64] and 1 remains: the sum of the specification is
    2^64.  Whatever [uint64]-valued addition that is exact below the overflow
    stands for [math.AddUint64], the check passes when the gas provided is
    what that addition makes of [MaxUint64] and 1, which is not 2^64. *)
Lemma checkGas_passes_on_overflow :
  ~ exists add : Z -> Z -> Z,
      uint64_valued add /\ exact_below_overflow add /\
      (checkGas (mkVMOutput saturatedAccounts 1)
         (saturatedContext add (add MaxUint64 1)) = None ->
       gasAccountedFor (mkVMOutput saturatedAccounts 1)
         (saturatedContext add (add MaxUint64 1))
       = GetGasProvided (saturatedContext add (add MaxUint64 1))).
Proof.
  intros (add & Hval & Hexact & Hclaim).
  assert (Hmax : uint64 MaxUint64) by uint64_literal.
  assert (Hzero : uint64 0) by uint64_literal.
  assert (Hone : uint64 1) by uint64_literal.
  assert (Hsum : gasAccountedFor (mkVMOutput saturatedAccounts 1)
                   (saturatedContext add (add MaxUint64 1))
                 = add MaxUint64 1).
  { apply Hclaim.
    unfold checkGas, getCurrentTotalUsedGas, getGasTransferredByAccount.
    simpl. rewrite (Hexact 0 MaxUint64) by (trivial; lia).
    rewrite (Hexact (0 + MaxUint64) 0) by (trivial; simpl; lia).
    simpl. rewrite Z.eqb_refl. reflexivity. }
  pose proof (Hval MaxUint64 1 Hmax Hone) as [_ Hhi].
  unfold gasAccountedFor in Hsum. simpl in Hsum.
  rewrite <- Hsum in Hhi. unfold MaxUint64 in Hhi. lia.
Qed.

(** The same state under the clamping addition. *)
Example checkGas_passes_on_overflow_clamped :
  checkGas (mkVMOutput saturatedAccounts 1)
    (saturatedContext AddUint64_clamped MaxUint64) = None /\
  gasAccountedFor (mkVMOutput saturatedAccounts 1)
    (saturatedContext AddUint64_clamped MaxUint64) = MaxUint64 + 1 /\
  GetGasProvided (saturatedContext AddUint64_clamped MaxUint64) = MaxUint64.
Proof.
  repeat split.
Qed.

(** ** Gas provided, deducted and given back *)

Section GasAccountingProperties.

Context {collaborators : Collaborators} {arithmetic : Arithmetic}.

Lemma meteringContext_eta : forall context : meteringContext,
  mkMeteringContext
    (mkVMHost (pointsUsed (host context)) (outputAccounts (host context)))
    (stateStack context) (initialGasProvided context) (initialCost context)
    (gasForExecution context) (gasUsedByAccounts context) (gasTracer context)
  = context.
Proof.
  intros [[used accounts] stack provided cost execution gasUsed tracer].
  reflexivity.
Qed.

(** X1. Gas that was used is given back in full: [RestoreGas] of an amount
    right after [UseGas] of the same amount leaves the context as it was,
    when the points used stay within 64 bits; and [RestoreGas] of more than
    the points used changes nothing. *)
Theorem RestoreGas_after_UseGas : forall gas context,
  exact_below_overflow AddUint64 ->
  exact_above_underflow SubUint64 ->
  uint64 (pointsUsed (host context)) ->
  uint64 gas ->
  (pointsUsed (host context) + gas <= MaxUint64 ->
   RestoreGas gas (UseGas gas context) = context) /\
  (pointsUsed (host context) < gas ->
   RestoreGas gas context = context).
Proof.
  intros gas context Hadd Hsub Hused Hgas. split.
  - intros Hfit. unfold RestoreGas, UseGas, SetPointsUsed. cbn.
    rewrite (Hadd _ _ Hused Hgas Hfit).
    destruct (Z.leb_spec gas (pointsUsed (host context) + gas)) as [_|Hlt];
      [|unfold uint64 in *; lia].
    cbn. rewrite Hsub; [| unfold uint64 in *; lia | exact Hgas
                        | unfold uint64 in *; lia].
    replace (pointsUsed (host context) + gas - gas)
      with (pointsUsed (host context)) by lia.
    apply meteringContext_eta.
  - intros Hmore. unfold RestoreGas.
    destruct (Z.leb_spec gas (pointsUsed (host context))); [lia | reflexivity].
Qed.

(** X2. [BoundGasLimit] returns the smaller of the gas left and the limit
    read as a [uint64], so never more than the gas left; a negative limit
    is read as 2^64 plus the limit, and bounds nothing as long as the gas
    left is at most 2^63. *)
Theorem BoundGasLimit_spec : forall value context,
  uint64 (pointsUsed (host context)) ->
  uint64 (gasForExecution context) ->
  - 2 ^ 63 <= value < 2 ^ 63 ->
  BoundGasLimit value context <= GasLeft context /\
  (0 <= value ->
   BoundGasLimit value context = Z.min (GasLeft context) value) /\
  (value < 0 ->
   BoundGasLimit value context = Z.min (GasLeft context) (2 ^ 64 + value)) /\
  (value < 0 -> GasLeft context <= 2 ^ 63 ->
   BoundGasLimit value context = GasLeft context).
Proof.
  intros value context Hused Hexec Hvalue.
  assert (Hpos : 0 <= value -> wrap64 value = value).
  { intros H. unfold wrap64. apply Z.mod_small. lia. }
  assert (Hneg : value < 0 -> wrap64 value = 2 ^ 64 + value).
  { intros H. unfold wrap64.
    symmetry. apply (Z.mod_unique_pos value (2 ^ 64) (-1)); lia. }
  unfold BoundGasLimit.
  destruct (Z.ltb_spec (GasLeft context) (wrap64 value)) as [Hlt|Hge].
  - split; [lia|]. split; [|split].
    + intros H. rewrite (Hpos H) in Hlt. lia.
    + intros H. rewrite (Hneg H) in Hlt. lia.
    + reflexivity.
  - split; [exact Hge|]. split; [|split].
    + intros H. rewrite (Hpos H) in *. lia.
    + intros H. rewrite (Hneg H) in *. lia.
    + intros H Hleft. rewrite (Hneg H) in *. lia.
Qed.

(** The initial cost that [deductInitialGas] computes, when it fits in 64
    bits. *)
Lemma initial_cost_exact : forall (code : bytes) baseCost costPerByte,
  exact_below_overflow AddUint64 ->
  exact_product MulUint64 ->
  uint64 baseCost ->
  uint64 costPerByte ->
  uint64 (Z.of_nat (List.length code)) ->
  baseCost + Z.of_nat (List.length code) * costPerByte <= MaxUint64 ->
  AddUint64 baseCost (MulUint64 (Z.of_nat (List.length code)) costPerByte)
  = baseCost + Z.of_nat (List.length code) * costPerByte.
Proof.
  intros code baseCost costPerByte Hadd Hmul Hbase Hper Hlen Hfit.
  assert (Hcost : 0 <= Z.of_nat (List.length code) * costPerByte)
    by (unfold uint64 in *; nia).
  rewrite Hmul; [| exact Hlen | exact Hper | unfold uint64 in *; lia].
  apply Hadd; [exact Hbase | unfold uint64 in *; lia | exact Hfit].
Qed.

(** [deductInitialGas] by cases on the exact cost. *)
Lemma deductInitialGas_exact :
  forall input (code : bytes) baseCost costPerByte context,
  exact_below_overflow AddUint64 ->
  exact_product MulUint64 ->
  uint64 baseCost ->
  uint64 costPerByte ->
  uint64 (GasProvided input) ->
  uint64 (Z.of_nat (List.length code)) ->
  baseCost + Z.of_nat (List.length code) * costPerByte <= MaxUint64 ->
  deductInitialGas input code baseCost costPerByte context
  = if baseCost + Z.of_nat (List.length code) * costPerByte
       >? GasProvided input
    then (context, Some ErrNotEnoughGas)
    else
      (mkMeteringContext (host context) (stateStack context)
         (initialGasProvided context)
         (baseCost + Z.of_nat (List.length code) * costPerByte)
         (GasProvided input
          - (baseCost + Z.of_nat (List.length code) * costPerByte))
         (gasUsedByAccounts context) (gasTracer context),
       None).
Proof.
  intros input code baseCost costPerByte context Hadd Hmul Hbase Hper Hgas
    Hlen Hfit.
  unfold deductInitialGas.
  rewrite (initial_cost_exact code baseCost costPerByte Hadd Hmul Hbase Hper
             Hlen Hfit).
  destruct (Z.gtb_spec (baseCost + Z.of_nat (List.length code) * costPerByte)
              (GasProvided input)) as [Hgt|Hle]; [reflexivity|].
  rewrite wrap64_small; [reflexivity|].
  unfold uint64 in *. nia.
Qed.

(** X3. [deductInitialGas] fails with the not-enough-gas error, leaving the
    context as it was, exactly when the base cost plus the cost per byte of
    the code exceeds the gas provided; otherwise it records that cost as the
    initial cost and the rest of the gas provided as the gas for execution,
    so that the two add up to the gas provided, and touches nothing else. *)
Theorem deductInitialGas_spec :
  forall input (code : bytes) baseCost costPerByte context,
  exact_below_overflow AddUint64 ->
  exact_product MulUint64 ->
  uint64 baseCost ->
  uint64 costPerByte ->
  uint64 (GasProvided input) ->
  uint64 (Z.of_nat (List.length code)) ->
  baseCost + Z.of_nat (List.length code) * costPerByte <= MaxUint64 ->
  (GasProvided input
   < baseCost + Z.of_nat (List.length code) * costPerByte ->
   deductInitialGas input code baseCost costPerByte context
   = (context, Some ErrNotEnoughGas)) /\
  (baseCost + Z.of_nat (List.length code) * costPerByte
   <= GasProvided input ->
   exists context',
     deductInitialGas input code baseCost costPerByte context
     = (context', None) /\
     initialCost context'
     = baseCost + Z.of_nat (List.length code) * costPerByte /\
     initialCost context' + gasForExecution context' = GasProvided input /\
     uint64 (gasForExecution context') /\
     host context' = host context /\
     stateStack context' = stateStack context /\
     initialGasProvided context' = initialGasProvided context /\
     gasUsedByAccounts context' = gasUsedByAccounts context).
Proof.
  intros input code baseCost costPerByte context Hadd Hmul Hbase Hper Hgas
    Hlen Hfit.
  rewrite (deductInitialGas_exact input code baseCost costPerByte context
             Hadd Hmul Hbase Hper Hgas Hlen Hfit).
  destruct (Z.gtb_spec (baseCost + Z.of_nat (List.length code) * costPerByte)
              (GasProvided input)) as [Hgt|Hle].
  - split; [reflexivity | lia].
  - split; [lia|]. intros _. eexists. split; [reflexivity|]. cbn.
    split; [reflexivity|]. split; [lia|]. split; [|repeat split].
    unfold uint64 in *. nia.
Qed.

(** X4. Gas that exactly covers the initial cost of an execution is accepted
    and leaves no gas for execution: the gas left is then 0 and
    [UseGasBounded] refuses every amount. *)
Theorem DeductInitialGasForExecution_of_the_exact_cost :
  forall gasSchedule input (contract : bytes) context,
  exact_below_overflow AddUint64 ->
  exact_product MulUint64 ->
  uint64 (GetCode (baseOperationCost gasSchedule)) ->
  uint64 (AoTPreparePerByte (baseOperationCost gasSchedule)) ->
  uint64 (GasProvided input) ->
  uint64 (Z.of_nat (List.length contract)) ->
  uint64 (pointsUsed (host context)) ->
  GasProvided input
  = GetCode (baseOperationCost gasSchedule)
    + Z.of_nat (List.length contract)
      * AoTPreparePerByte (baseOperationCost gasSchedule) ->
  exists context',
    DeductInitialGasForExecution gasSchedule input contract context
    = (context', None) /\
    initialCost context' = GasProvided input /\
    gasForExecution context' = 0 /\
    GasLeft context' = 0 /\
    forall gasToUse, 0 <= gasToUse ->
      UseGasBounded gasToUse context' = (context', Some ErrNotEnoughGas).
Proof.
  intros gasSchedule input contract context Hadd Hmul Hbase Hper Hgas Hlen
    Hused Hexact.
  unfold DeductInitialGasForExecution.
  rewrite (deductInitialGas_exact input contract _ _ context Hadd Hmul Hbase
             Hper Hgas Hlen) by (rewrite <- Hexact; apply Hgas).
  rewrite <- Hexact.
  destruct (Z.gtb_spec (GasProvided input) (GasProvided input)); [lia|].
  eexists. split; [reflexivity|]. cbn. split; [reflexivity|].
  split; [lia|].
  assert (Hleft : forall used accounts stack provided cost gasUsed tracer,
            0 <= used ->
            GasLeft
              (mkMeteringContext (mkVMHost used accounts) stack provided cost
                 (GasProvided input - GasProvided input) gasUsed tracer)
            = 0).
  { intros used accounts stack provided cost gasUsed tracer Hpos.
    unfold GasLeft. cbn. rewrite Z.sub_diag.
    destruct (Z.ltb_spec 0 used); [reflexivity|].
    replace used with 0 by lia. reflexivity. }
  destruct context as [[used accounts] stack provided cost execution gasUsed
                         tracer].
  cbn in *. destruct Hused as [Hpos _].
  split; [now apply Hleft|].
  intros gasToUse Hamount. unfold UseGasBounded. rewrite (Hleft _ _ _ _ _ _ _ Hpos).
  destruct (Z.leb_spec 0 gasToUse); [reflexivity | lia].
Qed.

(** X5. Deploying from a transaction costs exactly the [CreateContract]
    entry of the schedule more than deploying the same code from a contract:
    when the direct deduction succeeds, so does the indirect one, with the
    same result but for an initial cost lower, and a gas for execution
    higher, by that entry. *)
Theorem direct_deployment_costs_CreateContract_more :
  forall gasSchedule input (ContractCode : bytes) context direct,
  exact_below_overflow AddUint64 ->
  exact_product MulUint64 ->
  uint64 (CreateContract (baseOpsAPICost gasSchedule)) ->
  uint64 (CompilePerByte (baseOperationCost gasSchedule)) ->
  uint64 (GasProvided input) ->
  uint64 (Z.of_nat (List.length ContractCode)) ->
  CreateContract (baseOpsAPICost gasSchedule)
  + Z.of_nat (List.length ContractCode)
    * CompilePerByte (baseOperationCost gasSchedule) <= MaxUint64 ->
  DeductInitialGasForDirectDeployment gasSchedule input ContractCode context
  = (direct, None) ->
  exists indirect,
    DeductInitialGasForIndirectDeployment gasSchedule input ContractCode
      context = (indirect, None) /\
    initialCost direct
    = initialCost indirect + CreateContract (baseOpsAPICost gasSchedule) /\
    gasForExecution indirect
    = gasForExecution direct + CreateContract (baseOpsAPICost gasSchedule) /\
    host indirect = host direct /\
    stateStack indirect = stateStack direct /\
    initialGasProvided indirect = initialGasProvided direct /\
    gasUsedByAccounts indirect = gasUsedByAccounts direct.
Proof.
  intros gasSchedule input ContractCode context direct Hadd Hmul Hbase Hper
    Hgas Hlen Hfit Hdirect.
  assert (Hzero : uint64 0) by uint64_literal.
  unfold DeductInitialGasForDirectDeployment in Hdirect.
  unfold DeductInitialGasForIndirectDeployment.
  rewrite (deductInitialGas_exact input ContractCode _ _ context Hadd Hmul
             Hbase Hper Hgas Hlen Hfit) in Hdirect.
  rewrite (deductInitialGas_exact input ContractCode 0 _ context Hadd Hmul
             Hzero Hper Hgas Hlen) by (unfold uint64 in *; lia).
  destruct (Z.gtb_spec
              (CreateContract (baseOpsAPICost gasSchedule)
               + Z.of_nat (List.length ContractCode)
                 * CompilePerByte (baseOperationCost gasSchedule))
              (GasProvided input)) as [Hgt|Hle]; [discriminate|].
  injection Hdirect as <-.
  destruct (Z.gtb_spec
              (0 + Z.of_nat (List.length ContractCode)
                   * CompilePerByte (baseOperationCost gasSchedule))
              (GasProvided input)) as [Hgt|_];
    [unfold uint64 in *; lia|].
  eexists. split; [reflexivity|]. cbn.
  split; [lia|]. split; [lia|]. repeat split.
Qed.

(** X6. [InitStateFromContractCallInput] starts the accounting of a call
    afresh, with the gas provided as both the initial gas and the gas for
    execution.  For a callback the locked gas is first added to the gas
    provided of the input and the lock of the input set to 0, so that
    initialising again from the input it leaves adds nothing more; for any
    other call the input is left as it is. *)
Theorem InitStateFromContractCallInput_unlocks_once :
  forall newGasTracer input context,
  exact_below_overflow AddUint64 ->
  uint64 (GasProvided input) ->
  uint64 (inputGasLocked input) ->
  GasProvided input + inputGasLocked input <= MaxUint64 ->
  exists context' input',
    InitStateFromContractCallInput newGasTracer input context
    = (context', input') /\
    (callType input = AsynchronousCallBack ->
     GasProvided input' = GasProvided input + inputGasLocked input /\
     inputGasLocked input' = 0 /\
     callType input' = AsynchronousCallBack) /\
    (callType input <> AsynchronousCallBack -> input' = input) /\
    initialGasProvided context' = GasProvided input' /\
    gasForExecution context' = GasProvided input' /\
    initialCost context' = 0 /\
    gasUsedByAccounts context' = [] /\
    stateStack context' = stateStack context /\
    host context' = host context /\
    InitStateFromContractCallInput newGasTracer input' context'
    = (context', input').
Proof.
  intros newGasTracer input context Hadd Hgas Hlocked Hfit.
  assert (Hzero : uint64 0) by uint64_literal.
  unfold InitStateFromContractCallInput, unlockGasIfAsyncCallback, InitState.
  destruct input as [[| |] provided locked];
    cbn [GasProvided inputGasLocked callType] in *.
  - do 2 eexists. split; [reflexivity|]. cbn.
    split; [discriminate|]. repeat split.
  - do 2 eexists. split; [reflexivity|]. cbn.
    split; [discriminate|]. repeat split.
  - rewrite (Hadd _ _ Hgas Hlocked Hfit).
    do 2 eexists. split; [reflexivity|]. cbn.
    split; [repeat split|]. split; [intros H; now elim H|].
    do 6 (split; [reflexivity|]).
    rewrite (Hadd (provided + locked) 0)
      by (trivial; unfold uint64 in *; lia).
    now rewrite Z.add_0_r.
Qed.

(** X7. What was provided is either spent or left: after a successful
    [deductInitialGas], and after any further use of gas that stays within
    the gas for execution, [GasSpentByContract] and [GasLeft] add up to the
    gas provided of the input, and [GasUsedForExecution] is the points
    used. *)
Theorem gas_spent_and_gas_left_add_up :
  forall input (code : bytes) baseCost costPerByte context context' gas,
  exact_below_overflow AddUint64 ->
  exact_above_underflow SubUint64 ->
  exact_product MulUint64 ->
  uint64 baseCost ->
  uint64 costPerByte ->
  uint64 (GasProvided input) ->
  uint64 (Z.of_nat (List.length code)) ->
  baseCost + Z.of_nat (List.length code) * costPerByte <= MaxUint64 ->
  deductInitialGas input code baseCost costPerByte context
  = (context', None) ->
  uint64 (pointsUsed (host context)) ->
  uint64 gas ->
  pointsUsed (host context) + gas <= gasForExecution context' ->
  GasSpentByContract (UseGas gas context')
  + GasLeft (UseGas gas context') = GasProvided input /\
  GasUsedForExecution (UseGas gas context')
  = pointsUsed (host context) + gas.
Proof.
  intros input code baseCost costPerByte context context' gas Hadd Hsub Hmul
    Hbase Hper Hgas Hlen Hfit Hdeduct Hused Hamount Hwithin.
  rewrite (deductInitialGas_exact input code baseCost costPerByte context
             Hadd Hmul Hbase Hper Hgas Hlen Hfit) in Hdeduct.
  destruct (Z.gtb_spec (baseCost + Z.of_nat (List.length code) * costPerByte)
              (GasProvided input)) as [Hgt|Hle]; [discriminate|].
  injection Hdeduct as <-. cbn in Hwithin.
  assert (Hcost : 0 <= Z.of_nat (List.length code) * costPerByte)
    by (unfold uint64 in *; nia).
  unfold GasSpentByContract, GasUsedForExecution, GasSpentByContract, GasLeft,
    UseGas, SetPointsUsed.
  cbn.
  rewrite (Hadd (pointsUsed (host context)) gas)
    by (trivial; unfold uint64 in *; lia).
  rewrite (Hadd (baseCost + Z.of_nat (List.length code) * costPerByte)
             (pointsUsed (host context) + gas))
    by (unfold uint64 in *; lia).
  destruct (Z.ltb_spec
              (GasProvided input
               - (baseCost + Z.of_nat (List.length code) * costPerByte))
              (pointsUsed (host context) + gas)); [lia|].
  rewrite wrap64_small by (unfold uint64 in *; lia).
  split; [lia|].
  rewrite Hsub by (unfold uint64 in *; lia). lia.
Qed.

(** *** Gas per account *)

Lemma gasOf_setGasOf : forall address key gas gasUsed,
  gasOf address (setGasOf key gas gasUsed)
  = if (key =? address)%string then gas else gasOf address gasUsed.
Proof.
  intros address key gas gasUsed.
  induction gasUsed as [|[k old] rest IH]; simpl; [reflexivity|].
  destruct (String.eqb_spec k key) as [->|Hne]; simpl.
  - destruct (key =? address)%string; reflexivity.
  - destruct (String.eqb_spec k address) as [->|Hne'].
    + destruct (String.eqb_spec key address) as [->|_];
        [now elim Hne | reflexivity].
    + exact IH.
Qed.

Lemma gasOf_missing : forall address gasUsed,
  ~ In address (map fst gasUsed) -> gasOf address gasUsed = 0.
Proof.
  intros address gasUsed. induction gasUsed as [|[k gas] rest IH];
    intros Hmissing; simpl in *; [reflexivity|].
  destruct (String.eqb_spec k address) as [->|Hne].
  - exfalso. apply Hmissing. now left.
  - apply IH. intros Hin. apply Hmissing. now right.
Qed.

Lemma addToGasUsedByAccounts_gasOf : forall gasUsed current address,
  NoDup (map fst gasUsed) ->
  (In address (map fst gasUsed) ->
   gasOf address (addToGasUsedByAccounts gasUsed current)
   = wrap64 (gasOf address current + gasOf address gasUsed)) /\
  (~ In address (map fst gasUsed) ->
   gasOf address (addToGasUsedByAccounts gasUsed current)
   = gasOf address current).
Proof.
  unfold addToGasUsedByAccounts.
  induction gasUsed as [|[key gas] rest IH]; intros current address Hdistinct;
    simpl.
  - split; [intros [] | reflexivity].
  - inversion Hdistinct as [|? ? Hfresh Hrest]; subst.
    destruct (IH (setGasOf key (wrap64 (gasOf key current + gas)) current)
                address Hrest) as [Hin Hout].
    destruct (String.eqb_spec key address) as [->|Hne].
    + split; [|intros H; exfalso; apply H; now left].
      intros _. rewrite (Hout Hfresh), gasOf_setGasOf.
      now rewrite String.eqb_refl.
    + assert (Hkeep : gasOf address
                        (setGasOf key (wrap64 (gasOf key current + gas))
                           current)
                      = gasOf address current).
      { rewrite gasOf_setGasOf.
        destruct (String.eqb_spec key address); [contradiction | reflexivity]. }
      split.
      * intros [Heq|Hin']; [contradiction|]. now rewrite (Hin Hin'), Hkeep.
      * intros Hnot. rewrite Hout, Hkeep; [reflexivity|].
        intros Hin'. apply Hnot. now right.
Qed.

(** X8. [PopSetActiveState] puts back the snapshot that [PushState] took,
    whatever was done to the context in between: the initial gas provided,
    the initial cost, the gas for execution, the gas used per account and
    the stack are those of the time of the push.  The points used of the
    running instance and the gas trace are not part of the snapshot and
    stay as they are. *)
Theorem PopSetActiveState_restores_the_snapshot : forall context changed,
  NoDup (map fst (gasUsedByAccounts context)) ->
  stateStack changed = stateStack (PushState context) ->
  PopSetActiveState changed
  = mkMeteringContext (host changed) (stateStack context)
      (initialGasProvided context) (initialCost context)
      (gasForExecution context) (gasUsedByAccounts context)
      (gasTracer changed).
Proof.
  intros context changed Hdistinct Hstack.
  unfold PopSetActiveState. rewrite Hstack. cbn.
  now rewrite (cloneGasUsedByAccounts_same _ Hdistinct).
Qed.

(** X9. [PopMergeActiveState] puts back the three amounts of the snapshot
    that [PushState] took and adds, address by address, the gas the snapshot
    recorded to the gas recorded since, modulo 2^64; an address the snapshot
    does not know keeps what was recorded since. *)
Theorem PopMergeActiveState_adds_gas_per_account :
  forall context changed address,
  NoDup (map fst (gasUsedByAccounts context)) ->
  stateStack changed = stateStack (PushState context) ->
  initialGasProvided (PopMergeActiveState changed)
  = initialGasProvided context /\
  initialCost (PopMergeActiveState changed) = initialCost context /\
  gasForExecution (PopMergeActiveState changed) = gasForExecution context /\
  stateStack (PopMergeActiveState changed) = stateStack context /\
  (In address (map fst (gasUsedByAccounts context)) ->
   gasOf address (gasUsedByAccounts (PopMergeActiveState changed))
   = wrap64 (gasOf address (gasUsedByAccounts changed)
             + gasOf address (gasUsedByAccounts context))) /\
  (~ In address (map fst (gasUsedByAccounts context)) ->
   gasOf address (gasUsedByAccounts (PopMergeActiveState changed))
   = gasOf address (gasUsedByAccounts changed)).
Proof.
  intros context changed address Hdistinct Hstack.
  unfold PopMergeActiveState. rewrite Hstack. cbn.
  rewrite (cloneGasUsedByAccounts_same _ Hdistinct).
  do 4 (split; [reflexivity|]).
  apply addToGasUsedByAccounts_gasOf, Hdistinct.
Qed.

Lemma hasAccount_In : forall address accounts,
  hasAccount address accounts = true <-> In address (map fst accounts).
Proof.
  intros address accounts. unfold hasAccount. rewrite existsb_exists. split.
  - intros ([key account] & Hin & Heq). simpl in Heq.
    apply String.eqb_eq in Heq as <-.
    apply (in_map fst) in Hin. exact Hin.
  - intros Hin. apply in_map_iff in Hin as (entry & <- & Hin).
    exists entry. split; [exact Hin | apply String.eqb_refl].
Qed.

(** X10. [setGasUsedToOutputAccounts] writes into every output account of
    the VM output the gas recorded for its address, 0 when none is, and
    leaves addresses, transfers and gas remaining as they are, also when it
    returns an error.  It returns no error exactly when every address with
    recorded gas has an output account, and its own error otherwise. *)
Theorem setGasUsedToOutputAccounts_spec : forall vmOutput context,
  (snd (setGasUsedToOutputAccounts vmOutput context) = None <->
   forall address,
     In address (map fst (gasUsedByAccounts context)) ->
     In address (map fst (OutputAccounts vmOutput))) /\
  (snd (setGasUsedToOutputAccounts vmOutput context) <> None ->
   snd (setGasUsedToOutputAccounts vmOutput context)
   = Some (ErrForeign "expected OutputAccount has used gas but is missing")) /\
  map fst (OutputAccounts (fst (setGasUsedToOutputAccounts vmOutput context)))
  = map fst (OutputAccounts vmOutput) /\
  map (fun entry => OutputTransfers (snd entry))
    (OutputAccounts (fst (setGasUsedToOutputAccounts vmOutput context)))
  = map (fun entry => OutputTransfers (snd entry)) (OutputAccounts vmOutput) /\
  GasRemaining (fst (setGasUsedToOutputAccounts vmOutput context))
  = GasRemaining vmOutput /\
  forall address account,
    In (address, account)
      (OutputAccounts (fst (setGasUsedToOutputAccounts vmOutput context))) ->
    GasUsed account = gasOf address (gasUsedByAccounts context).
Proof.
  intros vmOutput context. unfold setGasUsedToOutputAccounts.
  set (accounts :=
         map
           (fun entry : string * OutputAccount =>
              (fst entry,
               mkOutputAccount (gasOf (fst entry) (gasUsedByAccounts context))
                 (OutputTransfers (snd entry))))
           (OutputAccounts vmOutput)).
  assert (Hkeys : map fst accounts = map fst (OutputAccounts vmOutput)).
  { unfold accounts. rewrite map_map. reflexivity. }
  assert (Hall : forallb
                   (fun entry : string * Z => hasAccount (fst entry) accounts)
                   (gasUsedByAccounts context) = true <->
                 forall address,
                   In address (map fst (gasUsedByAccounts context)) ->
                   In address (map fst (OutputAccounts vmOutput))).
  { rewrite forallb_forall. split.
    - intros H address Hin. apply in_map_iff in Hin as (entry & <- & Hin).
      rewrite <- Hkeys. apply hasAccount_In. now apply H.
    - intros H entry Hin. apply hasAccount_In. rewrite Hkeys.
      apply H. now apply in_map. }
  destruct (forallb (fun entry : string * Z => hasAccount (fst entry) accounts)
              (gasUsedByAccounts context)) eqn:Hfound; cbn.
  - split; [split; [intros _; now apply Hall | reflexivity]|].
    split; [intros H; now elim H|].
    split; [exact Hkeys|]. split; [unfold accounts; now rewrite map_map|].
    split; [reflexivity|].
    intros address account Hin. unfold accounts in Hin.
    apply in_map_iff in Hin as (entry & Heq & _). now inversion Heq.
  - split; [split; [discriminate|]|].
    { intros H. apply Hall in H. discriminate. }
    split; [reflexivity|].
    split; [exact Hkeys|]. split; [unfold accounts; now rewrite map_map|].
    split; [reflexivity|].
    intros address account Hin. unfold accounts in Hin.
    apply in_map_iff in Hin as (entry & Heq & _). now inversion Heq.
Qed.

Lemma gasOf_uint64 : forall address gasUsed,
  Forall (fun entry : string * Z => uint64 (snd entry)) gasUsed ->
  uint64 (gasOf address gasUsed).
Proof.
  intros address gasUsed Hall.
  induction Hall as [|[key gas] rest Hgas _ IH]; simpl.
  - uint64_literal.
  - destruct (key =? address)%string; [exact Hgas | exact IH].
Qed.

Lemma gasTransferredByAll_nonneg : forall accounts,
  uint64_accounts accounts -> 0 <= gasTransferredByAll accounts.
Proof.
  induction 1 as [|entry rest [_ Hts] _ IH]; simpl; [lia|].
  pose proof (gasOfTransfers_nonneg _ Hts). lia.
Qed.

Lemma gasRecordedForOthers_nonneg : forall current gasUsed accounts,
  Forall (fun entry : string * Z => uint64 (snd entry)) gasUsed ->
  0 <= gasRecordedForOthers current gasUsed accounts.
Proof.
  intros current gasUsed accounts Hall.
  induction accounts as [|entry rest IH]; simpl; [lia|].
  pose proof (gasOf_uint64 (fst entry) gasUsed Hall) as [Hlo _].
  destruct (fst entry =? current)%string; lia.
Qed.

Lemma getGasUsedByAllOtherAccounts_from :
  forall current gasUsed accounts gasUsedAndTransferred,
  exact_below_overflow AddUint64 ->
  uint64 gasUsedAndTransferred ->
  uint64_accounts accounts ->
  Forall (fun entry : string * Z => uint64 (snd entry)) gasUsed ->
  gasUsedAndTransferred + gasTransferredByAll accounts
  + gasRecordedForOthers current gasUsed accounts <= MaxUint64 ->
  fold_left
    (fun gasUsedAndTransferred (entry : string * OutputAccount) =>
       let address := fst entry in
       let account := snd entry in
       let gasTransferred := getGasTransferredByAccount account in
       let gasUsed :=
         if negb (address =? current)%string
         then gasOf address gasUsed
         else 0 in
       let gasUsedAndTransferred :=
         AddUint64 gasUsedAndTransferred gasUsed in
       AddUint64 gasUsedAndTransferred gasTransferred)
    accounts gasUsedAndTransferred
  = gasUsedAndTransferred + gasTransferredByAll accounts
    + gasRecordedForOthers current gasUsed accounts.
Proof.
  intros current gasUsed accounts acc Hadd Hacc Haccounts Hgas.
  revert acc Hacc.
  induction Haccounts as [|entry rest [Hu Hts] Hrest IH]; intros acc Hacc Hfit;
    simpl in *; [lia|].
  pose proof (gasTransferredByAll_nonneg _ Hrest) as Hothers.
  pose proof (gasRecordedForOthers_nonneg current gasUsed rest Hgas)
    as Hrecorded.
  pose proof (gasOfTransfers_nonneg _ Hts) as Hmine.
  pose proof (gasOf_uint64 (fst entry) gasUsed Hgas) as Hentry.
  set (recorded := if (fst entry =? current)%string then 0
                   else gasOf (fst entry) gasUsed) in *.
  assert (Hsame : (if negb (fst entry =? current)%string
                   then gasOf (fst entry) gasUsed else 0) = recorded).
  { unfold recorded. now destruct (fst entry =? current)%string. }
  rewrite Hsame.
  assert (Hrec : uint64 recorded).
  { unfold recorded. destruct (fst entry =? current)%string;
      [uint64_literal | exact Hentry]. }
  assert (Ht : getGasTransferredByAccount (snd entry)
               = gasOfTransfers (OutputTransfers (snd entry))).
  { unfold getGasTransferredByAccount.
    rewrite getGasTransferredByAccount_from; trivial;
      unfold uint64 in *; lia. }
  rewrite Ht.
  assert (H1 : AddUint64 acc recorded = acc + recorded).
  { apply Hadd; trivial. unfold uint64 in *. lia. }
  rewrite H1.
  assert (H2 : AddUint64 (acc + recorded)
                 (gasOfTransfers (OutputTransfers (snd entry)))
               = acc + recorded
                 + gasOfTransfers (OutputTransfers (snd entry))).
  { apply Hadd; unfold uint64 in *; lia. }
  rewrite H2. rewrite IH; unfold uint64 in *; lia.
Qed.

(** X11. When the amounts are [uint64]s and their sum fits in 64 bits,
    [getGasUsedByAllOtherAccounts] is the gas of the transfers of every
    output account, those of the current account included, plus the gas
    recorded for the address of every output account but the current one. *)
Theorem getGasUsedByAllOtherAccounts_sum :
  forall currentAccountAddress accounts context,
  exact_below_overflow AddUint64 ->
  uint64_accounts accounts ->
  Forall (fun entry : string * Z => uint64 (snd entry))
    (gasUsedByAccounts context) ->
  gasTransferredByAll accounts
  + gasRecordedForOthers currentAccountAddress (gasUsedByAccounts context)
      accounts <= MaxUint64 ->
  getGasUsedByAllOtherAccounts currentAccountAddress accounts context
  = gasTransferredByAll accounts
    + gasRecordedForOthers currentAccountAddress (gasUsedByAccounts context)
        accounts.
Proof.
  intros current accounts context Hadd Haccounts Hgas Hfit.
  unfold getGasUsedByAllOtherAccounts.
  assert (Hzero : uint64 0) by uint64_literal.
  rewrite getGasUsedByAllOtherAccounts_from; trivial; lia.
Qed.

End GasAccountingProperties.

(** *** On concrete metering states *)

Lemma SubUint64_clamped_exact :
  exact_above_underflow (SubUint64 (Arithmetic := clampedArithmetic)).
Proof.
  intros a b _ _ Hle. simpl. unfold SubUint64_clamped.
  destruct (Z.leb_spec b a); [reflexivity | lia].
Qed.

Lemma MulUint64_clamped_exact :
  exact_product (MulUint64 (Arithmetic := clampedArithmetic)).
Proof.
  intros a b _ _ Hfit. simpl. unfold MulUint64_clamped.
  destruct (Z.leb_spec (a * b) MaxUint64); [reflexivity | lia].
Qed.

Lemma RestoreGas_after_UseGas_witness :
  RestoreGas (arithmetic := clampedArithmetic) 30
    (UseGas 30 (contextWith 20 100)) = contextWith 20 100 /\
  RestoreGas (arithmetic := clampedArithmetic) 30 (contextWith 20 100)
  = contextWith 20 100.
Proof.
  split.
  - apply (proj1 (RestoreGas_after_UseGas (arithmetic := clampedArithmetic)
                    30 (contextWith 20 100) AddUint64_clamped_exact
                    SubUint64_clamped_exact ltac:(uint64_literal)
                    ltac:(uint64_literal))).
    uint64_literal.
  - apply (proj2 (RestoreGas_after_UseGas (arithmetic := clampedArithmetic)
                    30 (contextWith 20 100) AddUint64_clamped_exact
                    SubUint64_clamped_exact ltac:(uint64_literal)
                    ltac:(uint64_literal))).
    uint64_literal.
Defined.

Lemma BoundGasLimit_spec_witness :
  BoundGasLimit 50 (contextWith 30 100)
  = Z.min (GasLeft (contextWith 30 100)) 50 /\
  BoundGasLimit (-1) (contextWith 30 100) = GasLeft (contextWith 30 100).
Proof.
  split.
  - apply (BoundGasLimit_spec 50 (contextWith 30 100)); uint64_literal.
  - apply (BoundGasLimit_spec (-1) (contextWith 30 100)); uint64_literal.
Defined.

Lemma deductInitialGas_spec_witness :
  deductInitialGas (arithmetic := clampedArithmetic)
    (mkVMInput DirectCall 17 0) fourBytes 10 2 (contextWith 0 0)
  = (contextWith 0 0, Some ErrNotEnoughGas) /\
  exists context',
    deductInitialGas (arithmetic := clampedArithmetic)
      directInput fourBytes 10 2 (contextWith 0 0) = (context', None) /\
    initialCost context' = 10 + 4 * 2 /\
    initialCost context' + gasForExecution context' = 100 /\
    uint64 (gasForExecution context') /\
    host context' = host (contextWith 0 0) /\
    stateStack context' = stateStack (contextWith 0 0) /\
    initialGasProvided context' = initialGasProvided (contextWith 0 0) /\
    gasUsedByAccounts context' = gasUsedByAccounts (contextWith 0 0).
Proof.
  split.
  - apply (deductInitialGas_spec (arithmetic := clampedArithmetic)
             (mkVMInput DirectCall 17 0) fourBytes 10 2 (contextWith 0 0)
             AddUint64_clamped_exact MulUint64_clamped_exact);
      uint64_literal.
  - apply (deductInitialGas_spec (arithmetic := clampedArithmetic)
             directInput fourBytes 10 2 (contextWith 0 0)
             AddUint64_clamped_exact MulUint64_clamped_exact);
      uint64_literal.
Defined.

Lemma DeductInitialGasForExecution_of_the_exact_cost_witness :
  exists context',
    DeductInitialGasForExecution (arithmetic := clampedArithmetic)
      smallSchedule (mkVMInput DirectCall 18 0) fourBytes (contextWith 0 0)
    = (context', None) /\
    initialCost context' = 18 /\
    gasForExecution context' = 0 /\
    GasLeft context' = 0 /\
    forall gasToUse, 0 <= gasToUse ->
      UseGasBounded gasToUse context' = (context', Some ErrNotEnoughGas).
Proof.
  apply (DeductInitialGasForExecution_of_the_exact_cost
           (arithmetic := clampedArithmetic)
           smallSchedule (mkVMInput DirectCall 18 0) fourBytes
           (contextWith 0 0)
           AddUint64_clamped_exact MulUint64_clamped_exact);
    uint64_literal.
Defined.

Lemma direct_deployment_costs_CreateContract_more_witness :
  exists indirect,
    DeductInitialGasForIndirectDeployment (arithmetic := clampedArithmetic)
      smallSchedule directInput fourBytes (contextWith 0 0)
    = (indirect, None) /\
    initialCost
      (fst (DeductInitialGasForDirectDeployment
              (arithmetic := clampedArithmetic)
              smallSchedule directInput fourBytes (contextWith 0 0)))
    = initialCost indirect + 50 /\
    gasForExecution indirect
    = gasForExecution
        (fst (DeductInitialGasForDirectDeployment
                (arithmetic := clampedArithmetic)
                smallSchedule directInput fourBytes (contextWith 0 0)))
      + 50.
Proof.
  destruct (direct_deployment_costs_CreateContract_more
              (arithmetic := clampedArithmetic)
              smallSchedule directInput fourBytes (contextWith 0 0)
              (fst (DeductInitialGasForDirectDeployment
                      (arithmetic := clampedArithmetic)
                      smallSchedule directInput fourBytes (contextWith 0 0)))
              AddUint64_clamped_exact MulUint64_clamped_exact
              ltac:(uint64_literal) ltac:(uint64_literal)
              ltac:(uint64_literal) ltac:(uint64_literal)
              ltac:(uint64_literal) eq_refl)
    as (indirect & Hrun & Hcost & Hgas & _).
  exists indirect. split; [exact Hrun|]. split; [exact Hcost | exact Hgas].
Defined.

Lemma InitStateFromContractCallInput_unlocks_once_witness :
  exists context' input',
    InitStateFromContractCallInput (collaborators := clampedCollaborators)
      [] callbackInput (contextWith 5 0)
    = (context', input') /\
    GasProvided input' = 100 + 40 /\
    inputGasLocked input' = 0 /\
    gasForExecution context' = GasProvided input' /\
    InitStateFromContractCallInput (collaborators := clampedCollaborators)
      [] input' context' = (context', input').
Proof.
  destruct (InitStateFromContractCallInput_unlocks_once
              (collaborators := clampedCollaborators) [] callbackInput (contextWith 5 0) AddUint64_clamped_exact
              ltac:(uint64_literal) ltac:(uint64_literal)
              ltac:(uint64_literal))
    as (context' & input' & Hrun & Hcallback & _ & _ & Hgas & _ & _ & _ & _
        & Hagain).
  destruct (Hcallback eq_refl) as (Hprovided & Hlocked & _).
  exists context', input'. repeat split; assumption.
Defined.

Lemma gas_spent_and_gas_left_add_up_witness :
  GasSpentByContract
    (UseGas 30
       (fst (deductInitialGas (arithmetic := clampedArithmetic)
               directInput fourBytes 10 2 (contextWith 0 0))))
  + GasLeft
      (UseGas 30
         (fst (deductInitialGas (arithmetic := clampedArithmetic)
                 directInput fourBytes 10 2 (contextWith 0 0))))
  = 100 /\
  GasUsedForExecution (arithmetic := clampedArithmetic)
    (UseGas 30
       (fst (deductInitialGas (arithmetic := clampedArithmetic)
               directInput fourBytes 10 2 (contextWith 0 0))))
  = 0 + 30.
Proof.
  apply (gas_spent_and_gas_left_add_up (arithmetic := clampedArithmetic)
           directInput fourBytes 10 2 (contextWith 0 0)
           (fst (deductInitialGas (arithmetic := clampedArithmetic)
                   directInput fourBytes 10 2 (contextWith 0 0)))
           30 AddUint64_clamped_exact SubUint64_clamped_exact
           MulUint64_clamped_exact);
    try reflexivity; uint64_literal.
Defined.

Lemma aliceAndBob_distinct :
  NoDup (map fst (gasUsedByAccounts aliceAndBob)).
Proof.
  repeat constructor; simpl; intuition discriminate.
Qed.

Lemma PopSetActiveState_restores_the_snapshot_witness :
  PopSetActiveState aliceAndCarolOnTop
  = mkMeteringContext (collaborators := clampedCollaborators)
      (mkVMHost 9 []) [] 100 0 100
      [("alice"%string, 40); ("bob"%string, 20)] [5].
Proof.
  apply (PopSetActiveState_restores_the_snapshot aliceAndBob
           aliceAndCarolOnTop aliceAndBob_distinct eq_refl).
Defined.

Lemma PopMergeActiveState_adds_gas_per_account_witness :
  gasOf "alice" (gasUsedByAccounts (PopMergeActiveState aliceAndCarolOnTop))
  = wrap64 (2 + 40) /\
  gasOf "carol" (gasUsedByAccounts (PopMergeActiveState aliceAndCarolOnTop))
  = 7 /\
  gasForExecution (PopMergeActiveState aliceAndCarolOnTop) = 100.
Proof.
  split; [|split].
  - apply (PopMergeActiveState_adds_gas_per_account aliceAndBob
             aliceAndCarolOnTop "alice" aliceAndBob_distinct eq_refl).
    simpl. now left.
  - apply (PopMergeActiveState_adds_gas_per_account aliceAndBob
             aliceAndCarolOnTop "carol" aliceAndBob_distinct eq_refl).
    simpl. intuition discriminate.
  - apply (PopMergeActiveState_adds_gas_per_account aliceAndBob
             aliceAndCarolOnTop "alice" aliceAndBob_distinct eq_refl).
Defined.

Lemma getGasUsedByAllOtherAccounts_sum_witness :
  getGasUsedByAllOtherAccounts "alice" twoAccounts aliceAndBob
  = (10 + 5) + 20.
Proof.
  apply (getGasUsedByAllOtherAccounts_sum "alice" twoAccounts aliceAndBob
           AddUint64_clamped_exact twoAccounts_uint64).
  - repeat constructor; simpl; uint64_literal.
  - uint64_literal.
Defined.

End MeteringFacts.

(** * Properties of the host dispatcher *)

Module ExecutionFacts.

Import Execution.

Section Properties.

Context {states : ContextStates} {operations : HostOperations}.

(** ** Properties of the sub-call protocol *)

Lemma PopSetActiveState_pushed : forall (State : Type)
  (context : Context State) (snapshot : State) (rest : list State),
  stateStack context = snapshot :: rest ->
  PopSetActiveState context = mkContext snapshot rest.
Proof.
  intros State context snapshot rest H. unfold PopSetActiveState.
  now rewrite H.
Qed.

Lemma PopDiscard_pushed : forall (State : Type)
  (context : Context State) (snapshot : State) (rest : list State),
  stateStack context = snapshot :: rest ->
  PopDiscard context = mkContext (active context) rest.
Proof.
  intros State context snapshot rest H. unfold PopDiscard. now rewrite H.
Qed.

Lemma PopMergeActiveState_pushed : forall (State : Type)
  (merge : State -> State -> State) (context : Context State)
  (snapshot : State) (rest : list State),
  stateStack context = snapshot :: rest ->
  PopMergeActiveState merge context
  = mkContext (merge snapshot (active context)) rest.
Proof.
  intros State merge context snapshot rest H. unfold PopMergeActiveState.
  now rewrite H.
Qed.

Lemma Context_eta : forall (State : Type) (context : Context State),
  mkContext (active context) (stateStack context) = context.
Proof.
  intros State [current stack]. reflexivity.
Qed.

(** After the pushes of [ExecuteOnDestContext] every stack holds the state
    the context had at the call on top of what it held. *)
Lemma enterDestContext_stacks : forall input host,
  stateStacks (enterDestContext input host)
  = (active (BigInt host) :: stateStack (BigInt host),
     active (Output host) :: stateStack (Output host),
     active (Runtime host) :: stateStack (Runtime host),
     active (Storage host) :: stateStack (Storage host)).
Proof.
  intros input host. reflexivity.
Qed.

Lemma enterSameContext_stacks : forall input host,
  stateStacks (enterSameContext input host)
  = (active (BigInt host) :: stateStack (BigInt host),
     active (Output host) :: stateStack (Output host),
     active (Runtime host) :: stateStack (Runtime host),
     stateStack (Storage host)).
Proof.
  intros input host. reflexivity.
Qed.

Lemma runOnDestContext_keeps_stacks : forall input,
  inner_execution_keeps_stacks -> keeps_stacks (runOnDestContext input).
Proof.
  intros input (Htransfer & Hexecute & Hasync) host.
  unfold runOnDestContext.
  pose proof (Htransfer (RecipientAddr input) (CallerAddr (inputVMInput input))
                0 (CallValue (inputVMInput input)) [] host) as H1.
  destruct (Transfer _ _ _ _ _ host) as [host1 [err1|]]; simpl in *;
    [exact H1|].
  pose proof (Hexecute input host1) as H2.
  destruct (execute input host1) as [host2 [err2|]]; simpl in *;
    [congruence|].
  pose proof (Hasync (GetAsyncContextInfo (active (Runtime host2))) host2)
    as H3.
  destruct (processAsyncInfo _ host2) as [host3 [pending err3]]; simpl in *.
  congruence.
Qed.

Lemma runOnSameContext_keeps_stacks : forall input,
  inner_execution_keeps_stacks -> keeps_stacks (runOnSameContext input).
Proof.
  intros input (Htransfer & Hexecute & _) host.
  unfold runOnSameContext.
  pose proof (Htransfer (RecipientAddr input) (CallerAddr (inputVMInput input))
                0 (CallValue (inputVMInput input)) [] host) as H1.
  destruct (Transfer _ _ _ _ _ host) as [host1 [err1|]]; simpl in *;
    [exact H1|].
  pose proof (Hexecute input host1) as H2.
  destruct (execute input host1) as [host2 [err2|]]; simpl in *; congruence.
Qed.

(** The stacks of a host in which a sub-call on the destination context has
    run, pushes included. *)
Lemma stacks_inside_dest_context : forall input host inside outcome,
  inner_execution_keeps_stacks ->
  runOnDestContext input (enterDestContext input host) = (inside, outcome) ->
  stateStack (BigInt inside) = active (BigInt host) :: stateStack (BigInt host)
  /\ stateStack (Output inside)
     = active (Output host) :: stateStack (Output host)
  /\ stateStack (Runtime inside)
     = active (Runtime host) :: stateStack (Runtime host)
  /\ stateStack (Storage inside)
     = active (Storage host) :: stateStack (Storage host).
Proof.
  intros input host inside outcome Hinner Hrun.
  pose proof (runOnDestContext_keeps_stacks input Hinner
                (enterDestContext input host)) as H.
  rewrite Hrun, enterDestContext_stacks in H. simpl in H.
  unfold stateStacks in H. inversion H. auto.
Qed.

Lemma stacks_inside_same_context : forall input host inside outcome,
  inner_execution_keeps_stacks ->
  runOnSameContext input (enterSameContext input host) = (inside, outcome) ->
  stateStack (BigInt inside) = active (BigInt host) :: stateStack (BigInt host)
  /\ stateStack (Output inside)
     = active (Output host) :: stateStack (Output host)
  /\ stateStack (Runtime inside)
     = active (Runtime host) :: stateStack (Runtime host)
  /\ stateStack (Storage inside) = stateStack (Storage host).
Proof.
  intros input host inside outcome Hinner Hrun.
  pose proof (runOnSameContext_keeps_stacks input Hinner
                (enterSameContext input host)) as H.
  rewrite Hrun, enterSameContext_stacks in H. simpl in H.
  unfold stateStacks in H. inversion H. auto.
Qed.

(** C1. If the inner execution of [ExecuteOnDestContext] (value transfer,
    [execute] or the processing of the async info) returns an error, then
    [finishExecuteOnDestContext] pops the bigint, output, runtime and storage
    contexts with [PopSetActiveState]: each of the four contexts, its state
    stack and its current state, is what it was before the call.  The VM
    output returned is [CreateVMOutputInCaseOfError] of that error on the
    host as the inner execution left it, whose four stacks still hold the
    pushed states. *)
Theorem ExecuteOnDestContext_error_rolls_back :
  forall input host failed asyncInfo err,
    inner_execution_keeps_stacks ->
    runOnDestContext input (enterDestContext input host)
    = (failed, (asyncInfo, Some err)) ->
    exists restored,
      ExecuteOnDestContext input host
      = (restored,
         (CreateVMOutputInCaseOfError err failed, asyncInfo, Some err)) /\
      restored
      = onStorage PopSetActiveState
          (onRuntime PopSetActiveState
             (onOutput PopSetActiveState
                (onBigInt PopSetActiveState failed))) /\
      stateStacks failed
      = (active (BigInt host) :: stateStack (BigInt host),
         active (Output host) :: stateStack (Output host),
         active (Runtime host) :: stateStack (Runtime host),
         active (Storage host) :: stateStack (Storage host)) /\
      BigInt restored = BigInt host /\
      Output restored = Output host /\
      Runtime restored = Runtime host /\
      Storage restored = Storage host.
Proof.
  intros input host failed asyncInfo err Hinner Hrun.
  destruct (stacks_inside_dest_context _ _ _ _ Hinner Hrun)
    as (Hb & Ho & Hr & Hs).
  eexists. split; [|split; [reflexivity|]].
  - unfold ExecuteOnDestContext. rewrite Hrun. reflexivity.
  - split; [unfold stateStacks; now rewrite Hb, Ho, Hr, Hs|].
    simpl.
    rewrite (PopSetActiveState_pushed _ _ _ _ Hb),
      (PopSetActiveState_pushed _ _ _ _ Ho),
      (PopSetActiveState_pushed _ _ _ _ Hr),
      (PopSetActiveState_pushed _ _ _ _ Hs).
    now rewrite !Context_eta.
Qed.

(** C5. If the inner execution of [ExecuteOnDestContext] succeeds,
    [finishExecuteOnDestContext] first takes [GetVMOutput] of the host as the
    execution left it, which is the VM output returned; it then pops bigint,
    runtime and storage with [PopSetActiveState], which are what they were
    before the call, and the output context with [PopMergeActiveState]: its
    stack is what it was before the call and its current state is the
    caller's state with the state of the callee merged into it. *)
Theorem ExecuteOnDestContext_success_merges_output :
  forall input host child asyncInfo,
    inner_execution_keeps_stacks ->
    runOnDestContext input (enterDestContext input host)
    = (child, (asyncInfo, None)) ->
    exists merged,
      ExecuteOnDestContext input host
      = (merged, (GetVMOutput child, asyncInfo, None)) /\
      merged
      = onStorage PopSetActiveState
          (onRuntime PopSetActiveState
             (onOutput (PopMergeActiveState mergeVMOutputs)
                (onBigInt PopSetActiveState child))) /\
      BigInt merged = BigInt host /\
      Runtime merged = Runtime host /\
      Storage merged = Storage host /\
      Output merged
      = mkContext
          (mergeVMOutputs (active (Output host)) (active (Output child)))
          (stateStack (Output host)).
Proof.
  intros input host child asyncInfo Hinner Hrun.
  destruct (stacks_inside_dest_context _ _ _ _ Hinner Hrun)
    as (Hb & Ho & Hr & Hs).
  eexists. split; [|split; [reflexivity|]].
  - unfold ExecuteOnDestContext. rewrite Hrun. reflexivity.
  - simpl.
    rewrite (PopSetActiveState_pushed _ _ _ _ Hb),
      (PopMergeActiveState_pushed _ _ _ _ _ Ho),
      (PopSetActiveState_pushed _ _ _ _ Hr),
      (PopSetActiveState_pushed _ _ _ _ Hs).
    now rewrite !Context_eta.
Qed.

(** C6. If the inner execution of [ExecuteOnSameContext] succeeds, the bigint
    and output contexts are popped with [PopDiscard]: their stacks are one
    entry shallower than after the push, which is what they were before the
    call, and their current states are those the callee left.  The runtime
    context is popped with [PopSetActiveState]: stack and current state are
    those of the caller.  The storage context is neither pushed nor popped:
    entering leaves it as it was, and finishing leaves it as the callee left
    it. *)
Theorem ExecuteOnSameContext_success_keeps_changes :
  forall input host child asyncInfo,
    inner_execution_keeps_stacks ->
    runOnSameContext input (enterSameContext input host)
    = (child, (asyncInfo, None)) ->
    exists resumed,
      ExecuteOnSameContext input host = (resumed, (asyncInfo, None)) /\
      resumed
      = onRuntime PopSetActiveState
          (onOutput PopDiscard (onBigInt PopDiscard child)) /\
      BigInt resumed
      = mkContext (active (BigInt child)) (stateStack (BigInt host)) /\
      Output resumed
      = mkContext (active (Output child)) (stateStack (Output host)) /\
      S (List.length (stateStack (BigInt resumed)))
      = List.length (stateStack (BigInt (enterSameContext input host))) /\
      S (List.length (stateStack (Output resumed)))
      = List.length (stateStack (Output (enterSameContext input host))) /\
      Runtime resumed = Runtime host /\
      Storage (enterSameContext input host) = Storage host /\
      Storage resumed = Storage child.
Proof.
  intros input host child asyncInfo Hinner Hrun.
  destruct (stacks_inside_same_context _ _ _ _ Hinner Hrun)
    as (Hb & Ho & Hr & Hs).
  eexists. split; [|split; [reflexivity|]].
  - unfold ExecuteOnSameContext. rewrite Hrun. reflexivity.
  - simpl.
    rewrite (PopDiscard_pushed _ _ _ _ Hb), (PopDiscard_pushed _ _ _ _ Ho),
      (PopSetActiveState_pushed _ _ _ _ Hr).
    rewrite Context_eta. simpl. repeat split; reflexivity.
Qed.

(** Both sub-call forms leave every state stack as they found it, whatever
    the outcome: they can be nested inside one another. *)
Lemma ExecuteOnDestContext_keeps_stacks : forall input,
  inner_execution_keeps_stacks -> keeps_stacks (ExecuteOnDestContext input).
Proof.
  intros input Hinner host.
  destruct (runOnDestContext input (enterDestContext input host))
    as [inside [asyncInfo err]] eqn:Hrun.
  destruct (stacks_inside_dest_context _ _ _ _ Hinner Hrun)
    as (Hb & Ho & Hr & Hs).
  unfold ExecuteOnDestContext. rewrite Hrun.
  destruct err as [err|]; simpl; unfold stateStacks; simpl.
  - now rewrite (PopSetActiveState_pushed _ _ _ _ Hb),
      (PopSetActiveState_pushed _ _ _ _ Ho),
      (PopSetActiveState_pushed _ _ _ _ Hr),
      (PopSetActiveState_pushed _ _ _ _ Hs).
  - now rewrite (PopSetActiveState_pushed _ _ _ _ Hb),
      (PopMergeActiveState_pushed _ _ _ _ _ Ho),
      (PopSetActiveState_pushed _ _ _ _ Hr),
      (PopSetActiveState_pushed _ _ _ _ Hs).
Qed.

Lemma ExecuteOnSameContext_keeps_stacks : forall input,
  inner_execution_keeps_stacks -> keeps_stacks (ExecuteOnSameContext input).
Proof.
  intros input Hinner host.
  destruct (runOnSameContext input (enterSameContext input host))
    as [inside [asyncInfo err]] eqn:Hrun.
  destruct (stacks_inside_same_context _ _ _ _ Hinner Hrun)
    as (Hb & Ho & Hr & Hs).
  unfold ExecuteOnSameContext. rewrite Hrun.
  destruct err as [err|]; simpl; unfold stateStacks; simpl.
  - now rewrite (PopSetActiveState_pushed _ _ _ _ Hb),
      (PopSetActiveState_pushed _ _ _ _ Ho),
      (PopSetActiveState_pushed _ _ _ _ Hr), Hs.
  - now rewrite (PopDiscard_pushed _ _ _ _ Hb),
      (PopDiscard_pushed _ _ _ _ Ho),
      (PopSetActiveState_pushed _ _ _ _ Hr), Hs.
Qed.

(** The four stack operations above are those of the one context whose
    source is at hand: seen as a stacked context, the metering context is
    pushed and popped by its own methods as [PushState],
    [PopSetActiveState], [PopDiscard] and [PopMergeActiveState] push and pop
    it. *)
Lemma metering_PushState_agrees :
  forall (collaborators : Metering.Collaborators)
    (context : Metering.meteringContext),
    NoDup (map fst (Metering.gasUsedByAccounts context)) ->
    meteringAsContext (Metering.PushState context)
    = PushState (meteringAsContext context).
Proof.
  intros collaborators context Hdistinct.
  unfold meteringAsContext, PushState, Metering.PushState. simpl.
  now rewrite (MeteringFacts.cloneGasUsedByAccounts_same _ Hdistinct).
Qed.

Lemma metering_PopSetActiveState_agrees :
  forall (collaborators : Metering.Collaborators)
    (context : Metering.meteringContext),
    meteringAsContext (Metering.PopSetActiveState context)
    = PopSetActiveState (meteringAsContext context).
Proof.
  intros collaborators context.
  unfold meteringAsContext, PopSetActiveState, Metering.PopSetActiveState.
  destruct context as [? [|[] rest] ? ? ? ? ?]; reflexivity.
Qed.

Lemma metering_PopDiscard_agrees :
  forall (collaborators : Metering.Collaborators)
    (context : Metering.meteringContext),
    meteringAsContext (Metering.PopDiscard context)
    = PopDiscard (meteringAsContext context).
Proof.
  intros collaborators context.
  unfold meteringAsContext, PopDiscard, Metering.PopDiscard.
  destruct context as [? [|[] rest] ? ? ? ? ?]; reflexivity.
Qed.

Lemma metering_PopMergeActiveState_agrees :
  forall (collaborators : Metering.Collaborators)
    (context : Metering.meteringContext),
    meteringAsContext (Metering.PopMergeActiveState context)
    = PopMergeActiveState mergeSavedStates (meteringAsContext context).
Proof.
  intros collaborators context.
  unfold meteringAsContext, PopMergeActiveState, Metering.PopMergeActiveState.
  destruct context as [? [|[] rest] ? ? ? ? ?]; reflexivity.
Qed.

(** ** Properties of the function gating *)

Lemma CallType_eqb_spec : forall a b, CallType_eqb a b = true <-> a = b.
Proof.
  intros [] []; simpl; split; intros H; try reflexivity; discriminate.
Qed.

(** The gate of [execute] and the first test of
    [verifyAllowedFunctionCall] are the same test. *)
Lemma isInitFunctionBeingCalled_spec : forall host,
  isInitFunctionBeingCalled host = true <->
  verifyAllowedFunctionCall host = Some ErrInitFuncCalledInRun.
Proof.
  intros host. unfold isInitFunctionBeingCalled, verifyAllowedFunctionCall.
  destruct ((Function (active (Runtime host)) =? InitFunctionName)%string
            || (Function (active (Runtime host)) =? InitFunctionNameEth)%string).
  - split; reflexivity.
  - split; [discriminate|].
    destruct ((Function (active (Runtime host)) =? CallBackFunctionName)%string
              && negb (CallType_eqb
                         (callType (GetVMInput (active (Runtime host))))
                         AsynchronousCallBack)); discriminate.
Qed.

(** C7. [verifyAllowedFunctionCall] returns [ErrInitFuncCalledInRun] whenever
    the function name is the init function or its Ethereum alias, returns
    [ErrCallBackFuncCalledInRun] whenever the function name is the callback
    name and the call type is not [AsynchronousCallBack], and returns no
    error in all other cases.  The callback name is a name of its own,
    neither of the two init names. *)
Theorem verifyAllowedFunctionCall_spec : forall host,
  CallBackFunctionName <> InitFunctionName ->
  CallBackFunctionName <> InitFunctionNameEth ->
  (Function (active (Runtime host)) = InitFunctionName \/
   Function (active (Runtime host)) = InitFunctionNameEth ->
   verifyAllowedFunctionCall host = Some ErrInitFuncCalledInRun) /\
  (Function (active (Runtime host)) = CallBackFunctionName ->
   callType (GetVMInput (active (Runtime host))) <> AsynchronousCallBack ->
   verifyAllowedFunctionCall host = Some ErrCallBackFuncCalledInRun) /\
  (Function (active (Runtime host)) <> InitFunctionName ->
   Function (active (Runtime host)) <> InitFunctionNameEth ->
   Function (active (Runtime host)) <> CallBackFunctionName \/
   callType (GetVMInput (active (Runtime host))) = AsynchronousCallBack ->
   verifyAllowedFunctionCall host = None).
Proof.
  intros host Hinit Heth. unfold verifyAllowedFunctionCall.
  destruct (String.eqb_spec (Function (active (Runtime host)))
              InitFunctionName) as [Hi|Hi];
    destruct (String.eqb_spec (Function (active (Runtime host)))
                InitFunctionNameEth) as [He|He];
    destruct (String.eqb_spec (Function (active (Runtime host)))
                CallBackFunctionName) as [Hc|Hc];
    destruct (CallType_eqb (callType (GetVMInput (active (Runtime host))))
                AsynchronousCallBack) eqn:Hk; simpl;
    try (apply CallType_eqb_spec in Hk);
    repeat split; intros; try reflexivity; try congruence;
    try tauto;
    try (exfalso;
         match goal with
         | H : CallType_eqb _ _ = false |- _ =>
             match goal with
             | H' : _ \/ _ |- _ =>
                 destruct H' as [H'|H']; [congruence|];
                 apply CallType_eqb_spec in H'; congruence
             end
         end).
Qed.

(** ** Properties of the callback resolution *)

Lemma bytes_Equal_spec : forall a b, bytes_Equal a b = true <-> a = b.
Proof.
  induction a as [|x a IH]; destruct b as [|y b]; simpl; split;
    try congruence; try reflexivity.
  - intros H. apply andb_true_iff in H as [Hxy Hab].
    apply byte_dec_bl in Hxy. apply IH in Hab. congruence.
  - intros H. inversion H; subst. apply andb_true_iff. split.
    + now apply byte_dec_lb.
    + now apply IH.
Qed.

Lemma findCallPosition_none : forall caller calls position,
  (forall asyncCall, In asyncCall calls -> Destination asyncCall <> caller) ->
  findCallPosition caller calls position = None.
Proof.
  intros caller calls. induction calls as [|c rest IH]; intros position H;
    simpl; [reflexivity|].
  destruct (bytes_Equal caller (Destination c)) eqn:Heq.
  - apply bytes_Equal_spec in Heq. exfalso.
    apply (H c); [now left | congruence].
  - apply IH. intros asyncCall Hin. apply H. now right.
Qed.

Lemma findCallPosition_none_inv : forall caller calls position,
  findCallPosition caller calls position = None ->
  forall asyncCall, In asyncCall calls -> Destination asyncCall <> caller.
Proof.
  intros caller calls. induction calls as [|c rest IH]; intros position H
    asyncCall Hin; simpl in *; [contradiction|].
  destruct (bytes_Equal caller (Destination c)) eqn:Heq; [discriminate|].
  destruct Hin as [<-|Hin].
  - intros Hd. assert (bytes_Equal caller (Destination c) = true)
      by (apply bytes_Equal_spec; congruence). congruence.
  - now apply (IH (S position)).
Qed.

Lemma findCallPosition_some : forall caller calls position found,
  findCallPosition caller calls position = Some found ->
  (position <= found < position + List.length calls)%nat.
Proof.
  intros caller calls. induction calls as [|c rest IH]; intros position found
    H; simpl in *; [discriminate|].
  destruct (bytes_Equal caller (Destination c)).
  - inversion H; subst. lia.
  - apply IH in H. lia.
Qed.

(** With no call to the caller in any context the search leaves the
    identifier empty. *)
Lemma findAsyncCall_no_match : forall caller contextMap position,
  (forall entry asyncCall,
     In entry contextMap -> In asyncCall (AsyncCalls (snd entry)) ->
     Destination asyncCall <> caller) ->
  findAsyncCall caller contextMap position EmptyString
  = (position, EmptyString).
Proof.
  intros caller contextMap. induction contextMap as [|[key ctx] rest IH];
    intros position H; simpl; [reflexivity|].
  rewrite findCallPosition_none.
  - simpl. apply IH. intros entry asyncCall Hin. apply H. now right.
  - intros asyncCall Hin. apply (H (key, ctx)); [now left | exact Hin].
Qed.

(** C8, as the code has it. When the stored async info cannot be decoded
    (a missing value included), [processCallbackStack] returns the error of
    the decoder; when it is decoded and holds no async call whose
    [Destination] equals the caller of the VM input, it returns
    [ErrCallBackFuncNotExpected].  The host is left as it was in both
    cases. *)
Theorem processCallbackStack_rejections : forall host storageKey,
  CustomStorageKey AsyncDataPrefix
    (GetOriginalTxHash (active (Runtime host))) = inr storageKey ->
  (forall message,
     Unmarshal (GetStorage storageKey host) = inl message ->
     processCallbackStack host
     = Returned (host, Some (ErrForeign message))) /\
  (forall asyncInfo,
     Unmarshal (GetStorage storageKey host) = inr asyncInfo ->
     (forall entry asyncCall,
        In entry (AsyncContextMap asyncInfo) ->
        In asyncCall (AsyncCalls (snd entry)) ->
        Destination asyncCall
        <> CallerAddr (GetVMInput (active (Runtime host)))) ->
     processCallbackStack host
     = Returned (host, Some ErrCallBackFuncNotExpected)).
Proof.
  intros host storageKey Hkey. split.
  - intros message Hdecode. unfold processCallbackStack.
    now rewrite Hkey, Hdecode.
  - intros asyncInfo Hdecode Hnone. unfold processCallbackStack.
    rewrite Hkey, Hdecode.
    now rewrite (findAsyncCall_no_match _ _ 0%nat Hnone).
Qed.

Lemma nonempty_string_length : forall s : string,
  s <> EmptyString -> (0 <? String.length s)%nat = true.
Proof.
  intros [|c s] H; [contradiction|reflexivity].
Qed.

Lemma nonempty_string_length_eqb : forall s : string,
  s <> EmptyString -> (String.length s =? 0)%nat = false.
Proof.
  intros [|c s] H; [contradiction|reflexivity].
Qed.

(** When some call goes to the caller and no context has the empty
    identifier, the search stops at a context of the map, on a position of
    its call list. *)
Lemma findAsyncCall_finds : forall caller contextMap position,
  Forall (fun entry => fst entry <> EmptyString) contextMap ->
  (exists entry asyncCall,
     In entry contextMap /\ In asyncCall (AsyncCalls (snd entry)) /\
     Destination asyncCall = caller) ->
  exists found identifier context,
    findAsyncCall caller contextMap position EmptyString
    = (found, identifier) /\
    In (identifier, context) contextMap /\
    identifier <> EmptyString /\
    (found < List.length (AsyncCalls context))%nat.
Proof.
  intros caller contextMap.
  induction contextMap as [|[key ctx] rest IH];
    intros position Hids (entry & asyncCall & Hin & Hcall & Hdest).
  - contradiction.
  - apply Forall_cons_iff in Hids as [Hkey Hrest]. simpl in Hkey. simpl.
    destruct (findCallPosition caller (AsyncCalls ctx) 0) as [found|]
      eqn:Hfind.
    + rewrite (nonempty_string_length _ Hkey).
      exists found, key, ctx. repeat split; trivial; [now left|].
      apply findCallPosition_some in Hfind. lia.
    + simpl. destruct Hin as [Heq|Hin].
      * subst entry. exfalso.
        exact (findCallPosition_none_inv _ _ _ Hfind _ Hcall Hdest).
      * destruct (IH position Hrest) as (found & identifier & context & H).
        { exists entry, asyncCall. auto. }
        exists found, identifier, context.
        destruct H as (H1 & H2 & H3 & H4). repeat split; trivial.
        now right.
Qed.

Lemma lookupContext_In : forall identifier context contextMap,
  NoDup (map fst contextMap) ->
  In (identifier, context) contextMap ->
  lookupContext identifier contextMap = Some context.
Proof.
  intros identifier context contextMap.
  induction contextMap as [|[key ctx] rest IH]; intros Hdistinct Hin;
    [contradiction|].
  inversion Hdistinct as [|? ? Hfresh Hrest]; subst. simpl.
  destruct Hin as [Heq|Hin].
  - inversion Heq; subst. now rewrite String.eqb_refl.
  - destruct (String.eqb_spec key identifier) as [->|Hne].
    + exfalso. apply Hfresh.
      change identifier with (fst (identifier, context)). now apply in_map.
    + now apply IH.
Qed.

Lemma replaceAt_length : forall (A : Type) (l : list A) position value,
  List.length (replaceAt position value l) = List.length l.
Proof.
  intros A l. induction l as [|x rest IH]; intros [|position] value; simpl;
    try reflexivity. now rewrite IH.
Qed.

Lemma removelast_shorter : forall (A : Type) (l : list A),
  List.length (removelast l) = (List.length l - 1)%nat.
Proof.
  intros A l. induction l as [|x [|y rest] IH]; simpl in *; try reflexivity.
  rewrite IH. lia.
Qed.

Lemma swapRemove_shorter : forall position calls,
  (position < List.length calls)%nat ->
  exists shortened,
    swapRemove position calls = Returned shortened /\
    List.length shortened = (List.length calls - 1)%nat.
Proof.
  intros position calls Hpos. unfold swapRemove.
  destruct (nth_error calls (List.length calls - 1)) as [lastCall|] eqn:Hlast.
  - destruct (nth_error calls position) as [call|] eqn:Hcall.
    + eexists. split; [reflexivity|].
      now rewrite removelast_shorter, replaceAt_length.
    + apply nth_error_None in Hcall. lia.
  - apply nth_error_None in Hlast. lia.
Qed.

(** A set of two calls or more has a context besides the one that holds a
    single call. *)
Lemma another_context : forall identifier context contextMap,
  NoDup (map fst contextMap) ->
  In (identifier, context) contextMap ->
  List.length (AsyncCalls context) = 1%nat ->
  (2 <= pendingCalls contextMap)%nat ->
  exists other, In other contextMap /\ fst other <> identifier.
Proof.
  intros identifier context contextMap Hdistinct Hin Hone Hmany.
  destruct contextMap as [|first rest]; [contradiction|].
  inversion Hdistinct as [|? ? Hfresh Hrest]; subst.
  destruct Hin as [Heq|Hin].
  - subst first. simpl in Hmany, Hfresh.
    destruct rest as [|second rest]; [simpl in Hmany; lia|].
    exists second. split; [right; now left|].
    intros Hsame. apply Hfresh. left. exact Hsame.
  - exists first. split; [now left|].
    intros Hsame. apply Hfresh. rewrite Hsame.
    change identifier with (fst (identifier, context)). now apply in_map.
Qed.

Lemma nonempty_list_length : forall (A : Type) (x : A) (l : list A),
  In x l -> (0 <? List.length l)%nat = true.
Proof.
  intros A x [|y l] H; [contradiction|reflexivity].
Qed.

(** C3, what the code does instead. When the pending set decoded from
    storage holds two calls or more, one of them to the caller,
    [processCallbackStack] returns no error and leaves the host, its storage
    included, exactly as it was: the matched entry is removed from the
    decoded copy only.  The next callback finds the same set again; the
    stored set is never drained and the storage key never erased. *)
Theorem processCallbackStack_keeps_the_stored_set :
  forall host storageKey asyncInfo,
    CustomStorageKey AsyncDataPrefix
      (GetOriginalTxHash (active (Runtime host))) = inr storageKey ->
    Unmarshal (GetStorage storageKey host) = inr asyncInfo ->
    NoDup (map fst (AsyncContextMap asyncInfo)) ->
    Forall (fun entry => fst entry <> EmptyString)
      (AsyncContextMap asyncInfo) ->
    (exists entry asyncCall,
       In entry (AsyncContextMap asyncInfo) /\
       In asyncCall (AsyncCalls (snd entry)) /\
       Destination asyncCall
       = CallerAddr (GetVMInput (active (Runtime host)))) ->
    (2 <= pendingCalls (AsyncContextMap asyncInfo))%nat ->
    processCallbackStack host = Returned (host, None).
Proof.
  intros host storageKey asyncInfo Hkey Hdecode Hdistinct Hids Hmatch Hmany.
  destruct (findAsyncCall_finds _ _ 0%nat Hids Hmatch)
    as (found & identifier & context & Hfind & Hin & Hid & Hpos).
  destruct (swapRemove_shorter _ _ Hpos) as (shortened & Hswap & Hlen).
  unfold processCallbackStack. rewrite Hkey, Hdecode, Hfind.
  rewrite (nonempty_string_length_eqb _ Hid).
  rewrite (lookupContext_In _ _ _ Hdistinct Hin), Hswap.
  destruct (Nat.eqb_spec (List.length shortened) 0) as [Hempty|Hfull].
  - destruct (another_context _ _ _ Hdistinct Hin ltac:(lia) Hmany)
      as (other & Hother & Hkeyother).
    rewrite (nonempty_list_length _ other); [reflexivity|].
    unfold deleteContext. apply filter_In. split; [exact Hother|].
    apply negb_true_iff. now apply String.eqb_neq.
  - now rewrite (nonempty_list_length _ _ _ Hin).
Qed.

(** ** Properties of the gas split *)

Lemma int32_quo_below_total : forall percentage totalPercentage,
  0 <= percentage < totalPercentage ->
  int32_quo percentage totalPercentage = Returned 0.
Proof.
  intros percentage totalPercentage H. unfold int32_quo.
  destruct (Z.eqb_spec totalPercentage 0); [lia|].
  now rewrite Z.quot_small.
Qed.

(** The second loop on calls whose percentages are all below the total:
    every quotient is 0, so every limit is 0 and nothing is added. *)
Lemma setGasLimits_below_total :
  forall gasLeft totalPercentage calls index gasAdded lastAsyncCallIndex,
    Forall (fun asyncCall => 0 <= GasPercentage asyncCall < totalPercentage)
      calls ->
    uint64 gasAdded ->
    setGasLimits gasLeft totalPercentage calls index gasAdded
      lastAsyncCallIndex
    = Returned
        (map (withGasLimit 0) calls, gasAdded,
         match calls with
         | [] => lastAsyncCallIndex
         | _ :: _ => (index + List.length calls - 1)%nat
         end).
Proof.
  intros gasLeft totalPercentage calls.
  induction calls as [|asyncCall rest IH];
    intros index gasAdded lastAsyncCallIndex Hall Hadded; simpl;
    [reflexivity|].
  apply Forall_cons_iff in Hall as [Hcall Hrest].
  rewrite (int32_quo_below_total _ _ Hcall).
  replace (wrap64 (gasLeft * uint64_of_int32 0)) with 0
    by (unfold uint64_of_int32; change (wrap64 0) with 0;
        now rewrite Z.mul_0_r).
  replace (wrap64 (gasAdded + 0)) with gasAdded.
  - rewrite (IH (S index) gasAdded index Hrest Hadded).
    destruct rest as [|next rest']; simpl.
    + do 2 f_equal. lia.
    + do 2 f_equal. lia.
  - rewrite Z.add_0_r. unfold wrap64. symmetry. apply Z.mod_small.
    unfold uint64, MaxUint64 in Hadded. lia.
Qed.

Lemma withGasLimit_twice : forall first second asyncCall,
  withGasLimit second (withGasLimit first asyncCall)
  = withGasLimit second asyncCall.
Proof.
  reflexivity.
Qed.

Lemma allToLast_nothing : forall calls,
  map (withGasLimit 0) calls = allToLast 0 calls.
Proof.
  induction calls as [|asyncCall [|next rest] IH]; simpl in *;
    try reflexivity.
  now rewrite IH.
Qed.

(** The remainder step on calls that were all given 0. *)
Lemma addToGasLimit_of_last : forall extra calls,
  calls <> [] ->
  addToGasLimit (List.length calls - 1) extra (map (withGasLimit 0) calls)
  = Returned (allToLast (wrap64 (0 + extra)) calls).
Proof.
  intros extra calls. induction calls as [|asyncCall [|next rest] IH];
    intros Hcalls; [contradiction|reflexivity|].
  specialize (IH ltac:(discriminate)).
  replace (List.length (asyncCall :: next :: rest) - 1)%nat
    with (S (List.length (next :: rest) - 1)) by (simpl; lia).
  change (map (withGasLimit 0) (asyncCall :: next :: rest))
    with (withGasLimit 0 asyncCall :: map (withGasLimit 0) (next :: rest)).
  cbn [addToGasLimit]. now rewrite IH.
Qed.

(** C4, what the code does instead. In a context of several async calls
    whose percentages are each below the total, the [int32] quotient of a
    percentage by the total is 0 for every call: [setupAsyncCallsGasByPercentages]
    gives every call but the last no gas at all and the last one the whole
    of [GasLeft], whatever the percentages. *)
Theorem setupAsyncCallsGasByPercentages_gives_all_to_last :
  forall host initiator identifier callback calls,
    identifier <> EmptyString ->
    calls <> [] ->
    uint64 (GasLeft host) ->
    Forall
      (fun asyncCall =>
         0 <= GasPercentage asyncCall
         < sumGasPercentages [(identifier, mkAsyncContext callback calls)])
      calls ->
    setupAsyncCallsGasByPercentages
      (mkAsyncContextInfo initiator
         [(identifier, mkAsyncContext callback calls)]) host
    = Returned
        (mkAsyncContextInfo initiator
           [(identifier,
             mkAsyncContext callback (allToLast (GasLeft host) calls))]).
Proof.
  intros host initiator identifier callback calls Hid Hcalls Hgas Hbelow.
  unfold setupAsyncCallsGasByPercentages.
  cbn [AsyncContextMap asyncInitiator setGasLimitsOfContexts AsyncCalls
       Callback].
  rewrite (setGasLimits_below_total _ _ _ 0%nat 0 0%nat Hbelow)
    by uint64_literal.
  rewrite (nonempty_string_length _ Hid). cbn [andb].
  destruct (Z.ltb_spec 0 (GasLeft host)) as [Hpos|Hzero].
  - destruct calls as [|asyncCall rest]; [contradiction|].
    cbn [addToGasLimitOfContext]. rewrite String.eqb_refl.
    cbn [AsyncCalls Callback].
    replace (0 + List.length (asyncCall :: rest) - 1)%nat
      with (List.length (asyncCall :: rest) - 1)%nat by lia.
    rewrite addToGasLimit_of_last by discriminate.
    rewrite Z.sub_0_r, Z.add_0_l.
    assert (Hwrap : wrap64 (GasLeft host) = GasLeft host).
    { unfold wrap64. apply Z.mod_small.
      unfold uint64, MaxUint64 in Hgas. lia. }
    now rewrite !Hwrap.
  - assert (Hnone : GasLeft host = 0)
      by (unfold uint64 in Hgas; lia).
    now rewrite Hnone, allToLast_nothing.
Qed.

(** X17. A single async call with a non-zero percentage is given the whole
    of [GasLeft] by [setupAsyncCallsGasByPercentages]: the quotient of the
    percentage by itself is 1, and nothing is left to add. *)
Lemma setupAsyncCallsGasByPercentages_single_call :
  forall host initiator identifier callback asyncCall,
    - 2 ^ 31 <= GasPercentage asyncCall < 2 ^ 31 ->
    GasPercentage asyncCall <> 0 ->
    uint64 (GasLeft host) ->
    setupAsyncCallsGasByPercentages
      (mkAsyncContextInfo initiator
         [(identifier, mkAsyncContext callback [asyncCall])]) host
    = Returned
        (mkAsyncContextInfo initiator
           [(identifier,
             mkAsyncContext callback
               [withGasLimit (GasLeft host) asyncCall])]).
Proof.
  intros host initiator identifier callback asyncCall Hrange Hnonzero Hgas.
  assert (Hwrap : wrap64 (GasLeft host) = GasLeft host).
  { unfold wrap64. apply Z.mod_small. unfold uint64, MaxUint64 in Hgas. lia. }
  assert (Htotal : sumGasPercentages
                     [(identifier, mkAsyncContext callback [asyncCall])]
                   = GasPercentage asyncCall).
  { unfold sumGasPercentages. cbn. unfold wrap32.
    rewrite Z.mod_small; lia. }
  unfold setupAsyncCallsGasByPercentages.
  cbn [AsyncContextMap asyncInitiator]. rewrite Htotal.
  cbn [setGasLimitsOfContexts setGasLimits AsyncCalls Callback].
  unfold int32_quo.
  destruct (Z.eqb_spec (GasPercentage asyncCall) 0); [contradiction|].
  rewrite Z.quot_same by assumption.
  change (uint64_of_int32 (wrap32 1)) with 1.
  rewrite Z.mul_1_r, Hwrap, Z.add_0_l, Hwrap, Z.ltb_irrefl, andb_false_r.
  reflexivity.
Qed.

(** X18. On a single async call with percentage 0
    [setupAsyncCallsGasByPercentages] divides by zero: the total of the
    percentages is 0, and the [int32] quotient panics. *)
Lemma setupAsyncCallsGasByPercentages_single_call_of_zero :
  forall host initiator identifier callback asyncCall,
    GasPercentage asyncCall = 0 ->
    setupAsyncCallsGasByPercentages
      (mkAsyncContextInfo initiator
         [(identifier, mkAsyncContext callback [asyncCall])]) host
    = Panicked.
Proof.
  intros host initiator identifier callback asyncCall Hzero.
  unfold setupAsyncCallsGasByPercentages, sumGasPercentages.
  cbn [AsyncContextMap asyncInitiator setGasLimitsOfContexts setGasLimits
       AsyncCalls Callback fold_left snd].
  now rewrite Hzero.
Qed.

(** ** More of the sub-call protocol *)

(** X12. If the value transfer or [execute] fails inside
    [ExecuteOnSameContext], the bigint, output and runtime contexts are
    popped with [PopSetActiveState] and are what they were before the call;
    no async info is returned.  The storage context was not pushed and is
    not restored: it stays as the failed execution left it. *)
Theorem ExecuteOnSameContext_error_rolls_back :
  forall input host failed asyncInfo err,
    inner_execution_keeps_stacks ->
    runOnSameContext input (enterSameContext input host)
    = (failed, (asyncInfo, Some err)) ->
    exists restored,
      ExecuteOnSameContext input host = (restored, (None, Some err)) /\
      restored
      = onRuntime PopSetActiveState
          (onOutput PopSetActiveState
             (onBigInt PopSetActiveState failed)) /\
      BigInt restored = BigInt host /\
      Output restored = Output host /\
      Runtime restored = Runtime host /\
      Storage restored = Storage failed.
Proof.
  intros input host failed asyncInfo err Hinner Hrun.
  destruct (stacks_inside_same_context _ _ _ _ Hinner Hrun)
    as (Hb & Ho & Hr & Hs).
  assert (Hnone : asyncInfo = None).
  { unfold runOnSameContext in Hrun.
    destruct (Transfer _ _ _ _ _ _) as [host1 [err1|]];
      [now inversion Hrun|].
    destruct (execute input host1) as [host2 [err2|]]; now inversion Hrun. }
  subst asyncInfo.
  eexists. split; [|split; [reflexivity|]].
  - unfold ExecuteOnSameContext. rewrite Hrun. reflexivity.
  - simpl.
    rewrite (PopSetActiveState_pushed _ _ _ _ Hb),
      (PopSetActiveState_pushed _ _ _ _ Ho),
      (PopSetActiveState_pushed _ _ _ _ Hr).
    now rewrite !Context_eta.
Qed.

(** X13. Sub-calls nest: when the value transfer, [execute] and the
    processing of the async info leave the four state stacks as they found
    them, so do [ExecuteOnDestContext] and [ExecuteOnSameContext], whether
    the execution inside succeeds or fails. *)
Theorem sub_calls_keep_the_state_stacks : forall input host,
  inner_execution_keeps_stacks ->
  stateStacks (fst (ExecuteOnDestContext input host)) = stateStacks host /\
  stateStacks (fst (ExecuteOnSameContext input host)) = stateStacks host.
Proof.
  intros input host Hinner. split.
  - apply (ExecuteOnDestContext_keeps_stacks input Hinner).
  - apply (ExecuteOnSameContext_keeps_stacks input Hinner).
Qed.

(** ** More of the callback resolution *)

Lemma empty_string_length : forall s : string,
  (0 <? String.length s)%nat = false -> s = EmptyString.
Proof.
  intros [|c s] H; [reflexivity | discriminate].
Qed.

(** Where the search stops: on no context at all, or on a context of the
    map and a position of its call list. *)
Lemma findAsyncCall_stops : forall caller contextMap position found identifier,
  findAsyncCall caller contextMap position EmptyString = (found, identifier) ->
  identifier = EmptyString \/
  exists context,
    In (identifier, context) contextMap /\
    (found < List.length (AsyncCalls context))%nat.
Proof.
  intros caller contextMap.
  induction contextMap as [|[key ctx] rest IH];
    intros position found identifier Hfind; simpl in Hfind.
  - inversion Hfind. now left.
  - destruct (findCallPosition caller (AsyncCalls ctx) 0) as [here|] eqn:Hhere.
    + destruct (0 <? String.length key)%nat eqn:Hkey.
      * inversion Hfind; subst. right. exists ctx. split; [now left|].
        apply findCallPosition_some in Hhere. lia.
      * apply empty_string_length in Hkey. subst key.
        destruct (IH _ _ _ Hfind) as [Hnone|(context & Hin & Hpos)];
          [now left|].
        right. exists context. split; [now right | exact Hpos].
    + simpl in Hfind.
      destruct (IH _ _ _ Hfind) as [Hnone|(context & Hin & Hpos)];
        [now left|].
      right. exists context. split; [now right | exact Hpos].
Qed.


(** X28. The callback that settles the last pending call erases the stored
    set: when the stored async info holds a single call, and it is the
    caller's, [processCallbackStack] writes the empty value under the
    storage key, returns the error of that write if it fails, and
    otherwise hands the callback over to the initiator: sent to its shard,
    or, on this shard, refused with the error of the making of its
    input. *)
Theorem processCallbackStack_of_the_last_call :
  forall host storageKey initiator identifier callback asyncCall,
    CustomStorageKey AsyncDataPrefix
      (GetOriginalTxHash (active (Runtime host))) = inr storageKey ->
    Unmarshal (GetStorage storageKey host)
    = inr (mkAsyncContextInfo initiator
             [(identifier, mkAsyncContext callback [asyncCall])]) ->
    identifier <> EmptyString ->
    Destination asyncCall = CallerAddr (GetVMInput (active (Runtime host))) ->
    (forall erased err,
       SetStorage storageKey [] host = (erased, Some err) ->
       processCallbackStack host = Returned (erased, Some err)) /\
    (forall erased,
       SetStorage storageKey [] host = (erased, None) ->
       canExecuteSynchronouslyOnDest (initiatorCallerAddr initiator) erased
       = false ->
       processCallbackStack host
       = Returned (sendStorageCallbackToDestination initiator erased)) /\
    (forall erased err,
       SetStorage storageKey [] host = (erased, None) ->
       canExecuteSynchronouslyOnDest (initiatorCallerAddr initiator) erased
       = true ->
       createCallbackContractCallInput (GetVMOutput erased)
         (initiatorCallerAddr initiator) CallbackDefault None erased
       = inl err ->
       processCallbackStack host = Returned (erased, Some err)).
Proof.
  intros host storageKey initiator identifier callback asyncCall Hkey Hdecode
    Hid Hcaller.
  assert (Hequal : bytes_Equal
                     (CallerAddr (GetVMInput (active (Runtime host))))
                     (Destination asyncCall) = true)
    by (apply bytes_Equal_spec; congruence).
  unfold processCallbackStack. rewrite Hkey, Hdecode.
  cbn [AsyncContextMap asyncInitiator findAsyncCall findCallPosition
       AsyncCalls].
  rewrite Hequal, (nonempty_string_length _ Hid),
    (nonempty_string_length_eqb _ Hid).
  cbn [lookupContext]. rewrite String.eqb_refl.
  cbn [AsyncCalls swapRemove List.length Nat.sub nth_error replaceAt
       removelast Nat.eqb deleteContext filter fst negb Nat.ltb Nat.leb].
  rewrite String.eqb_refl.
  cbn [negb filter List.length Nat.ltb Nat.leb].
  split; [|split].
  - intros erased err Hwrite. now rewrite Hwrite.
  - intros erased Hwrite Hshard. now rewrite Hwrite, Hshard.
  - intros erased err Hwrite Hshard Hinput.
    now rewrite Hwrite, Hshard, Hinput.
Qed.

(** ** The pending calls of an async info *)

Lemma appendPendingCall_fresh :
  forall contextIdentifier asyncContext asyncCall pendingMap,
    ~ In contextIdentifier (map fst pendingMap) ->
    appendPendingCall contextIdentifier asyncContext asyncCall pendingMap
    = pendingMap
      ++ [(contextIdentifier,
           mkAsyncContext (Callback asyncContext) [asyncCall])].
Proof.
  intros identifier asyncContext asyncCall pendingMap.
  induction pendingMap as [|[key pending] rest IH]; intros Hfresh; simpl in *;
    [reflexivity|].
  destruct (String.eqb_spec key identifier) as [->|Hne].
  - exfalso. apply Hfresh. now left.
  - rewrite IH; [reflexivity|]. intros Hin. apply Hfresh. now right.
Qed.

Lemma appendPendingCall_last :
  forall contextIdentifier asyncContext asyncCall pendingMap callback calls,
    ~ In contextIdentifier (map fst pendingMap) ->
    appendPendingCall contextIdentifier asyncContext asyncCall
      (pendingMap ++ [(contextIdentifier, mkAsyncContext callback calls)])
    = pendingMap
      ++ [(contextIdentifier,
           mkAsyncContext callback (calls ++ [asyncCall]))].
Proof.
  intros identifier asyncContext asyncCall pendingMap callback calls.
  induction pendingMap as [|[key pending] rest IH]; intros Hfresh; simpl in *.
  - now rewrite String.eqb_refl.
  - destruct (String.eqb_spec key identifier) as [->|Hne].
    + exfalso. apply Hfresh. now left.
    + rewrite IH; [reflexivity|]. intros Hin. apply Hfresh. now right.
Qed.

(** The inner loop of [getPendingAsyncCalls] once the context is in the
    pending map, as its last entry. *)
Lemma pending_calls_of_started_context :
  forall contextIdentifier asyncContext calls pendingMap callback started,
    ~ In contextIdentifier (map fst pendingMap) ->
    fold_left
      (fun pendingMap asyncCall =>
         if negb (isPending asyncCall) then pendingMap
         else
           appendPendingCall contextIdentifier asyncContext asyncCall
             pendingMap)
      calls
      (pendingMap
       ++ [(contextIdentifier, mkAsyncContext callback started)])
    = pendingMap
      ++ [(contextIdentifier,
           mkAsyncContext callback (started ++ filter isPending calls))].
Proof.
  intros identifier asyncContext calls pendingMap callback.
  induction calls as [|asyncCall rest IH]; intros started Hfresh; simpl.
  - now rewrite app_nil_r.
  - destruct (isPending asyncCall); simpl.
    + rewrite appendPendingCall_last by exact Hfresh.
      rewrite IH by exact Hfresh. now rewrite <- app_assoc.
    + now apply IH.
Qed.

(** The inner loop on a context that the pending map does not hold yet. *)
Lemma pending_calls_of_new_context :
  forall contextIdentifier asyncContext calls pendingMap,
    ~ In contextIdentifier (map fst pendingMap) ->
    fold_left
      (fun pendingMap asyncCall =>
         if negb (isPending asyncCall) then pendingMap
         else
           appendPendingCall contextIdentifier asyncContext asyncCall
             pendingMap)
      calls pendingMap
    = match filter isPending calls with
      | [] => pendingMap
      | pending =>
          pendingMap
          ++ [(contextIdentifier,
               mkAsyncContext (Callback asyncContext) pending)]
      end.
Proof.
  intros identifier asyncContext calls pendingMap Hfresh.
  induction calls as [|asyncCall rest IH]; simpl; [reflexivity|].
  destruct (isPending asyncCall); simpl; [|exact IH].
  rewrite appendPendingCall_fresh by exact Hfresh.
  now rewrite pending_calls_of_started_context.
Qed.

Lemma getPendingAsyncCalls_from : forall contextMap pendingMap,
  NoDup (map fst contextMap) ->
  (forall identifier, In identifier (map fst pendingMap) ->
                      ~ In identifier (map fst contextMap)) ->
  fold_left
    (fun pendingMap (entry : string * AsyncContext) =>
       let contextIdentifier := fst entry in
       let asyncContext := snd entry in
       fold_left
         (fun pendingMap asyncCall =>
            if negb (isPending asyncCall) then pendingMap
            else
              appendPendingCall contextIdentifier asyncContext asyncCall
                pendingMap)
         (AsyncCalls asyncContext) pendingMap)
    contextMap pendingMap
  = pendingMap ++ pendingCallsOnly contextMap.
Proof.
  induction contextMap as [|[key ctx] rest IH];
    intros pendingMap Hdistinct Hapart; simpl.
  - now rewrite app_nil_r.
  - inversion Hdistinct as [|? ? Hfresh Hrest]; subst.
    assert (Hnew : ~ In key (map fst pendingMap)).
    { intros Hin. apply (Hapart key Hin). now left. }
    rewrite (pending_calls_of_new_context key ctx _ _ Hnew).
    unfold pendingCallsOnly. simpl.
    destruct (filter isPending (AsyncCalls ctx)) as [|asyncCall pending];
      simpl.
    + apply IH; [exact Hrest|].
      intros identifier Hin Hin'. apply (Hapart identifier Hin). now right.
    + fold (pendingCallsOnly rest). rewrite IH.
      * now rewrite <- app_assoc.
      * exact Hrest.
      * intros identifier Hin. rewrite map_app in Hin.
        apply in_app_or in Hin as [Hin|[<-|[]]].
        -- intros Hin'. apply (Hapart identifier Hin). now right.
        -- exact Hfresh.
Qed.

(** X15. [getPendingAsyncCalls] keeps, context by context and in their
    order, exactly the calls whose status is pending, with the callback of
    their context, and drops every context that is left without a call; the
    initiator is copied. *)
Theorem getPendingAsyncCalls_keeps_the_pending_calls : forall asyncInfo,
  NoDup (map fst (AsyncContextMap asyncInfo)) ->
  getPendingAsyncCalls asyncInfo
  = mkAsyncContextInfo (asyncInitiator asyncInfo)
      (pendingCallsOnly (AsyncContextMap asyncInfo)).
Proof.
  intros [[caller returnData] contextMap] Hdistinct.
  unfold getPendingAsyncCalls. simpl in *.
  rewrite getPendingAsyncCalls_from; [reflexivity | exact Hdistinct |].
  intros identifier [].
Qed.

Lemma isPending_spec : forall asyncCall,
  isPending asyncCall = true <-> Status asyncCall = AsyncCallPending.
Proof.
  intros asyncCall. unfold isPending.
  destruct (Status asyncCall); split; intros H; try reflexivity;
    discriminate.
Qed.

Lemma appendPendingCall_keys :
  forall contextIdentifier asyncContext asyncCall pendingMap identifier,
    In identifier
      (map fst
         (appendPendingCall contextIdentifier asyncContext asyncCall
            pendingMap)) ->
    identifier = contextIdentifier \/ In identifier (map fst pendingMap).
Proof.
  intros contextIdentifier asyncContext asyncCall pendingMap identifier.
  induction pendingMap as [|[key pending] rest IH]; simpl.
  - intros [<-|[]]. now left.
  - destruct (String.eqb_spec key contextIdentifier) as [->|Hne]; simpl.
    + intros [<-|Hin]; [now left | right; now right].
    + intros [<-|Hin]; [right; now left|].
      destruct (IH Hin) as [->|Hin']; [now left | right; now right].
Qed.

Lemma appendPendingCall_pending_map :
  forall contextIdentifier asyncContext asyncCall pendingMap,
    Status asyncCall = AsyncCallPending ->
    pending_map pendingMap ->
    pending_map
      (appendPendingCall contextIdentifier asyncContext asyncCall pendingMap).
Proof.
  intros contextIdentifier asyncContext asyncCall pendingMap Hstatus.
  induction pendingMap as [|[key pending] rest IH]; intros [Hkeys Hcalls];
    simpl.
  - split; [repeat constructor; intros []|].
    repeat constructor; simpl; [discriminate | exact Hstatus].
  - inversion Hkeys as [|? ? Hfresh Hrest]; subst.
    apply Forall_cons_iff in Hcalls as [[Hsome Hpending] Hothers].
    simpl in Hsome, Hpending.
    destruct (String.eqb_spec key contextIdentifier) as [->|Hne].
    + split; [exact Hkeys|]. constructor; [|exact Hothers]. simpl. split.
      * intros Hnil. apply app_eq_nil in Hnil as [_ Hnil]. discriminate.
      * apply Forall_app. split; [exact Hpending|]. now repeat constructor.
    + destruct (IH (conj Hrest Hothers)) as [Hkeys' Hcalls'].
      split.
      * simpl. constructor; [|exact Hkeys'].
        intros Hin. apply appendPendingCall_keys in Hin as [Heq|Hin];
          [now elim Hne | now apply Hfresh].
      * constructor; [|exact Hcalls']. simpl. now split.
Qed.

Lemma appendPendingCall_pendingCalls :
  forall contextIdentifier asyncContext asyncCall pendingMap,
    pendingCalls
      (appendPendingCall contextIdentifier asyncContext asyncCall pendingMap)
    = S (pendingCalls pendingMap).
Proof.
  intros contextIdentifier asyncContext asyncCall pendingMap.
  induction pendingMap as [|[key pending] rest IH]; simpl; [reflexivity|].
  destruct (key =? contextIdentifier)%string; simpl.
  - rewrite length_app. simpl. lia.
  - rewrite IH. lia.
Qed.

Lemma pending_calls_of_context_counted :
  forall contextIdentifier asyncContext calls pendingMap,
    pending_map pendingMap ->
    pending_map
      (fold_left
         (fun pendingMap asyncCall =>
            if negb (isPending asyncCall) then pendingMap
            else
              appendPendingCall contextIdentifier asyncContext asyncCall
                pendingMap)
         calls pendingMap) /\
    pendingCalls
      (fold_left
         (fun pendingMap asyncCall =>
            if negb (isPending asyncCall) then pendingMap
            else
              appendPendingCall contextIdentifier asyncContext asyncCall
                pendingMap)
         calls pendingMap)
    = (pendingCalls pendingMap + List.length (filter isPending calls))%nat.
Proof.
  intros contextIdentifier asyncContext calls.
  induction calls as [|asyncCall rest IH]; intros pendingMap Hmap; simpl.
  - split; [exact Hmap | lia].
  - destruct (isPending asyncCall) eqn:Hpending; simpl.
    + apply isPending_spec in Hpending.
      destruct (IH _ (appendPendingCall_pending_map contextIdentifier
                        asyncContext asyncCall pendingMap Hpending Hmap))
        as [Hmap' Hcount].
      split; [exact Hmap'|].
      rewrite Hcount, appendPendingCall_pendingCalls. lia.
    + now apply IH.
Qed.

Lemma getPendingAsyncCalls_counted : forall contextMap pendingMap,
  pending_map pendingMap ->
  pending_map
    (fold_left
       (fun pendingMap (entry : string * AsyncContext) =>
          let contextIdentifier := fst entry in
          let asyncContext := snd entry in
          fold_left
            (fun pendingMap asyncCall =>
               if negb (isPending asyncCall) then pendingMap
               else
                 appendPendingCall contextIdentifier asyncContext asyncCall
                   pendingMap)
            (AsyncCalls asyncContext) pendingMap)
       contextMap pendingMap) /\
  pendingCalls
    (fold_left
       (fun pendingMap (entry : string * AsyncContext) =>
          let contextIdentifier := fst entry in
          let asyncContext := snd entry in
          fold_left
            (fun pendingMap asyncCall =>
               if negb (isPending asyncCall) then pendingMap
               else
                 appendPendingCall contextIdentifier asyncContext asyncCall
                   pendingMap)
            (AsyncCalls asyncContext) pendingMap)
       contextMap pendingMap)
  = (pendingCalls pendingMap + countPending contextMap)%nat.
Proof.
  induction contextMap as [|[key ctx] rest IH]; intros pendingMap Hmap; simpl.
  - split; [exact Hmap | lia].
  - destruct (pending_calls_of_context_counted key ctx (AsyncCalls ctx)
                pendingMap Hmap) as [Hmap' Hcount'].
    destruct (IH _ Hmap') as [Hmap'' Hcount''].
    split; [exact Hmap''|].
    etransitivity; [exact Hcount''|]. rewrite Hcount'. simpl. lia.
Qed.

(** X16. Whatever async info it is given, [getPendingAsyncCalls] returns a
    map of distinct identifiers in which every call is pending and no
    context is empty, and which holds as many calls as the async info holds
    pending ones: it is empty exactly when no call is pending. *)
Theorem getPendingAsyncCalls_pending_map : forall asyncInfo,
  pending_map (AsyncContextMap (getPendingAsyncCalls asyncInfo)) /\
  pendingCalls (AsyncContextMap (getPendingAsyncCalls asyncInfo))
  = countPending (AsyncContextMap asyncInfo) /\
  (AsyncContextMap (getPendingAsyncCalls asyncInfo) = [] <->
   countPending (AsyncContextMap asyncInfo) = 0%nat).
Proof.
  intros asyncInfo.
  assert (Hempty : pending_map []).
  { split; constructor. }
  assert (Hmap : pending_map
                   (AsyncContextMap (getPendingAsyncCalls asyncInfo)))
    by exact (proj1 (getPendingAsyncCalls_counted (AsyncContextMap asyncInfo)
                       [] Hempty)).
  assert (Hcount : pendingCalls
                     (AsyncContextMap (getPendingAsyncCalls asyncInfo))
                   = countPending (AsyncContextMap asyncInfo))
    by exact (proj2 (getPendingAsyncCalls_counted (AsyncContextMap asyncInfo)
                       [] Hempty)).
  split; [exact Hmap|]. split; [exact Hcount|].
  rewrite <- Hcount.
  destruct (AsyncContextMap (getPendingAsyncCalls asyncInfo))
    as [|[key ctx] rest]; [split; reflexivity|].
  split; [discriminate|]. intros Hnone.
  destruct Hmap as [_ Hcalls].
  apply Forall_cons_iff in Hcalls as [[Hsome _] _].
  simpl in Hsome, Hnone.
  destruct (AsyncCalls ctx); [contradiction | discriminate].
Qed.

End Properties.

(** ** The results on the concrete host *)

Lemma leafOperations_keep_stacks :
  inner_execution_keeps_stacks (operations := leafOperations).
Proof.
  repeat split.
  - intros input host. simpl. unfold leafExecute.
    destruct (inputFunction input =? "fail")%string; reflexivity.
Qed.

Lemma demoOperations_keep_stacks :
  inner_execution_keeps_stacks (operations := demoOperations).
Proof.
  repeat split.
  - intros input host. simpl. unfold demoExecute.
    destruct (inputFunction input =? "relay")%string.
    + pose proof (ExecuteOnDestContext_keeps_stacks
                    (operations := leafOperations)
                    (callTo addressB "fail" DirectCall (RecipientAddr input))
                    leafOperations_keep_stacks host) as Hsub.
      destruct (ExecuteOnDestContext _ host) as [after outcome].
      exact Hsub.
    + unfold leafExecute.
      destruct (inputFunction input =? "fail")%string; reflexivity.
Qed.

Lemma ExecuteOnDestContext_error_rolls_back_witness :
  exists restored,
    ExecuteOnDestContext (operations := demoOperations)
      (callTo addressB "fail" DirectCall addressC) demoHost
    = (restored, ((Some ErrReturnCodeNotOk, []), None,
                  Some ErrReturnCodeNotOk)) /\
    BigInt restored = BigInt demoHost /\
    Output restored = Output demoHost /\
    Runtime restored = Runtime demoHost /\
    Storage restored = Storage demoHost.
Proof.
  destruct (ExecuteOnDestContext_error_rolls_back
              (operations := demoOperations)
              (callTo addressB "fail" DirectCall addressC) demoHost
              _ _ _ demoOperations_keep_stacks eq_refl)
    as (restored & Hcall & _ & _ & Hb & Ho & Hr & Hs).
  exists restored. repeat split; assumption.
Defined.

Lemma ExecuteOnDestContext_success_merges_output_witness :
  exists merged,
    ExecuteOnDestContext (operations := demoOperations)
      (callTo addressB "relay" DirectCall addressC) demoHost
    = (merged,
       ((None, ["transfer"; "relayed"]%string), Some emptyAsyncInfo, None)) /\
    BigInt merged = BigInt demoHost /\
    Runtime merged = Runtime demoHost /\
    Storage merged = Storage demoHost /\
    Output merged
    = mkContext ["parent"; "transfer"; "relayed"]%string [].
Proof.
  destruct (ExecuteOnDestContext_success_merges_output
              (operations := demoOperations)
              (callTo addressB "relay" DirectCall addressC) demoHost
              _ _ demoOperations_keep_stacks eq_refl)
    as (merged & Hcall & _ & Hb & Hr & Hs & Ho).
  exists merged. repeat split; assumption.
Defined.

Lemma ExecuteOnSameContext_success_keeps_changes_witness :
  exists resumed,
    ExecuteOnSameContext (operations := demoOperations)
      (callTo addressB "relay" DirectCall addressC) demoHost
    = (resumed, (Some emptyAsyncInfo, None)) /\
    BigInt resumed = mkContext [7] [[3]] /\
    Output resumed
    = mkContext ["parent"; "transfer"; "relayed"]%string [] /\
    Runtime resumed = Runtime demoHost /\
    Storage resumed = Storage demoHost.
Proof.
  destruct (ExecuteOnSameContext_success_keeps_changes
              (operations := demoOperations)
              (callTo addressB "relay" DirectCall addressC) demoHost
              _ _ demoOperations_keep_stacks eq_refl)
    as (resumed & Hcall & _ & Hb & Ho & _ & _ & Hr & _ & Hs).
  exists resumed. repeat split; assumption.
Defined.

Lemma verifyAllowedFunctionCall_spec_witness :
  verifyAllowedFunctionCall (operations := demoOperations)
    (demoHostWith (mkVMInput addressA 0 DirectCall 1000) "init" [])
  = Some ErrInitFuncCalledInRun /\
  verifyAllowedFunctionCall (operations := demoOperations)
    (demoHostWith (mkVMInput addressA 0 DirectCall 1000) "solidity.ctor" [])
  = Some ErrInitFuncCalledInRun /\
  verifyAllowedFunctionCall (operations := demoOperations)
    (demoHostWith (mkVMInput addressA 0 AsynchronousCall 1000) "callBack" [])
  = Some ErrCallBackFuncCalledInRun /\
  verifyAllowedFunctionCall (operations := demoOperations)
    (demoHostWith (mkVMInput addressA 0 AsynchronousCallBack 1000)
       "callBack" [])
  = None /\
  verifyAllowedFunctionCall (operations := demoOperations)
    (demoHostWith (mkVMInput addressA 0 DirectCall 1000) "increment" [])
  = None.
Proof.
  assert (Hinit : CallBackFunctionName (HostOperations := demoOperations)
                  <> InitFunctionName (HostOperations := demoOperations))
    by (vm_compute; discriminate).
  assert (Heth : CallBackFunctionName (HostOperations := demoOperations)
                 <> InitFunctionNameEth (HostOperations := demoOperations))
    by (vm_compute; discriminate).
  pose proof (fun host =>
                verifyAllowedFunctionCall_spec (operations := demoOperations)
                  host Hinit Heth) as Hspec.
  split; [apply Hspec; now left|].
  split; [apply Hspec; now right|].
  split; [apply Hspec; [reflexivity | discriminate]|].
  split; [apply Hspec; [discriminate | discriminate | now right]|].
  apply Hspec; [discriminate | discriminate | left; discriminate].
Defined.

(** C8, the claim as stated fails: with nothing stored under the key the
    decoder fails, and [processCallbackStack] returns the decoder's error,
    which is not [ErrCallBackFuncNotExpected]. *)
Lemma processCallbackStack_returns_the_decoding_error :
  processCallbackStack (operations := demoOperations) (callbackFrom addressA [])
  = Returned (callbackFrom addressA [],
              Some (ErrForeign "unexpected end of JSON input")) /\
  processCallbackStack (operations := demoOperations) (callbackFrom addressA [])
  <> Returned (callbackFrom addressA [], Some ErrCallBackFuncNotExpected).
Proof.
  split; [reflexivity | discriminate].
Qed.

Lemma processCallbackStack_rejections_witness :
  processCallbackStack (operations := demoOperations) (callbackFrom addressA [])
  = Returned (callbackFrom addressA [],
              Some (ErrForeign "unexpected end of JSON input")) /\
  processCallbackStack (operations := demoOperations)
    (callbackFrom addressC storeWithTwoPendingCalls)
  = Returned (callbackFrom addressC storeWithTwoPendingCalls,
              Some ErrCallBackFuncNotExpected).
Proof.
  split.
  - apply (processCallbackStack_rejections (operations := demoOperations)
             (callbackFrom addressA []) demoStorageKey eq_refl).
    reflexivity.
  - apply (proj2 (processCallbackStack_rejections
                    (operations := demoOperations)
                    (callbackFrom addressC storeWithTwoPendingCalls)
                    demoStorageKey eq_refl) twoPendingCalls eq_refl).
    intros entry asyncCall [<-|[]] [<-|[<-|[]]]; discriminate.
Defined.

Lemma twoPendingCalls_distinct :
  NoDup (map fst (AsyncContextMap twoPendingCalls))
  /\ Forall (fun entry => fst entry <> EmptyString)
       (AsyncContextMap twoPendingCalls).
Proof.
  split.
  - repeat constructor. intros [].
  - repeat constructor. discriminate.
Qed.

(** Two callbacks on a stored set of two calls, from the first destination
    and from the second.  Each returns no error and leaves the host as it
    was: the store still holds both calls, and a further callback from
    either destination is accepted in the same way. *)
Lemma processCallbackStack_keeps_the_stored_set_witness :
  processCallbackStack (operations := demoOperations)
    (callbackFrom addressA storeWithTwoPendingCalls)
  = Returned (callbackFrom addressA storeWithTwoPendingCalls, None) /\
  processCallbackStack (operations := demoOperations)
    (callbackFrom addressB storeWithTwoPendingCalls)
  = Returned (callbackFrom addressB storeWithTwoPendingCalls, None) /\
  GetStorage (HostOperations := demoOperations) demoStorageKey
    (callbackFrom addressB storeWithTwoPendingCalls)
  = storedTwoPendingCalls.
Proof.
  destruct twoPendingCalls_distinct as [Hdistinct Hids].
  split; [|split; [|reflexivity]].
  - apply (processCallbackStack_keeps_the_stored_set
             (operations := demoOperations)
             (callbackFrom addressA storeWithTwoPendingCalls) demoStorageKey
             twoPendingCalls eq_refl eq_refl Hdistinct Hids).
    + exists ("ctx"%string,
              mkAsyncContext "done"
                [pendingCallTo addressA 50; pendingCallTo addressB 50]),
        (pendingCallTo addressA 50).
      simpl. auto.
    + simpl. lia.
  - apply (processCallbackStack_keeps_the_stored_set
             (operations := demoOperations)
             (callbackFrom addressB storeWithTwoPendingCalls) demoStorageKey
             twoPendingCalls eq_refl eq_refl Hdistinct Hids).
    + exists ("ctx"%string,
              mkAsyncContext "done"
                [pendingCallTo addressA 50; pendingCallTo addressB 50]),
        (pendingCallTo addressB 50).
      simpl. auto.
    + simpl. lia.
Defined.

(** With 100 units of gas left and two async calls of 50 percent each, the
    first call is given no gas and the last one all of it; the proportional
    split gives 50 to each. *)
Lemma setupAsyncCallsGasByPercentages_gives_all_to_last_witness :
  setupAsyncCallsGasByPercentages (operations := demoOperations)
    twoPendingCalls demoHost
  = Returned
      (mkAsyncContextInfo (mkAsyncInitiator addressC [])
         [ ("ctx"%string,
            mkAsyncContext "done"
              [ withGasLimit 0 (pendingCallTo addressA 50);
                withGasLimit 100 (pendingCallTo addressB 50) ]) ]) /\
  GasLeft (HostOperations := demoOperations) demoHost = 100 /\
  proportionalGasLimit 100 50 (50 + 50) = 50.
Proof.
  split; [|split; reflexivity].
  apply (setupAsyncCallsGasByPercentages_gives_all_to_last
           (operations := demoOperations) demoHost
           (mkAsyncInitiator addressC []) "ctx" "done"
           [pendingCallTo addressA 50; pendingCallTo addressB 50]).
  - discriminate.
  - discriminate.
  - uint64_literal.
  - repeat constructor; uint64_literal.
Defined.

(** ** More results on the concrete host *)

Lemma ExecuteOnSameContext_error_rolls_back_witness :
  exists restored,
    ExecuteOnSameContext (operations := demoOperations)
      (callTo addressB "fail" DirectCall addressC) demoHost
    = (restored, (None, Some ErrReturnCodeNotOk)) /\
    BigInt restored = BigInt demoHost /\
    Output restored = Output demoHost /\
    Runtime restored = Runtime demoHost.
Proof.
  destruct (ExecuteOnSameContext_error_rolls_back
              (operations := demoOperations)
              (callTo addressB "fail" DirectCall addressC) demoHost
              _ _ _ demoOperations_keep_stacks eq_refl)
    as (restored & Hcall & _ & Hb & Ho & Hr & _).
  exists restored. repeat split; assumption.
Defined.

Lemma sub_calls_keep_the_state_stacks_witness :
  stateStacks
    (fst (ExecuteOnDestContext (operations := demoOperations)
            (callTo addressB "relay" DirectCall addressC) demoHost))
  = stateStacks demoHost /\
  stateStacks
    (fst (ExecuteOnSameContext (operations := demoOperations)
            (callTo addressB "fail" DirectCall addressC) demoHost))
  = stateStacks demoHost.
Proof.
  split.
  - apply (sub_calls_keep_the_state_stacks (operations := demoOperations)
             (callTo addressB "relay" DirectCall addressC) demoHost
             demoOperations_keep_stacks).
  - apply (sub_calls_keep_the_state_stacks (operations := demoOperations)
             (callTo addressB "fail" DirectCall addressC) demoHost
             demoOperations_keep_stacks).
Defined.


Lemma threeContexts_distinct :
  NoDup (map fst (AsyncContextMap threeContexts)).
Proof.
  repeat constructor; simpl; intuition discriminate.
Qed.

Lemma getPendingAsyncCalls_keeps_the_pending_calls_witness :
  getPendingAsyncCalls threeContexts
  = mkAsyncContextInfo (mkAsyncInitiator addressC ["r"%byte])
      [ ("first"%string, mkAsyncContext "one" [pendingCallTo addressB 50]);
        ("third"%string, mkAsyncContext "three" [pendingCallTo addressA 50]) ].
Proof.
  apply (getPendingAsyncCalls_keeps_the_pending_calls threeContexts
           threeContexts_distinct).
Defined.

Lemma setupAsyncCallsGasByPercentages_single_call_witness :
  setupAsyncCallsGasByPercentages (operations := demoOperations)
    (mkAsyncContextInfo (mkAsyncInitiator addressC [])
       [("ctx"%string, mkAsyncContext "done" [pendingCallTo addressA 30])])
    demoHost
  = Returned
      (mkAsyncContextInfo (mkAsyncInitiator addressC [])
         [("ctx"%string,
           mkAsyncContext "done"
             [withGasLimit 100 (pendingCallTo addressA 30)])]).
Proof.
  apply (setupAsyncCallsGasByPercentages_single_call
           (operations := demoOperations) demoHost
           (mkAsyncInitiator addressC []) "ctx" "done"
           (pendingCallTo addressA 30));
    [uint64_literal | discriminate | uint64_literal].
Defined.

Lemma setupAsyncCallsGasByPercentages_single_call_of_zero_witness :
  setupAsyncCallsGasByPercentages (operations := demoOperations)
    (mkAsyncContextInfo (mkAsyncInitiator addressC [])
       [("ctx"%string, mkAsyncContext "done" [pendingCallTo addressA 0])])
    demoHost
  = Panicked.
Proof.
  apply (setupAsyncCallsGasByPercentages_single_call_of_zero
           (operations := demoOperations) demoHost
           (mkAsyncInitiator addressC []) "ctx" "done"
           (pendingCallTo addressA 0) eq_refl).
Defined.

(** ** The call data in the Ethereum layout *)

Section EthereumCallDataProperties.

Context {states : ContextStates} {operations : HostOperations}
  {ethereum : EthereumOperations}.

Lemma appendPaddedArguments_padded : forall arguments newInput,
  Forall (fun arg : bytes => (List.length arg <= ArgumentLenEth)%nat)
    arguments ->
  appendPaddedArguments arguments newInput
  = Returned (newInput ++ List.concat (map leftPadded arguments)).
Proof.
  induction arguments as [|arg rest IH]; intros newInput Hfit; simpl.
  - now rewrite app_nil_r.
  - apply Forall_cons_iff in Hfit as [Harg Hrest]. unfold paddedArgument.
    destruct (Nat.ltb_spec ArgumentLenEth (List.length arg)); [lia|].
    rewrite (IH _ Hrest). unfold leftPadded. now rewrite <- !app_assoc.
Qed.

Lemma appendPaddedArguments_too_long : forall arguments newInput,
  Exists (fun arg : bytes => (ArgumentLenEth < List.length arg)%nat)
    arguments ->
  appendPaddedArguments arguments newInput = Panicked.
Proof.
  induction arguments as [|arg rest IH]; intros newInput Hlong;
    [inversion Hlong|].
  simpl. unfold paddedArgument.
  destruct (Nat.ltb_spec ArgumentLenEth (List.length arg)) as [Hlt|Hge];
    [reflexivity|].
  apply IH. apply Exists_cons in Hlong as [Hhere|Hlater]; [lia | exact Hlater].
Qed.

Lemma leftPadded_length : forall arguments,
  Forall (fun arg : bytes => (List.length arg <= ArgumentLenEth)%nat)
    arguments ->
  List.length (List.concat (map leftPadded arguments))
  = (ArgumentLenEth * List.length arguments)%nat.
Proof.
  induction 1 as [|arg rest Harg _ IH]; simpl; [lia|].
  rewrite length_app, IH. unfold leftPadded.
  rewrite length_app, repeat_length. lia.
Qed.

(** X19. When no argument is longer than [ArgumentLenEth],
    [createETHCallInput] returns the first four bytes of the Keccak256 of
    the function name, which are left out when the name is empty, followed
    by every argument in its order, each filled up with zero bytes in front
    to [ArgumentLenEth] bytes; the arguments take [ArgumentLenEth] bytes
    each.  When the hash fails it returns nil. *)
Theorem createETHCallInput_layout : forall host,
  Forall (fun arg : bytes => (List.length arg <= ArgumentLenEth)%nat)
    (runtimeArguments (active (Runtime host))) ->
  (Function (active (Runtime host)) = EmptyString ->
   createETHCallInput host
   = Returned
       (Some (List.concat
                (map leftPadded
                   (runtimeArguments (active (Runtime host))))))) /\
  (forall hashOfFunction,
     Function (active (Runtime host)) <> EmptyString ->
     Keccak256 (list_byte_of_string (Function (active (Runtime host))))
     = inr hashOfFunction ->
     (4 <= List.length hashOfFunction)%nat ->
     createETHCallInput host
     = Returned
         (Some (firstn 4 hashOfFunction
                ++ List.concat
                     (map leftPadded
                        (runtimeArguments (active (Runtime host))))))) /\
  (forall err,
     Function (active (Runtime host)) <> EmptyString ->
     Keccak256 (list_byte_of_string (Function (active (Runtime host))))
     = inl err ->
     createETHCallInput host = Returned None) /\
  List.length
    (List.concat (map leftPadded (runtimeArguments (active (Runtime host)))))
  = (ArgumentLenEth
     * List.length (runtimeArguments (active (Runtime host))))%nat.
Proof.
  intros host Hfit. unfold createETHCallInput.
  split; [|split; [|split]].
  - intros ->. simpl. now rewrite (appendPaddedArguments_padded _ _ Hfit).
  - intros hashOfFunction Hname Hhash Hlen.
    rewrite (nonempty_string_length _ Hname), Hhash. unfold firstFour.
    destruct (Nat.ltb_spec (List.length hashOfFunction) 4); [lia|].
    now rewrite (appendPaddedArguments_padded _ _ Hfit).
  - intros err Hname Hhash.
    now rewrite (nonempty_string_length _ Hname), Hhash.
  - now apply leftPadded_length.
Qed.

(** X20. [createETHCallInput] never cuts an argument short: when an
    argument is longer than [ArgumentLenEth] the slice expression that
    places it is out of range and the function panics, with or without a
    function name.  Only when the hash of the name fails does it return
    before it reads the arguments. *)
Theorem createETHCallInput_panics_on_a_long_argument : forall host,
  Exists (fun arg : bytes => (ArgumentLenEth < List.length arg)%nat)
    (runtimeArguments (active (Runtime host))) ->
  (Function (active (Runtime host)) = EmptyString ->
   createETHCallInput host = Panicked) /\
  (forall hashOfFunction,
     Function (active (Runtime host)) <> EmptyString ->
     Keccak256 (list_byte_of_string (Function (active (Runtime host))))
     = inr hashOfFunction ->
     createETHCallInput host = Panicked) /\
  (forall err,
     Function (active (Runtime host)) <> EmptyString ->
     Keccak256 (list_byte_of_string (Function (active (Runtime host))))
     = inl err ->
     createETHCallInput host = Returned None).
Proof.
  intros host Hlong. unfold createETHCallInput. split; [|split].
  - intros ->. simpl. now rewrite (appendPaddedArguments_too_long _ _ Hlong).
  - intros hashOfFunction Hname Hhash.
    rewrite (nonempty_string_length _ Hname), Hhash.
    destruct (firstFour hashOfFunction); [|reflexivity].
    now rewrite (appendPaddedArguments_too_long _ _ Hlong).
  - intros err Hname Hhash.
    now rewrite (nonempty_string_length _ Hname), Hhash.
Qed.

End EthereumCallDataProperties.

Lemma createETHCallInput_layout_witness :
  createETHCallInput (operations := demoOperations) (ethereum := demoEthereum)
    demoHost
  = Returned
      (Some (["m"; "a"; "i"; "n"]%byte
             ++ (repeat x00 31 ++ addressC)
             ++ (repeat x00 31 ++ ["t"%byte]))) /\
  createETHCallInput (operations := demoOperations) (ethereum := demoEthereum)
    (demoHostWith (mkVMInput addressA 0 DirectCall 1000) "" [])
  = Returned
      (Some ((repeat x00 31 ++ addressC) ++ (repeat x00 31 ++ ["t"%byte]))).
Proof.
  split.
  - apply (proj1 (proj2 (createETHCallInput_layout
                           (operations := demoOperations)
                           (ethereum := demoEthereum) demoHost
                           ltac:(repeat constructor; simpl; lia)))
             (firstn 32 (list_byte_of_string "main" ++ repeat x00 32)));
      [discriminate | reflexivity | simpl; lia].
  - apply (proj1 (createETHCallInput_layout
                    (operations := demoOperations)
                    (ethereum := demoEthereum)
                    (demoHostWith (mkVMInput addressA 0 DirectCall 1000) "" [])
                    ltac:(repeat constructor; simpl; lia))).
    reflexivity.
Defined.

Lemma createETHCallInput_panics_on_a_long_argument_witness :
  createETHCallInput (operations := demoOperations) (ethereum := demoEthereum)
    (longArgumentHost "") = Panicked /\
  createETHCallInput (operations := demoOperations) (ethereum := demoEthereum)
    (longArgumentHost "main") = Panicked.
Proof.
  split.
  - apply (proj1 (createETHCallInput_panics_on_a_long_argument
                    (operations := demoOperations)
                    (ethereum := demoEthereum) (longArgumentHost "")
                    ltac:(left; simpl; lia))).
    reflexivity.
  - apply (proj1 (proj2 (createETHCallInput_panics_on_a_long_argument
                           (operations := demoOperations)
                           (ethereum := demoEthereum)
                           (longArgumentHost "main")
                           ltac:(left; simpl; lia)))
             (firstn 32 (list_byte_of_string "main" ++ repeat x00 32)));
      [discriminate | reflexivity].
Defined.

End ExecutionFacts.

(** * Properties of the inner dispatch *)

Module DispatchFacts.

Import Execution Dispatch.

Section Properties.

Context {states : ContextStates} {operations : HostOperations}
  {engine : EngineOperations}.

(** ** What the operations leave *)

Lemma quiet_refl : forall host, quiet host host.
Proof.
  intros host A observe _. reflexivity.
Qed.

Lemma quiet_trans : forall first second third,
  quiet first second -> quiet second third -> quiet first third.
Proof.
  intros first second third H1 H2 A observe H.
  rewrite (H2 A observe H). apply (H1 A observe H).
Qed.

Lemma quiet_run : forall (B : Type) (operation : VMHost -> VMHost * B)
  host after outcome,
  (forall (A : Type) (observe : VMHost -> A),
     engine_leaves observe -> leaves observe operation) ->
  operation host = (after, outcome) ->
  quiet host after.
Proof.
  intros B operation host after outcome Hleaves Hrun A observe H.
  pose proof (Hleaves A observe H host) as Hsame.
  now rewrite Hrun in Hsame.
Qed.

Lemma quiet_step : forall (operation : VMHost -> VMHost) host,
  (forall (A : Type) (observe : VMHost -> A),
     engine_leaves observe -> leaves_it observe operation) ->
  quiet host (operation host).
Proof.
  intros operation host Hleaves A observe H. apply (Hleaves A observe H).
Qed.

Lemma callGuest_quiet : forall function host after err,
  callGuest function host = (after, err) -> quiet host after.
Proof.
  intros function host after err Hrun. unfold callGuest in Hrun.
  destruct (callFunction function host) as [host1 [failure|]] eqn:Hcall.
  - apply (quiet_trans _ host1).
    + exact (quiet_run _ _ _ _ _
               (fun A observe H => callFunction_leaves observe H function)
               Hcall).
    + exact (quiet_run _ _ _ _ _
               (fun A observe H =>
                  handleBreakpointIfAny_leaves observe H failure)
               Hrun).
  - inversion Hrun; subst.
    exact (quiet_run _ _ _ _ _
             (fun A observe H => callFunction_leaves observe H function)
             Hcall).
Qed.

Lemma callSCMethodIndirect_quiet : forall host after err,
  callSCMethodIndirect host = (after, err) -> quiet host after.
Proof.
  intros host after err Hrun. unfold callSCMethodIndirect in Hrun.
  destruct (GetFunctionToCall (active (Runtime host))) as [failure|function].
  - inversion Hrun. apply quiet_refl.
  - exact (callGuest_quiet _ _ _ _ Hrun).
Qed.

Lemma callInitFunction_quiet : forall host after err,
  callInitFunction host = (after, err) -> quiet host after.
Proof.
  intros host after err Hrun. unfold callInitFunction in Hrun.
  destruct (GetInitFunction (active (Runtime host))) as [init|].
  - exact (callGuest_quiet _ _ _ _ Hrun).
  - inversion Hrun. apply quiet_refl.
Qed.

Lemma callBuiltinFunction_quiet : forall input host,
  quiet host (fst (callBuiltinFunction input host)).
Proof.
  intros input host. unfold callBuiltinFunction.
  destruct (ProcessBuiltInFunction input host) as [host1 outcome] eqn:Hrun.
  assert (Q1 : quiet host host1)
    by exact (quiet_run _ _ _ _ _
                (fun A observe H =>
                   ProcessBuiltInFunction_leaves observe H input) Hrun).
  destruct outcome as [err|vmOutput]; simpl.
  - apply (quiet_trans _ host1 _ Q1).
    apply quiet_step. intros A observe H. apply (UseGas_leaves observe H).
  - apply (quiet_trans _ host1 _ Q1).
    destruct (GasRemaining vmOutput <? GasProvided (inputVMInput input)).
    + apply (quiet_trans _ (UseGas
                              (wrap64 (GasProvided (inputVMInput input)
                                       - GasRemaining vmOutput)) host1)).
      * apply quiet_step. intros A observe H.
        apply (UseGas_leaves observe H).
      * apply quiet_step. intros A observe H.
        apply (AddToActiveState_leaves observe H).
    + apply quiet_step. intros A observe H.
      apply (AddToActiveState_leaves observe H).
Qed.

(** X29. [callBuiltinFunction] uses on the instance of the caller what the
    builtin function consumed: the gas provided less the gas remaining when
    less remains than was provided, a subtraction that cannot wrap; nothing
    when as much or more remains; and the whole of the gas provided when
    the hook fails, in which case the VM output is not added to the output
    state. *)
Theorem callBuiltinFunction_uses_the_gas_consumed :
  forall input host processed,
    uint64 (GasProvided (inputVMInput input)) ->
    (forall err,
       ProcessBuiltInFunction input host = (processed, inl err) ->
       callBuiltinFunction input host
       = (UseGas (GasProvided (inputVMInput input)) processed, Some err)) /\
    (forall vmOutput,
       ProcessBuiltInFunction input host = (processed, inr vmOutput) ->
       uint64 (GasRemaining vmOutput) ->
       GasRemaining vmOutput < GasProvided (inputVMInput input) ->
       callBuiltinFunction input host
       = (AddToActiveState vmOutput
            (UseGas
               (GasProvided (inputVMInput input) - GasRemaining vmOutput)
               processed),
          None)) /\
    (forall vmOutput,
       ProcessBuiltInFunction input host = (processed, inr vmOutput) ->
       GasProvided (inputVMInput input) <= GasRemaining vmOutput ->
       callBuiltinFunction input host
       = (AddToActiveState vmOutput processed, None)).
Proof.
  intros input host processed Hprovided. unfold callBuiltinFunction.
  split; [|split].
  - intros err Hrun. now rewrite Hrun.
  - intros vmOutput Hrun Hremaining Hless. rewrite Hrun.
    destruct (Z.ltb_spec (GasRemaining vmOutput)
                (GasProvided (inputVMInput input))); [|lia].
    unfold wrap64. rewrite Z.mod_small; [reflexivity|].
    unfold uint64, MaxUint64 in *. lia.
  - intros vmOutput Hrun Hmore. rewrite Hrun.
    destruct (Z.ltb_spec (GasRemaining vmOutput)
                (GasProvided (inputVMInput input))); [lia | reflexivity].
Qed.

(** The ways through [execute]: it returns before it registers the host,
    or it registers the host and pushes an instance, and pops the instance
    and unregisters the host before it returns. *)
Lemma execute_ways : forall input host,
  quiet host (fst (execute input host)) \/
  exists entered inside released,
    quiet host entered /\
    quiet (PushInstance (fst (AddHostContext entered))) inside /\
    quiet (PopInstance inside) released /\
    fst (execute input host)
    = RemoveHostContext (snd (AddHostContext entered)) released.
Proof.
  intros input host. unfold execute.
  destruct (isBuiltinFunctionBeingCalled host);
    [left; apply callBuiltinFunction_quiet|].
  set (host1 := UseGas (GasProvided (inputVMInput input)) host).
  assert (Q1 : quiet host host1).
  { apply quiet_step. intros A observe H. apply (UseGas_leaves observe H). }
  destruct (isInitFunctionBeingCalled host1); [left; exact Q1|].
  destruct (GetCode (GetSCAddress (active (Runtime host1))) host1)
    as [host2 [err|contract]] eqn:Hcode;
    pose proof (quiet_run _ _ _ _ _
                  (fun A observe H => GetCode_leaves observe H _) Hcode)
      as Q2;
    [left; exact (quiet_trans _ _ _ Q1 Q2)|].
  destruct (DeductInitialGasForExecution contract host2)
    as [host3 [err|]] eqn:Hdeduct;
    pose proof (quiet_run _ _ _ _ _
                  (fun A observe H =>
                     DeductInitialGasForExecution_leaves observe H _)
                  Hdeduct) as Q3;
    [left; exact (quiet_trans _ _ _ (quiet_trans _ _ _ Q1 Q2) Q3)|].
  right. exists host3.
  destruct (AddHostContext host3) as [host4 idContext] eqn:Hadd.
  cbn [fst snd].
  destruct (StartWasmerInstance contract
              (GasProvided (GetVMInput (active (Runtime (PushInstance host4)))))
              (PushInstance host4)) as [host5 [err|]] eqn:Hstart;
    pose proof (quiet_run _ _ _ _ _
                  (fun A observe H => StartWasmerInstance_leaves observe H _ _)
                  Hstart) as Q5.
  { exists host5, (PopInstance host5).
    split; [exact (quiet_trans _ _ _ (quiet_trans _ _ _ Q1 Q2) Q3)|].
    split; [exact Q5|]. split; [apply quiet_refl | reflexivity]. }
  set (host6 := SetInstanceContextID idContext host5).
  assert (Q6 : quiet host5 host6).
  { apply quiet_step. intros A observe H.
    apply (SetInstanceContextID_leaves observe H). }
  destruct (callSCMethodIndirect host6) as [host7 [err|]] eqn:Hcall;
    pose proof (callSCMethodIndirect_quiet _ _ _ Hcall) as Q7.
  { exists host7, (PopInstance host7).
    split; [exact (quiet_trans _ _ _ (quiet_trans _ _ _ Q1 Q2) Q3)|].
    split; [exact (quiet_trans _ _ _ (quiet_trans _ _ _ Q5 Q6) Q7)|].
    split; [apply quiet_refl | reflexivity]. }
  destruct (ReturnCodeIsOk host7); cbn [negb].
  - exists (UnlockGasIfAsyncStep host7),
      (RestoreGas (GasLeft (UnlockGasIfAsyncStep host7))
         (PopInstance (UnlockGasIfAsyncStep host7))).
    split; [exact (quiet_trans _ _ _ (quiet_trans _ _ _ Q1 Q2) Q3)|].
    split.
    + apply (quiet_trans _ host7);
        [exact (quiet_trans _ _ _ (quiet_trans _ _ _ Q5 Q6) Q7)|].
      apply quiet_step. intros A observe H.
      apply (UnlockGasIfAsyncStep_leaves observe H).
    + split; [|reflexivity].
      apply quiet_step. intros A observe H.
      apply (RestoreGas_leaves observe H).
  - exists host7, (PopInstance host7).
    split; [exact (quiet_trans _ _ _ (quiet_trans _ _ _ Q1 Q2) Q3)|].
    split; [exact (quiet_trans _ _ _ (quiet_trans _ _ _ Q5 Q6) Q7)|].
    split; [apply quiet_refl | reflexivity].
Qed.

Lemma remove_registered : forall (idContext : Z) registry,
  ~ In idContext registry ->
  remove Z.eq_dec idContext (idContext :: registry) = registry.
Proof.
  intros idContext registry Hfresh. simpl.
  destruct (Z.eq_dec idContext idContext) as [_|Hne]; [|now elim Hne].
  now apply notin_remove.
Qed.

(** X21. [execute] releases what it acquires, on every return: the instance
    stack holds as many instances after it as before, the registry of host
    contexts holds the same identifiers, and the four state stacks are as
    it found them.  Every return that follows [AddHostContext] and
    [PushInstance] runs [PopInstance] and [RemoveHostContext] of the
    identifier that was registered. *)
Theorem execute_releases_what_it_acquires :
  forall instances registered input host,
    tracks_instances instances registered ->
    engine_leaves instances ->
    engine_leaves registered ->
    engine_leaves stateStacks ->
    instances_leave stateStacks ->
    instances (fst (execute input host)) = instances host /\
    registered (fst (execute input host)) = registered host /\
    stateStacks (fst (execute input host)) = stateStacks host.
Proof.
  intros instances registered input host Htracks Hinstances Hregistered
    Hstacks Hapart.
  destruct (execute_ways input host)
    as [Hquiet|(entered & inside & released & Q1 & Q2 & Q3 & ->)].
  - split; [|split]; now apply Hquiet.
  - destruct (AddHostContext_registers _ _ Htracks entered)
      as (Hadd & Hfresh & Hadd').
    destruct (PushInstance_adds _ _ Htracks (fst (AddHostContext entered)))
      as [Hpush Hpush'].
    destruct (PopInstance_takes _ _ Htracks inside) as [Hpop Hpop'].
    destruct (RemoveHostContext_unregisters _ _ Htracks
                (snd (AddHostContext entered)) released)
      as [Hremove Hremove'].
    split; [|split].
    + rewrite Hremove', (Q3 _ instances Hinstances), Hpop,
        (Q2 _ instances Hinstances), Hpush, Hadd'.
      apply (Q1 _ instances Hinstances).
    + rewrite Hremove, (Q3 _ registered Hregistered), Hpop',
        (Q2 _ registered Hregistered), Hpush', Hadd.
      rewrite (Q1 _ registered Hregistered) in *.
      now apply remove_registered.
    + rewrite (RemoveHostContext_leaves _ Hapart),
        (Q3 _ stateStacks Hstacks), (PopInstance_leaves _ Hapart),
        (Q2 _ stateStacks Hstacks), (PushInstance_leaves _ Hapart),
        (AddHostContext_leaves _ Hapart).
      apply (Q1 _ stateStacks Hstacks).
Qed.

Lemma runtime_pop_after_push : forall pushed used,
  stateStacks pushed = stateStacks (onRuntime PushState used) ->
  stateStacks (onRuntime PopSetActiveState pushed) = stateStacks used.
Proof.
  intros pushed used H. unfold stateStacks in *. simpl in *.
  inversion H as [[Hb Ho Hr Hs]]. unfold PopSetActiveState.
  rewrite Hr. reflexivity.
Qed.

(** The ways through [CreateNewContract]: it returns in read-only mode
    before it pushes anything; or it pushes the runtime state and pops it
    before an instance is pushed; or it registers the host and pushes an
    instance too, and pops the instance, pops the runtime state and
    unregisters the host before it returns. *)
Lemma CreateNewContract_ways : forall input host,
  quiet host (fst (CreateNewContract input host)) \/
  (exists used pushed,
     quiet host used /\
     quiet (onRuntime PushState used) pushed /\
     fst (CreateNewContract input host)
     = onRuntime PopSetActiveState pushed) \/
  (exists used entered inside,
     quiet host used /\
     quiet (onRuntime PushState used) entered /\
     quiet (PushInstance (fst (AddHostContext entered))) inside /\
     quiet
       (RemoveHostContext (snd (AddHostContext entered))
          (onRuntime PopSetActiveState (PopInstance inside)))
       (fst (CreateNewContract input host))).
Proof.
  intros input host. unfold CreateNewContract.
  set (host1 := UseGas (GasProvided (createVMInput input)) host).
  assert (Q1 : quiet host host1).
  { apply quiet_step. intros A observe H. apply (UseGas_leaves observe H). }
  destruct (ReadOnly (active (Runtime host1))); [left; exact Q1|].
  right.
  set (host3 := onRuntime (onActive (SetVMInput (createVMInput input)))
                  (onRuntime PushState host1)).
  assert (Q3 : quiet (onRuntime PushState host1) host3).
  { apply quiet_step. intros A observe H.
    apply (runtime_state_leaves observe H). }
  destruct (NewAddress (CallerAddr (createVMInput input)) host3)
    as [host4 [err|address]] eqn:Haddress;
    pose proof (quiet_run _ _ _ _ _
                  (fun A observe H => NewAddress_leaves observe H _)
                  Haddress) as Q4.
  { left. exists host1, host4.
    split; [exact Q1|]. split; [exact (quiet_trans _ _ _ Q3 Q4)|].
    reflexivity. }
  destruct (Transfer address (CallerAddr (createVMInput input)) 0
              (CallValue (createVMInput input)) [] host4)
    as [host5 [err|]] eqn:Htransfer;
    pose proof (quiet_run _ _ _ _ _
                  (fun A observe H => Transfer_leaves observe H _ _ _ _ _)
                  Htransfer) as Q5.
  { left. exists host1, host5.
    split; [exact Q1|].
    split; [exact (quiet_trans _ _ _ (quiet_trans _ _ _ Q3 Q4) Q5)|].
    reflexivity. }
  set (host7 := onRuntime (onActive (SetSCAddress address))
                  (IncreaseNonce (CallerAddr (createVMInput input)) host5)).
  assert (Q7 : quiet host5 host7).
  { apply (quiet_trans _
             (IncreaseNonce (CallerAddr (createVMInput input)) host5)).
    - apply quiet_step. intros A observe H.
      apply (IncreaseNonce_leaves observe H).
    - apply quiet_step. intros A observe H.
      apply (runtime_state_leaves observe H). }
  assert (Q37 : quiet (onRuntime PushState host1) host7)
    by exact (quiet_trans _ _ _
                (quiet_trans _ _ _ (quiet_trans _ _ _ Q3 Q4) Q5) Q7).
  destruct (DeductInitialGasForIndirectDeployment
              (mkCodeDeployInput (ContractCode input)
                 (ContractCodeMetadata input) address) host7)
    as [host8 [err|]] eqn:Hdeduct;
    pose proof (quiet_run _ _ _ _ _
                  (fun A observe H =>
                     DeductInitialGasForIndirectDeployment_leaves observe H _)
                  Hdeduct) as Q8.
  { left. exists host1, host8.
    split; [exact Q1|]. split; [exact (quiet_trans _ _ _ Q37 Q8)|].
    reflexivity. }
  right. exists host1, host8.
  destruct (AddHostContext host8) as [host9 idContext] eqn:Hadd.
  cbn [fst snd].
  destruct (StartWasmerInstance (ContractCode input)
              (GasProvided (GetVMInput (active (Runtime (PushInstance host9)))))
              (PushInstance host9)) as [host11 [err|]] eqn:Hstart;
    pose proof (quiet_run _ _ _ _ _
                  (fun A observe H => StartWasmerInstance_leaves observe H _ _)
                  Hstart) as Q11.
  { exists host11. split; [exact Q1|].
    split; [exact (quiet_trans _ _ _ Q37 Q8)|].
    split; [exact Q11 | apply quiet_refl]. }
  destruct (VerifyContractCode host11) as [host12 [err|]] eqn:Hverify;
    pose proof (quiet_run _ _ _ _ _
                  (fun A observe H => VerifyContractCode_leaves observe H)
                  Hverify) as Q12.
  { exists host12. split; [exact Q1|].
    split; [exact (quiet_trans _ _ _ Q37 Q8)|].
    split; [exact (quiet_trans _ _ _ Q11 Q12) | apply quiet_refl]. }
  set (host13 := SetInstanceContextID idContext host12).
  assert (Q13 : quiet host12 host13).
  { apply quiet_step. intros A observe H.
    apply (SetInstanceContextID_leaves observe H). }
  destruct (callInitFunction host13) as [host14 [err|]] eqn:Hinit;
    pose proof (callInitFunction_quiet _ _ _ Hinit) as Q14.
  { exists host14. split; [exact Q1|].
    split; [exact (quiet_trans _ _ _ Q37 Q8)|].
    split; [|apply quiet_refl].
    exact (quiet_trans _ _ _
             (quiet_trans _ _ _ (quiet_trans _ _ _ Q11 Q12) Q13) Q14). }
  set (host15 := DeployCode
                   (mkCodeDeployInput (ContractCode input)
                      (ContractCodeMetadata input) address) host14).
  assert (Q15 : quiet host14 host15).
  { apply quiet_step. intros A observe H.
    apply (DeployCode_leaves observe H). }
  exists host15. split; [exact Q1|].
  split; [exact (quiet_trans _ _ _ Q37 Q8)|].
  split.
  - exact (quiet_trans _ _ _
             (quiet_trans _ _ _
                (quiet_trans _ _ _ (quiet_trans _ _ _ Q11 Q12) Q13) Q14)
             Q15).
  - cbn [fst]. unfold dropDeployment.
    apply quiet_step. intros A observe H. apply (RestoreGas_leaves observe H).
Qed.

(** X22. [CreateNewContract] releases what it acquires, on every return:
    the runtime state it pushed is popped, also when the new address, the
    value transfer or the deduction of the deployment gas fails before an
    instance exists; the instance it pushed is popped and the host context
    it registered is unregistered.  The instance stack, the registry and
    the four state stacks are after it as they were before. *)
Theorem CreateNewContract_releases_what_it_acquires :
  forall instances registered input host,
    tracks_instances instances registered ->
    engine_leaves instances ->
    engine_leaves registered ->
    engine_leaves stateStacks ->
    instances_leave stateStacks ->
    instances (fst (CreateNewContract input host)) = instances host /\
    registered (fst (CreateNewContract input host)) = registered host /\
    stateStacks (fst (CreateNewContract input host)) = stateStacks host.
Proof.
  intros instances registered input host Htracks Hinstances Hregistered
    Hstacks Hapart.
  destruct (CreateNewContract_ways input host)
    as [Hquiet
       |[(used & pushed & Q1 & Q2 & ->)
        |(used & entered & inside & Q1 & Q2 & Q3 & Q4)]].
  - split; [|split]; now apply Hquiet.
  - destruct (runtime_stack_apart _ _ Htracks PopSetActiveState pushed)
      as [Hpop Hpop'].
    destruct (runtime_stack_apart _ _ Htracks PushState used)
      as [Hpush Hpush'].
    split; [|split].
    + rewrite Hpop, (Q2 _ instances Hinstances), Hpush.
      apply (Q1 _ instances Hinstances).
    + rewrite Hpop', (Q2 _ registered Hregistered), Hpush'.
      apply (Q1 _ registered Hregistered).
    + rewrite (runtime_pop_after_push pushed used
                 (Q2 _ stateStacks Hstacks)).
      apply (Q1 _ stateStacks Hstacks).
  - destruct (AddHostContext_registers _ _ Htracks entered)
      as (Hadd & Hfresh & Hadd').
    destruct (PushInstance_adds _ _ Htracks (fst (AddHostContext entered)))
      as [Hpush Hpush'].
    destruct (PopInstance_takes _ _ Htracks inside) as [Hpop Hpop'].
    destruct (runtime_stack_apart _ _ Htracks PopSetActiveState
                (PopInstance inside)) as [Hrestore Hrestore'].
    destruct (runtime_stack_apart _ _ Htracks PushState used)
      as [Hsave Hsave'].
    destruct (RemoveHostContext_unregisters _ _ Htracks
                (snd (AddHostContext entered))
                (onRuntime PopSetActiveState (PopInstance inside)))
      as [Hremove Hremove'].
    split; [|split].
    + rewrite (Q4 _ instances Hinstances), Hremove', Hrestore, Hpop,
        (Q3 _ instances Hinstances), Hpush, Hadd',
        (Q2 _ instances Hinstances), Hsave.
      apply (Q1 _ instances Hinstances).
    + rewrite (Q4 _ registered Hregistered), Hremove, Hrestore', Hpop',
        (Q3 _ registered Hregistered), Hpush', Hadd.
      rewrite (Q2 _ registered Hregistered), Hsave',
        (Q1 _ registered Hregistered) in *.
      now apply remove_registered.
    + rewrite (Q4 _ stateStacks Hstacks),
        (RemoveHostContext_leaves _ Hapart).
      rewrite (runtime_pop_after_push (PopInstance inside) used).
      * apply (Q1 _ stateStacks Hstacks).
      * rewrite (PopInstance_leaves _ Hapart), (Q3 _ stateStacks Hstacks),
          (PushInstance_leaves _ Hapart), (AddHostContext_leaves _ Hapart).
        apply (Q2 _ stateStacks Hstacks).
Qed.

(** ** Properties of the dispatch by call type *)

(** X23. After an asynchronous call whose function ran without error,
    [callSCMethod] does not return the error of [processAsyncInfo]: it
    returns nil.  After a direct call it returns that error. *)
Theorem callSCMethod_drops_the_error_of_processAsyncInfo :
  forall host function ran after pending err,
    verifyAllowedFunctionCall host = None ->
    GetFunctionToCall (active (Runtime host)) = inr function ->
    callGuest function host = (ran, None) ->
    processAsyncInfo (GetAsyncContextInfo (active (Runtime ran))) ran
    = (after, (pending, Some err)) ->
    (callType (GetVMInput (active (Runtime host))) = AsynchronousCall ->
     callSCMethod host = Returned (after, None)) /\
    (callType (GetVMInput (active (Runtime host))) = DirectCall ->
     callSCMethod host = Returned (after, Some err)).
Proof.
  intros host function ran after pending err Hallowed Hfunction Hran Hasync.
  unfold callSCMethod, getFunctionByCallType. rewrite Hallowed.
  split; intros Hkind; rewrite Hkind; cbn [CallType_eqb negb];
    rewrite Hfunction, Hran, Hasync; reflexivity.
Qed.

(** X24. A callback is looked up before any guest code runs, and judged
    after it ran.  When the stored async info cannot be read,
    [callSCMethod] returns that error and leaves the host untouched.  When
    it is read and holds no call to the caller, the function of the
    contract runs all the same, and [ErrCallBackFuncNotExpected] is returned
    after it, if the function left the stored async info and the VM input
    as they were. *)
Theorem callSCMethod_of_a_callback :
  forall host,
    verifyAllowedFunctionCall host = None ->
    callType (GetVMInput (active (Runtime host))) = AsynchronousCallBack ->
    (forall err,
       getCurrentAsyncInfo host = inl err ->
       callSCMethod host = Returned (host, Some err)) /\
    (forall asyncInfo function ran,
       getCurrentAsyncInfo host = inr asyncInfo ->
       (forall entry asyncCall,
          In entry (AsyncContextMap asyncInfo) ->
          In asyncCall (AsyncCalls (snd entry)) ->
          Destination asyncCall
          <> CallerAddr (GetVMInput (active (Runtime host)))) ->
       GetFunctionToCall (active (Runtime host)) = inr function ->
       callGuest function host = (ran, None) ->
       getCurrentAsyncInfo ran = inr asyncInfo ->
       GetVMInput (active (Runtime ran))
       = GetVMInput (active (Runtime host)) ->
       callSCMethod host = Returned (ran, Some ErrCallBackFuncNotExpected)).
Proof.
  intros host Hallowed Hkind. split.
  - intros err Hread. unfold callSCMethod, getFunctionByCallType.
    now rewrite Hallowed, Hkind, Hread.
  - intros asyncInfo function ran Hread Hnone Hfunction Hran Hread' Hinput.
    assert (Hcustom : findCustomCallback
                        (CallerAddr (GetVMInput (active (Runtime host))))
                        (AsyncContextMap asyncInfo) = None).
    { clear Hread Hread'. revert Hnone.
      generalize (AsyncContextMap asyncInfo) as contextMap.
      induction contextMap as [|[key context] rest IH]; intros Hnone;
        [reflexivity|].
      simpl.
      assert (Hhere : firstCallTo
                        (CallerAddr (GetVMInput (active (Runtime host))))
                        (AsyncCalls context) = None).
      { specialize (Hnone (key, context)). simpl in Hnone.
        generalize (fun asyncCall => Hnone asyncCall (or_introl eq_refl)).
        generalize (AsyncCalls context) as calls.
        induction calls as [|asyncCall calls IHcalls]; intros Hcalls;
          [reflexivity|].
        simpl.
        destruct (bytes_Equal _ (Destination asyncCall)) eqn:Hequal.
        - apply ExecutionFacts.bytes_Equal_spec in Hequal.
          exfalso. apply (Hcalls asyncCall); [now left | congruence].
        - apply IHcalls. intros other Hin. apply Hcalls. now right. }
      rewrite Hhere. apply IH. intros entry asyncCall Hin.
      apply Hnone. now right. }
    unfold callSCMethod, getFunctionByCallType.
    rewrite Hallowed, Hkind. cbn [CallType_eqb negb].
    rewrite Hread, Hcustom, Hfunction, Hran.
    unfold getCurrentAsyncInfo in Hread'. unfold processCallbackStack.
    destruct (CustomStorageKey AsyncDataPrefix
                (GetOriginalTxHash (active (Runtime ran))))
      as [err|storageKey]; [discriminate|].
    destruct (Unmarshal (GetStorage storageKey ran)) as [message|stored];
      [discriminate|].
    inversion Hread'; subst stored. rewrite Hinput.
    now rewrite (ExecutionFacts.findAsyncCall_no_match _ _ 0%nat Hnone).
Qed.

Lemma firstCallTo_position : forall caller calls position,
  match findCallPosition caller calls position with
  | Some found =>
      exists asyncCall,
        firstCallTo caller calls = Some asyncCall /\
        (position <= found)%nat /\
        nth_error calls (found - position) = Some asyncCall
  | None => firstCallTo caller calls = None
  end.
Proof.
  intros caller calls. induction calls as [|asyncCall rest IH];
    intros position; simpl; [reflexivity|].
  destruct (bytes_Equal caller (Destination asyncCall)).
  - exists asyncCall. rewrite Nat.sub_diag. repeat split. lia.
  - specialize (IH (S position)).
    destruct (findCallPosition caller rest (S position)) as [found|];
      [|exact IH].
    destruct IH as (found' & Hfirst & Hle & Hnth).
    exists found'. split; [exact Hfirst|]. split; [lia|].
    replace (found - position)%nat with (S (found - S position)) by lia.
    exact Hnth.
Qed.

Lemma custom_callback_found : forall caller contextMap position,
  Forall (fun entry => fst entry <> EmptyString) contextMap ->
  match findCustomCallback caller contextMap with
  | None =>
      findAsyncCall caller contextMap position EmptyString
      = (position, EmptyString)
  | Some asyncCall =>
      exists found identifier context,
        findAsyncCall caller contextMap position EmptyString
        = (found, identifier) /\
        identifier <> EmptyString /\
        In (identifier, context) contextMap /\
        nth_error (AsyncCalls context) found = Some asyncCall
  end.
Proof.
  intros caller contextMap.
  induction contextMap as [|[key context] rest IH]; intros position Hids;
    simpl; [reflexivity|].
  apply Forall_cons_iff in Hids as [Hkey Hrest]. simpl in Hkey.
  pose proof (firstCallTo_position caller (AsyncCalls context) 0) as Hfirst.
  destruct (findCallPosition caller (AsyncCalls context) 0) as [found|].
  - destruct Hfirst as (asyncCall & -> & _ & Hnth).
    rewrite Nat.sub_0_r in Hnth.
    rewrite (ExecutionFacts.nonempty_string_length _ Hkey).
    exists found, key, context. repeat split; trivial. now left.
  - rewrite Hfirst. simpl. specialize (IH position Hrest).
    destruct (findCustomCallback caller rest) as [asyncCall|]; [|exact IH].
    destruct IH as (found & identifier & ctx & Hfind & Hid & Hin & Hnth).
    exists found, identifier, ctx. repeat split; trivial. now right.
Qed.


End Properties.

(** ** The results on the concrete engine *)

Lemma freshIdentifier_above : forall registry idContext,
  In idContext registry -> idContext < freshIdentifier registry.
Proof.
  unfold freshIdentifier.
  induction registry as [|first rest IH]; intros idContext Hin;
    [contradiction|].
  simpl. destruct Hin as [<-|Hin]; [lia|].
  specialize (IH idContext Hin). lia.
Qed.

Lemma demoEngine_tracks_instances :
  tracks_instances (engine := demoEngine) instancesOf registeredIn.
Proof.
  constructor.
  - intros host. split; reflexivity.
  - intros host. split; [|reflexivity].
    unfold instancesOf. simpl.
    now destruct (worldInstances (others host)).
  - intros host. split; [reflexivity|]. split; [|reflexivity].
    simpl. intros Hin. apply freshIdentifier_above in Hin.
    unfold registeredIn in Hin. lia.
  - intros idContext host. split; reflexivity.
  - intros method host. split; reflexivity.
Qed.

(** Settles that an operation of the concrete engine leaves an observation
    that reads the world or the state stacks. *)
Ltac same_observation :=
  unfold leaves, leaves_it; intros; cbn;
  repeat match goal with
         | |- context [if ?test then _ else _] => destruct test
         | |- context [match ?address with [] => _ | _ :: _ => _ end] =>
             destruct address
         end;
  reflexivity.

Lemma demoEngine_leaves_instances :
  engine_leaves (operations := engineHost) (engine := demoEngine) instancesOf.
Proof.
  constructor; same_observation.
Qed.

Lemma demoEngine_leaves_registered :
  engine_leaves (operations := engineHost) (engine := demoEngine) registeredIn.
Proof.
  constructor; same_observation.
Qed.

Lemma demoEngine_leaves_stacks :
  engine_leaves (operations := engineHost) (engine := demoEngine) stateStacks.
Proof.
  constructor; same_observation.
Qed.

Lemma demoEngine_instances_leave_stacks :
  instances_leave (engine := demoEngine) stateStacks.
Proof.
  constructor; same_observation.
Qed.

Lemma callBuiltinFunction_uses_the_gas_consumed_witness :
  callBuiltinFunction (engine := demoEngine) mainCall
    (engineHostOf addressA "transferValue" DirectCall emptyAsyncInfo [])
  = (AddToActiveState (EngineOperations := demoEngine)
       (99, ["builtin"%string])
       (UseGas (EngineOperations := demoEngine) (100 - 99)
          (engineHostOf addressA "transferValue" DirectCall emptyAsyncInfo
             [])),
     None).
Proof.
  apply (proj1 (proj2 (callBuiltinFunction_uses_the_gas_consumed
                         (engine := demoEngine) mainCall
                         (engineHostOf addressA "transferValue" DirectCall
                            emptyAsyncInfo [])
                         (engineHostOf addressA "transferValue" DirectCall
                            emptyAsyncInfo [])
                         ltac:(uint64_literal))));
    [reflexivity | uint64_literal | reflexivity].
Defined.

Lemma execute_releases_what_it_acquires_witness :
  instancesOf
    (fst (Dispatch.execute (operations := engineHost) (engine := demoEngine) mainCall
            (engineHostOf addressA "main" DirectCall emptyAsyncInfo [])))
  = 1%nat /\
  registeredIn
    (fst (Dispatch.execute (operations := engineHost) (engine := demoEngine) mainCall
            (engineHostOf addressA "main" DirectCall emptyAsyncInfo [])))
  = [4] /\
  stateStacks
    (fst (Dispatch.execute (operations := engineHost) (engine := demoEngine) mainCall
            (engineHostOf addressA "main" DirectCall emptyAsyncInfo [])))
  = stateStacks (engineHostOf addressA "main" DirectCall emptyAsyncInfo []).
Proof.
  apply (execute_releases_what_it_acquires (operations := engineHost) (engine := demoEngine)
           instancesOf registeredIn mainCall
           (engineHostOf addressA "main" DirectCall emptyAsyncInfo [])
           demoEngine_tracks_instances demoEngine_leaves_instances
           demoEngine_leaves_registered demoEngine_leaves_stacks
           demoEngine_instances_leave_stacks).
Defined.

Lemma CreateNewContract_releases_what_it_acquires_witness :
  instancesOf
    (fst (CreateNewContract (operations := engineHost) (engine := demoEngine) smallContract
            (engineHostOf addressA "broken" DirectCall emptyAsyncInfo [])))
  = 1%nat /\
  registeredIn
    (fst (CreateNewContract (operations := engineHost) (engine := demoEngine) smallContract
            (engineHostOf addressA "broken" DirectCall emptyAsyncInfo [])))
  = [4] /\
  stateStacks
    (fst (CreateNewContract (operations := engineHost) (engine := demoEngine) smallContract
            (engineHostOf addressA "broken" DirectCall emptyAsyncInfo [])))
  = stateStacks
      (engineHostOf addressA "broken" DirectCall emptyAsyncInfo []).
Proof.
  apply (CreateNewContract_releases_what_it_acquires (operations := engineHost) (engine := demoEngine)
           instancesOf registeredIn smallContract
           (engineHostOf addressA "broken" DirectCall emptyAsyncInfo [])
           demoEngine_tracks_instances demoEngine_leaves_instances
           demoEngine_leaves_registered demoEngine_leaves_stacks
           demoEngine_instances_leave_stacks).
Defined.

Lemma callSCMethod_drops_the_error_of_processAsyncInfo_witness :
  callSCMethod (operations := engineHost) (engine := demoEngine)
    (engineHostOf addressA "main" AsynchronousCall twoPendingCalls [])
  = Returned
      (say "ran"
         (engineHostOf addressA "main" AsynchronousCall twoPendingCalls []),
       None) /\
  callSCMethod (operations := engineHost) (engine := demoEngine)
    (engineHostOf addressA "main" DirectCall twoPendingCalls [])
  = Returned
      (say "ran"
         (engineHostOf addressA "main" DirectCall twoPendingCalls []),
       Some (ErrForeign "no gas for the async calls")).
Proof.
  split.
  - apply (proj1 (callSCMethod_drops_the_error_of_processAsyncInfo
                    (operations := engineHost) (engine := demoEngine)
                    (engineHostOf addressA "main" AsynchronousCall
                       twoPendingCalls [])
                    "main"%string _ _ None
                    (ErrForeign "no gas for the async calls")
                    eq_refl eq_refl eq_refl eq_refl)).
    reflexivity.
  - apply (proj2 (callSCMethod_drops_the_error_of_processAsyncInfo
                    (operations := engineHost) (engine := demoEngine)
                    (engineHostOf addressA "main" DirectCall
                       twoPendingCalls [])
                    "main"%string _ _ None
                    (ErrForeign "no gas for the async calls")
                    eq_refl eq_refl eq_refl eq_refl)).
    reflexivity.
Defined.

Lemma callSCMethod_of_a_callback_witness :
  callSCMethod (operations := engineHost) (engine := demoEngine)
    (engineHostOf addressA "callBack" AsynchronousCallBack emptyAsyncInfo [])
  = Returned
      (engineHostOf addressA "callBack" AsynchronousCallBack emptyAsyncInfo
         [],
       Some (ErrForeign "unexpected end of JSON input")) /\
  callSCMethod (operations := engineHost) (engine := demoEngine)
    (engineHostOf addressC "callBack" AsynchronousCallBack emptyAsyncInfo
       storeWithTwoPendingCalls)
  = Returned
      (say "ran"
         (engineHostOf addressC "callBack" AsynchronousCallBack emptyAsyncInfo
            storeWithTwoPendingCalls),
       Some ErrCallBackFuncNotExpected).
Proof.
  split.
  - apply (proj1 (callSCMethod_of_a_callback (operations := engineHost) (engine := demoEngine)
                    (engineHostOf addressA "callBack" AsynchronousCallBack
                       emptyAsyncInfo [])
                    eq_refl eq_refl)).
    reflexivity.
  - apply (proj2 (callSCMethod_of_a_callback (operations := engineHost) (engine := demoEngine)
                    (engineHostOf addressC "callBack" AsynchronousCallBack
                       emptyAsyncInfo storeWithTwoPendingCalls)
                    eq_refl eq_refl)
             twoPendingCalls "callBack"%string);
      try reflexivity.
    intros entry asyncCall [<-|[]] [<-|[<-|[]]]; discriminate.
Defined.


Lemma processCallbackStack_of_the_last_call_witness :
  processCallbackStack (operations := engineHost)
    (engineHostOf addressA "callBack" AsynchronousCallBack emptyAsyncInfo
       storeWithOnePendingCall)
  = Returned
      (engineHostOf addressA "callBack" AsynchronousCallBack emptyAsyncInfo
         ((demoStorageKey, []) :: storeWithOnePendingCall),
       None).
Proof.
  apply (proj1 (proj2 (ExecutionFacts.processCallbackStack_of_the_last_call
                         (operations := engineHost)
                         (engineHostOf addressA "callBack"
                            AsynchronousCallBack emptyAsyncInfo
                            storeWithOnePendingCall)
                         demoStorageKey (mkAsyncInitiator addressC [])
                         "ctx" "done" (pendingCallTo addressA 100)
                         eq_refl eq_refl ltac:(discriminate) eq_refl)));
    reflexivity.
Defined.

(** ** Async calls that run on this host *)

Section AsyncCallProperties.

Context {states : ContextStates} {operations : HostOperations}
  {async : AsyncOperations}.


(** X27. [callbackAsync] settles the call before anything can fail: the
    call is left resolved when the return code of the VM output is Ok and
    rejected otherwise, never pending, with its other fields as they were.
    When the input of the callback cannot be made, the error is returned
    and the host is untouched, and the call is settled all the same. *)
Theorem callbackAsync_settles_the_call :
  forall asyncCall vmOutput executionError host,
    Status (fst (snd (callbackAsync asyncCall vmOutput executionError host)))
    = (if ReturnCodeOk vmOutput then AsyncCallResolved
       else AsyncCallRejected) /\
    isPending
      (fst (snd (callbackAsync asyncCall vmOutput executionError host)))
    = false /\
    withStatus (Status asyncCall)
      (fst (snd (callbackAsync asyncCall vmOutput executionError host)))
    = asyncCall /\
    (forall err,
       createCallbackContractCallInput vmOutput (Destination asyncCall)
         (if ReturnCodeOk vmOutput then SuccessCallback asyncCall
          else ErrorCallback asyncCall)
         executionError host = inl err ->
       callbackAsync asyncCall vmOutput executionError host
       = (host,
          (withStatus
             (if ReturnCodeOk vmOutput then AsyncCallResolved
              else AsyncCallRejected) asyncCall,
           Some err))).
Proof.
  intros [status destination data gasLimit percentage value success failure]
    vmOutput executionError host.
  unfold callbackAsync, withStatus, isPending.
  destruct (ReturnCodeOk vmOutput); cbn.
  - destruct (createCallbackContractCallInput vmOutput destination success
                executionError host) as [err|callbackCallInput] eqn:Hinput.
    + repeat split. intros err' Heq. now inversion Heq.
    + destruct (ExecuteOnDestContext callbackCallInput host)
        as [after [[callbackVMOutput pending] callBackErr]].
      destruct (processCallbackVMOutput callbackVMOutput callBackErr after)
        as [final err].
      repeat split. intros err' Heq. discriminate.
  - destruct (createCallbackContractCallInput vmOutput destination failure
                executionError host) as [err|callbackCallInput] eqn:Hinput.
    + repeat split. intros err' Heq. now inversion Heq.
    + destruct (ExecuteOnDestContext callbackCallInput host)
        as [after [[callbackVMOutput pending] callBackErr]].
      destruct (processCallbackVMOutput callbackVMOutput callBackErr after)
        as [final err].
      repeat split. intros err' Heq. discriminate.
Qed.

End AsyncCallProperties.


End DispatchFacts.
